(** * Progress-event seeding: the pacing scheduler of [seed/events.ts]

    A shallow embedding of [seedProgressEventsForGroup] (seed/events.ts)
    and of the helpers it calls ([getTimestampDaysAgo] of seed/config.ts and
    the event-creation helpers of seed/events.ts), then of the other
    seeders of seed/events.ts ([seedStandaloneLessonEvents],
    [seedPointsEvents], [seedAttendanceEvents] and
    [seedDetailedProgressForFirstLesson]), followed by the properties of
    the scheduler and of these seeders.

    Modelling conventions.
    - A TypeScript [number] that carries a fraction is an IEEE-754 binary64
      value: the Standard Library's [spec_float] with [prec = 53] and
      [emax = 1024], and the rounding operations [SFmul] and [SFdiv].
    - A [number] that the code only uses as an integer (an index, a length,
      a loop counter, a database id, a day offset) is a [Z]. Sums,
      differences, comparisons and remainders of such integers are exact
      in binary64 below [2^53], and are taken in [Z].
    - The result of [Math.ceil]/[Math.floor] is integer-valued, infinite
      or NaN: the type [intnum].
    - An uncaught exception (a [TypeError] on a property of [undefined], a
      [RangeError] of [toISOString] on an invalid date) rejects the promise:
      the outcome [Throw].
    - The database is the ordered list of the rows the run inserts. A
      call of [createMasteryCheckResponse], which inserts its rows only
      when the database holds an assignment question for the mastery
      check, is one entry of the list; the properties count the rows of
      [events], not these calls.
    - Dates stay within the range of a JavaScript [Date]: the embedding
      of [getTimestampDaysAgo] has no [RangeError] for a day or an hour
      too far from 1970, and the properties that assert that a seeder
      returns are stated for days and hours within the range
      ([maxDateDays], [maxDateHours]).
    - A timestamp is a whole number of hours of local wall-clock time,
      counted from the local midnight that starts the day of the run. In
      [seedDetailedProgressForFirstLesson], which steps by minutes from
      the dates of [getTimestamp], it is the milliseconds of
      [Date.getTime]; the dates that [getTimestamp] draws with
      [Math.random] are an input of the model. *)

From Stdlib Require Import ZArith List Lia Bool String Sorted.
From Stdlib Require Import Floats.SpecFloat.
Import ListNotations.
Local Open Scope Z_scope.

(** ** JavaScript numbers *)

Module Js.

Definition prec : Z := 53.
Definition emax : Z := 1024.

(** A binary64 value. *)
Definition number : Type := spec_float.

(** The binary64 value of an integer (exact below [2^53]). *)
Definition ofInt (n : Z) : number := binary_normalize prec emax n 0 false.

Definition mul : number -> number -> number := SFmul prec emax.
Definition div : number -> number -> number := SFdiv prec emax.

(** The decimal literals of the source, as the nearest binary64 values. *)
Definition lit_1_0 : number := S754_finite false 4503599627370496 (-52).
Definition lit_0_8 : number := S754_finite false 7205759403792794 (-53).
Definition lit_0_6 : number := S754_finite false 5404319552844595 (-53).
Definition lit_0_4 : number := S754_finite false 7205759403792794 (-54).
Definition lit_0_2 : number := S754_finite false 7205759403792794 (-55).
Definition lit_0_5 : number := S754_finite false 4503599627370496 (-53).
Definition lit_0_3 : number := S754_finite false 5404319552844595 (-54).

(** An integer-valued, infinite or NaN number. *)
Inductive intnum : Type :=
| Int (z : Z)
| IInf (negative : bool)
| INaN.

Definition toNumber (x : intnum) : number :=
  match x with
  | Int z => ofInt z
  | IInf s => S754_infinity s
  | INaN => S754_nan
  end.

(** [Math.ceil]: the least integer not below [(-1)^s * m * 2^e]. *)
Definition Math_ceil (x : number) : intnum :=
  match x with
  | S754_zero _ => Int 0
  | S754_infinity s => IInf s
  | S754_nan => INaN
  | S754_finite s m e =>
      let z := cond_Zopp s (Zpos m) in
      if 0 <=? e then Int (z * 2 ^ e) else Int (- ((- z) / 2 ^ (- e)))
  end.

(** [Math.floor]: the greatest integer not above [(-1)^s * m * 2^e]. *)
Definition Math_floor (x : number) : intnum :=
  match x with
  | S754_zero _ => Int 0
  | S754_infinity s => IInf s
  | S754_nan => INaN
  | S754_finite s m e =>
      let z := cond_Zopp s (Zpos m) in
      if 0 <=? e then Int (z * 2 ^ e) else Int (z / 2 ^ (- e))
  end.

(** [a + b] *)
Definition add (a b : intnum) : intnum :=
  match a, b with
  | INaN, _ | _, INaN => INaN
  | Int x, Int y => Int (x + y)
  | IInf s, Int _ => IInf s
  | Int _, IInf s => IInf s
  | IInf s, IInf t => if Bool.eqb s t then IInf s else INaN
  end.

(** [a - b] *)
Definition sub (a b : intnum) : intnum :=
  match a, b with
  | INaN, _ | _, INaN => INaN
  | Int x, Int y => Int (x - y)
  | IInf s, Int _ => IInf s
  | Int _, IInf s => IInf (negb s)
  | IInf s, IInf t => if Bool.eqb s t then INaN else IInf s
  end.

(** [a < b] *)
Definition lt (a b : intnum) : bool :=
  match a, b with
  | INaN, _ | _, INaN => false
  | Int x, Int y => x <? y
  | IInf s, Int _ => s
  | Int _, IInf s => negb s
  | IInf s, IInf t => s && negb t
  end.

(** [a === b] *)
Definition strict_eq (a b : intnum) : bool :=
  match a, b with
  | Int x, Int y => x =? y
  | IInf s, IInf t => Bool.eqb s t
  | _, _ => false
  end.

(** [Math.min(a, b)] and [Math.max(a, b)]: NaN when an argument is. *)
Definition Math_min (a b : intnum) : intnum :=
  match a, b with
  | INaN, _ | _, INaN => INaN
  | _, _ => if lt b a then b else a
  end.

Definition Math_max (a b : intnum) : intnum :=
  match a, b with
  | INaN, _ | _, INaN => INaN
  | _, _ => if lt a b then b else a
  end.

Definition length {A : Type} (l : list A) : Z := Z.of_nat (List.length l).

(** The clamping of a bound of [Array.prototype.slice]:
    [ToIntegerOrInfinity], then a negative bound counts from the end. *)
Definition relativeIndex (len : Z) (x : intnum) : Z :=
  match x with
  | INaN => 0
  | IInf true => 0
  | IInf false => len
  | Int z => if z <? 0 then Z.max (len + z) 0 else Z.min z len
  end.

(** [l.slice(start, end)] *)
Definition slice {A : Type} (l : list A) (start end_ : intnum) : list A :=
  let k := relativeIndex (length l) start in
  let final := relativeIndex (length l) end_ in
  firstn (Z.to_nat (final - k)) (skipn (Z.to_nat k) l).

(** [l.slice(start)] *)
Definition slice_from {A : Type} (l : list A) (start : intnum) : list A :=
  slice l start (Int (length l)).

(** [l[x]]: [undefined] ([None]) unless [x] is an index of [l]. *)
Definition get {A : Type} (l : list A) (x : intnum) : option A :=
  match x with
  | Int z => if z <? 0 then None else nth_error l (Z.to_nat z)
  | _ => None
  end.

(** [l.indexOf(x)] on an array of integers. *)
Fixpoint indexOf_from (l : list Z) (x : Z) (k : Z) : Z :=
  match l with
  | [] => -1
  | y :: l' => if y =? x then k else indexOf_from l' x (k + 1)
  end.

Definition indexOf (l : list Z) (x : Z) : Z := indexOf_from l x 0.

End Js.

Import Js.

(** ** The data of seed/config.ts *)

Record Enrollment : Type := {
  enrollment_id : Z;
  studentProfileId : string;
  name : string
}.

(** [kcId] is [None] when the property is missing at run time. *)
Record LessonQuestion : Type := {
  question_id : Z;
  kcId : option Z;
  assignmentQuestionId : Z
}.

Record LessonData : Type := {
  lessonId : Z;
  lessonTitle : string;
  masteryCheckId : Z;
  masteryCheckTitle : string;
  assignedLessonId : Z;
  assignedMasteryId : Z;
  questions : list LessonQuestion
}.

(** The rows the run inserts. *)
Inductive EventType : Type :=
| LESSON_QUESTION_SHOWN
| QUESTION_ANSWERED
| LESSON_COMPLETED
| ASSIGNMENT_COMPLETED.

Record Event : Type := {
  type : EventType;
  ev_enrollmentId : Z;
  ev_assignmentId : Z;
  ev_questionId : option Z;
  ev_groupId : Z;
  created_at : Z
}.

(** A row of [events], or the call of [createMasteryCheckResponse], which
    reads [assignment_questions] and inserts the response rows of the
    mastery check with the given timestamp. *)
Inductive DbWrite : Type :=
| InsertEvent (e : Event)
| MasteryCheckResponse (enrollmentId masteryCheck : Z) (timestamp : Z).

(** The two queues of deferred work (events.ts, lines 84-101). *)
Record PendingMasteryCheck : Type := {
  pending_enrollment : Enrollment;
  pending_lesson : LessonData;
  pending_scheduledDayOffset : Z;
  pending_moduleIndex : Z
}.

Record PartialLessonProgress : Type := {
  partial_enrollment : Enrollment;
  partial_lesson : LessonData;
  questionsCompleted : intnum;
  partial_scheduledDayOffset : Z;
  partial_moduleIndex : Z;
  lessonIndex : Z
}.

(** ** Effects: rows written, work queued, exceptions *)

Inductive outcome (A : Type) : Type :=
| Done (a : A)
| Throw.

Arguments Done {A} a.
Arguments Throw {A}.

Record Out : Type := {
  writes : list DbWrite;
  partialLessonProgress : list PartialLessonProgress;
  pendingMasteryChecks : list PendingMasteryCheck
}.

Definition out_nil : Out := Build_Out [] [] [].

Definition out_app (a b : Out) : Out :=
  Build_Out (writes a ++ writes b)
            (partialLessonProgress a ++ partialLessonProgress b)
            (pendingMasteryChecks a ++ pendingMasteryChecks b).

(** A computation returns a value and what it wrote and queued, or throws. *)
Definition M (A : Type) : Type := outcome (A * Out).

Definition ret {A : Type} (a : A) : M A := Done (a, out_nil).

Definition bind {A B : Type} (c : M A) (k : A -> M B) : M B :=
  match c with
  | Throw => Throw
  | Done (a, o1) =>
      match k a with
      | Throw => Throw
      | Done (b, o2) => Done (b, out_app o1 o2)
      end
  end.

Notation "x <- c ;; k" := (bind c (fun x => k))
  (at level 61, c at next level, right associativity).
Notation "c ;;; k" := (bind c (fun _ => k))
  (at level 61, right associativity).

Definition throw {A : Type} : M A := Throw.

Definition insert (w : DbWrite) : M unit := Done (tt, Build_Out [w] [] []).

Definition push_partial (p : PartialLessonProgress) : M unit :=
  Done (tt, Build_Out [] [p] []).

Definition push_pending (p : PendingMasteryCheck) : M unit :=
  Done (tt, Build_Out [] [] [p]).

(** The value of an expression that throws on [undefined]. *)
Definition defined {A : Type} (x : option A) : M A :=
  match x with
  | Some a => ret a
  | None => throw
  end.

(** [for (let k = start; k < bound; k++) { const x = arr[k]; body }], where
    [rest] is [arr] from index [k] on and [s] the variables the body
    updates. Every body of the source uses a property of [arr[k]] at once,
    which throws when [k] is past the end. *)
Fixpoint for_index {A S : Type} (rest : list A) (k : Z) (bound : intnum)
    (body : Z -> A -> S -> M S) (s : S) : M S :=
  if lt (Int k) bound then
    match rest with
    | [] => throw
    | x :: rest' =>
        s' <- body k x s ;;
        for_index rest' (k + 1) bound body s'
    end
  else ret s.

(** [for (const x of arr) body] *)
Fixpoint for_of {A : Type} (arr : list A) (body : A -> M unit) : M unit :=
  match arr with
  | [] => ret tt
  | x :: arr' => body x ;;; for_of arr' body
  end.

(** [arr] from index [k] on; empty when [k] is not an index. *)
Definition from_index {A : Type} (arr : list A) (k : Z) : list A :=
  if k <? 0 then [] else skipn (Z.to_nat k) arr.

(** ** seed/config.ts: timestamps *)

(** [getTimestampDaysAgo(daysAgo, hoursOffset)] (config.ts, lines 185-190):
    10 o'clock plus [hoursOffset] hours, [daysAgo] days before today.
    [setHours] of a NaN or infinite hour gives an invalid date, on which
    [toISOString] throws. It also throws on a date that leaves the range
    of [Date], some 100,000,000 days before the run: this is not
    embedded, the day and the hour are taken within that range. *)
Definition getTimestampDaysAgo (daysAgo : Z) (hoursOffset : intnum) : M Z :=
  match hoursOffset with
  | Int h => ret (10 + h - 24 * daysAgo)
  | _ => throw
  end.

(** The weekday ([getDay], 0 = Sunday) of the day [dayOffset] days before a
    day whose weekday is [today]. *)
Definition getDay (today dayOffset : Z) : Z := (today - dayOffset) mod 7.

(** The working days (events.ts, lines 54-61): the offsets from
    [daysToSeed] down to 1 whose day is not a Saturday or a Sunday.
    [n] counts the offsets still to visit, [dayOffset] included. The
    date of line 56 is made by [getTimestampDaysAgo(dayOffset)] and only
    its weekday is used; the call is within the range of [Date] for the
    day offsets up to [maxDateDays]. *)
Fixpoint workingDaysFrom (today : Z) (n : nat) (dayOffset : Z) : list Z :=
  match n with
  | O => []
  | S n' =>
      let dayOfWeek := getDay today dayOffset in
      if negb (dayOfWeek =? 0) && negb (dayOfWeek =? 6)
      then dayOffset :: workingDaysFrom today n' (dayOffset - 1)
      else workingDaysFrom today n' (dayOffset - 1)
  end.

Definition workingDaysOf (today daysToSeed : Z) : list Z :=
  workingDaysFrom today (Z.to_nat daysToSeed) daysToSeed.

(** ** seed/events.ts: the event-creation helpers *)

(** [if (!question.kcId) return;]: a missing id and the id 0 are falsy. *)
Definition truthy (k : option Z) : bool :=
  match k with
  | Some z => negb (z =? 0)
  | None => false
  end.

(** events.ts, lines 435-462 *)
Definition createQuestionShownEvent (enrollment : Enrollment)
    (lesson : LessonData) (question : LessonQuestion) (groupId : Z)
    (timestamp : Z) : M unit :=
  if negb (truthy (kcId question)) then ret tt
  else insert (InsertEvent
         {| type := LESSON_QUESTION_SHOWN;
            ev_enrollmentId := enrollment_id enrollment;
            ev_assignmentId := lessonId lesson;
            ev_questionId := Some (question_id question);
            ev_groupId := groupId;
            created_at := timestamp |}).

(** events.ts, lines 464-498 *)
Definition createQuestionAnsweredEvent (enrollment : Enrollment)
    (lesson : LessonData) (question : LessonQuestion) (questionIndex : Z)
    (groupId : Z) (timestamp : Z) : M unit :=
  insert (InsertEvent
    {| type := QUESTION_ANSWERED;
       ev_enrollmentId := enrollment_id enrollment;
       ev_assignmentId := lessonId lesson;
       ev_questionId := Some (question_id question);
       ev_groupId := groupId;
       created_at := timestamp |}).

(** events.ts, lines 518-541 *)
Definition createLessonCompletedEvent (enrollment : Enrollment)
    (lesson : LessonData) (groupId : Z) (timestamp : Z) : M unit :=
  insert (InsertEvent
    {| type := LESSON_COMPLETED;
       ev_enrollmentId := enrollment_id enrollment;
       ev_assignmentId := lessonId lesson;
       ev_questionId := None;
       ev_groupId := groupId;
       created_at := timestamp |}).

(** events.ts, lines 548-571 *)
Definition createMasteryCheckCompletedEvent (enrollment : Enrollment)
    (lesson : LessonData) (groupId : Z) (timestamp : Z) : M unit :=
  insert (InsertEvent
    {| type := ASSIGNMENT_COMPLETED;
       ev_enrollmentId := enrollment_id enrollment;
       ev_assignmentId := masteryCheckId lesson;
       ev_questionId := None;
       ev_groupId := groupId;
       created_at := timestamp |}).

(** events.ts, lines 577-616: the call, recorded with its arguments. The
    function reads the assignment question of the mastery check from the
    database and returns without inserting when there is none (lines
    582-587); otherwise it inserts the attempt and the response, which
    carry the timestamp. *)
Definition createMasteryCheckResponse (enrollment : Enrollment)
    (lesson : LessonData) (timestamp : Z) : M unit :=
  insert (MasteryCheckResponse (enrollment_id enrollment)
            (masteryCheckId lesson) timestamp).

(** ** seed/events.ts: [seedProgressEventsForGroup] *)

(** [lessonsByModule.reduce((sum, m) => sum + m.length, 0)] (line 47) *)
Definition totalLessons (lessonsByModule : list (list LessonData)) : Z :=
  fold_left (fun sum m => sum + length m) lessonsByModule 0.

(** [Math.ceil((moduleLessonCount / totalLessons) * workingDays.length)]
    (line 70) *)
Definition moduleDayCount (moduleLessonCount total nWorkingDays : Z)
  : intnum :=
  Math_ceil (mul (div (ofInt moduleLessonCount) (ofInt total))
                 (ofInt nWorkingDays)).

(** The loop of lines 68-74: the windows of the modules from the current
    one on, and [dayIndex] when the loop ends. *)
Fixpoint allocateFrom (workingDays : list Z) (total : Z)
    (modules : list (list LessonData)) (dayIndex : intnum)
  : list (list Z) * intnum :=
  match modules with
  | [] => ([], dayIndex)
  | moduleLessons :: rest =>
      let moduleLessonCount := length moduleLessons in
      let count := moduleDayCount moduleLessonCount total (length workingDays) in
      let endIndex := Math_min (add dayIndex count) (Int (length workingDays)) in
      let '(windows, final) := allocateFrom workingDays total rest endIndex in
      (slice workingDays dayIndex endIndex :: windows, final)
  end.

(** Lines 66-78: the windows, the last one extended by the days that are
    left. Pushing onto the last window of no window throws. *)
Definition moduleWorkingDays (workingDays : list Z)
    (lessonsByModule : list (list LessonData)) : outcome (list (list Z)) :=
  let '(windows, dayIndex) :=
    allocateFrom workingDays (totalLessons lessonsByModule)
                 lessonsByModule (Int 0) in
  if lt dayIndex (Int (length workingDays)) then
    match windows with
    | [] => Throw
    | _ :: _ =>
        Done (removelast windows
                ++ [last windows [] ++ slice_from workingDays dayIndex])
    end
  else Done windows.

(** Lines 104-110 *)
Definition getNextWorkingDay (currentDayOffset : Z) (moduleDays : list Z) : Z :=
  let currentIndex := indexOf moduleDays currentDayOffset in
  if (currentIndex =? -1) || (currentIndex =? length moduleDays - 1)
  then Z.max 1 (currentDayOffset - 1)
  else nth (Z.to_nat (currentIndex + 1)) moduleDays 0.

(** Lines 117-126 *)
Definition completionRate (i : Z) : number :=
  match Z.rem i 5 with
  | 0 => lit_1_0
  | 1 => lit_0_8
  | 2 => lit_0_6
  | 3 => lit_0_4
  | 4 => lit_0_2
  | _ => lit_0_5
  end.

(** Line 136 *)
Definition lessonsToCompleteInModule (moduleLessons : list LessonData)
    (i : Z) : intnum :=
  Math_ceil (mul (ofInt (length moduleLessons)) (completionRate i)).

(** Line 141 *)
Definition startDayIndex (i nEnrollments : Z) (moduleDays : list Z) : intnum :=
  Math_floor (mul (div (ofInt i) (ofInt nEnrollments))
                  (mul (ofInt (length moduleDays)) lit_0_3)).

(** Line 147 *)
Definition daysPerLesson (availableDays : list Z) (toComplete : intnum)
  : intnum :=
  Math_max (Int 1)
    (Math_floor (div (ofInt (length availableDays)) (toNumber toComplete))).

(** Line 156 *)
Definition splitLesson (i lessonIdx moduleIndex totalQuestions : Z) : bool :=
  (Z.rem (i + lessonIdx + moduleIndex) 10 <? 3) && (2 <=? totalQuestions).

(** Lines 157-158 *)
Definition questionsDay1 (split : bool) (totalQuestions : Z) : intnum :=
  if split then Math_floor (div (ofInt totalQuestions) (ofInt 2))
  else Int totalQuestions.

Definition questionsDay2 (split : bool) (totalQuestions : Z) : intnum :=
  if split then sub (Int totalQuestions) (questionsDay1 split totalQuestions)
  else Int 0.

(** Lines 206 and 262 *)
Definition delayMasteryCheck (sum : Z) : bool := Z.rem sum 5 <? 2.

(** The body of the two question loops (lines 172-184 and 241-253): the
    question at index [q], shown and answered [hours] hours after 10. *)
Definition answerQuestion (groupId : Z) (enrollment : Enrollment)
    (lesson : LessonData) (dayOffset : Z) (hours : intnum) (q : Z)
    (question : LessonQuestion) : M unit :=
  questionTimestamp <- getTimestampDaysAgo dayOffset hours ;;
  createQuestionShownEvent enrollment lesson question groupId
    questionTimestamp ;;;
  createQuestionAnsweredEvent enrollment lesson question q groupId
    questionTimestamp.

(** Lines 200-222: the lesson is completed on its first day. *)
Definition completeToday (groupId : Z) (enrollment : Enrollment)
    (lesson : LessonData) (i lessonIdx moduleIndex : Z) (day1Offset : Z)
    (answered : intnum) (moduleDays : list Z) : M unit :=
  completedTimestamp <- getTimestampDaysAgo day1Offset answered ;;
  createLessonCompletedEvent enrollment lesson groupId completedTimestamp ;;;
  if delayMasteryCheck (i + lessonIdx + moduleIndex) && (1 <? day1Offset)
  then
    let nextWorkingDay := getNextWorkingDay day1Offset moduleDays in
    push_pending
      {| pending_enrollment := enrollment;
         pending_lesson := lesson;
         pending_scheduledDayOffset := nextWorkingDay;
         pending_moduleIndex := moduleIndex |}
  else
    createMasteryCheckResponse enrollment lesson completedTimestamp ;;;
    createMasteryCheckCompletedEvent enrollment lesson groupId
      completedTimestamp.

(** Lines 152-223: the body of the lesson loop; the variable it updates is
    [dayIdxOffset]. *)
Definition scheduleLesson (groupId : Z) (enrollment : Enrollment)
    (i moduleIndex : Z) (moduleDays availableDays : list Z)
    (perLesson : intnum) (lessonIdx : Z) (lesson : LessonData)
    (dayIdxOffset : intnum) : M intnum :=
  let totalQuestions := length (questions lesson) in
  let split := splitLesson i lessonIdx moduleIndex totalQuestions in
  let day1Idx := Math_min dayIdxOffset (Int (length availableDays - 1)) in
  day1Offset <- defined (get availableDays day1Idx) ;;
  for_index (questions lesson) 0 (questionsDay1 split totalQuestions)
    (fun q question _ =>
       answerQuestion groupId enrollment lesson day1Offset (Int q) q question)
    tt ;;;
  if split && lt (Int 0) (questionsDay2 split totalQuestions) then
    let nextWorkingDay := getNextWorkingDay day1Offset availableDays in
    push_partial
      {| partial_enrollment := enrollment;
         partial_lesson := lesson;
         questionsCompleted := questionsDay1 split totalQuestions;
         partial_scheduledDayOffset := nextWorkingDay;
         partial_moduleIndex := moduleIndex;
         lessonIndex := lessonIdx |} ;;;
    ret (add dayIdxOffset (Int 2))
  else
    completeToday groupId enrollment lesson i lessonIdx moduleIndex
      day1Offset (questionsDay1 split totalQuestions) moduleDays ;;;
    ret (add dayIdxOffset perLesson).

(** Lines 130-224: one module of one student. *)
Definition scheduleModule (groupId : Z) (enrollment : Enrollment)
    (i nEnrollments moduleIndex : Z) (moduleLessons : list LessonData)
    (moduleDays : list Z) : M unit :=
  if length moduleDays =? 0 then ret tt
  else
    let toComplete := lessonsToCompleteInModule moduleLessons i in
    if strict_eq toComplete (Int 0) then ret tt
    else
      let availableDays :=
        slice_from moduleDays (startDayIndex i nEnrollments moduleDays) in
      if length availableDays =? 0 then ret tt
      else
        let perLesson := daysPerLesson availableDays toComplete in
        for_index moduleLessons 0 toComplete
          (scheduleLesson groupId enrollment i moduleIndex moduleDays
             availableDays perLesson)
          (Int 0) ;;;
        ret tt.

(** Lines 129-225: the modules of one student, from [moduleIndex] on;
    [moduleDays.length] throws when the module has no window. *)
Fixpoint scheduleModules (groupId : Z) (enrollment : Enrollment)
    (i nEnrollments : Z) (windows : list (list Z))
    (modules : list (list LessonData)) (moduleIndex : Z) : M unit :=
  match modules with
  | [] => ret tt
  | moduleLessons :: rest =>
      moduleDays <- defined (get windows (Int moduleIndex)) ;;
      scheduleModule groupId enrollment i nEnrollments moduleIndex
        moduleLessons moduleDays ;;;
      scheduleModules groupId enrollment i nEnrollments windows rest
        (moduleIndex + 1)
  end.

(** Lines 113-226: the students from index [i] on. *)
Fixpoint scheduleStudents (groupId : Z) (nEnrollments : Z)
    (windows : list (list Z)) (lessonsByModule : list (list LessonData))
    (enrollments : list Enrollment) (i : Z) : M unit :=
  match enrollments with
  | [] => ret tt
  | enrollment :: rest =>
      scheduleModules groupId enrollment i nEnrollments windows
        lessonsByModule 0 ;;;
      scheduleStudents groupId nEnrollments windows lessonsByModule rest
        (i + 1)
  end.

(** Lines 229-277: the second day of one split lesson. *)
Definition continueLesson (groupId : Z) (windows : list (list Z))
    (partial : PartialLessonProgress) : M unit :=
  let enrollment := partial_enrollment partial in
  let lesson := partial_lesson partial in
  let scheduledDayOffset := partial_scheduledDayOffset partial in
  let moduleIndex := partial_moduleIndex partial in
  let moduleDays := get windows (Int moduleIndex) in
  match questionsCompleted partial with
  | Int done =>
      for_index (from_index (questions lesson) done) done
        (Int (length (questions lesson)))
        (fun q question _ =>
           answerQuestion groupId enrollment lesson scheduledDayOffset
             (Int (q - done)) q question)
        tt ;;;
      completedTimestamp <-
        getTimestampDaysAgo scheduledDayOffset
          (Int (length (questions lesson) - done)) ;;
      createLessonCompletedEvent enrollment lesson groupId
        completedTimestamp ;;;
      if delayMasteryCheck (lessonIndex partial + moduleIndex)
         && (1 <? scheduledDayOffset)
      then
        days <- defined moduleDays ;;
        let nextWorkingDay := getNextWorkingDay scheduledDayOffset days in
        push_pending
          {| pending_enrollment := enrollment;
             pending_lesson := lesson;
             pending_scheduledDayOffset := nextWorkingDay;
             pending_moduleIndex := moduleIndex |}
      else
        createMasteryCheckResponse enrollment lesson completedTimestamp ;;;
        createMasteryCheckCompletedEvent enrollment lesson groupId
          completedTimestamp
  | _ => throw
  end.

(** Lines 280-292: one delayed mastery check. *)
Definition completeMasteryCheck (groupId : Z)
    (pending : PendingMasteryCheck) : M unit :=
  masteryTimestamp <-
    getTimestampDaysAgo (pending_scheduledDayOffset pending) (Int 2) ;;
  createMasteryCheckResponse (pending_enrollment pending)
    (pending_lesson pending) masteryTimestamp ;;;
  createMasteryCheckCompletedEvent (pending_enrollment pending)
    (pending_lesson pending) groupId masteryTimestamp.

(** The run over given working days: the windows, the walk over the
    students, the split lessons, the delayed mastery checks. The result is
    the rows inserted, in order. *)
Definition seedProgressEventsOver (groupId : Z) (workingDays : list Z)
    (enrollments : list Enrollment)
    (lessonsByModule : list (list LessonData)) : outcome (list DbWrite) :=
  match moduleWorkingDays workingDays lessonsByModule with
  | Throw => Throw
  | Done windows =>
      match scheduleStudents groupId (length enrollments) windows
              lessonsByModule enrollments 0 with
      | Throw => Throw
      | Done (_, walk) =>
          match for_of (partialLessonProgress walk)
                  (continueLesson groupId windows) with
          | Throw => Throw
          | Done (_, day2) =>
              match for_of (pendingMasteryChecks walk
                              ++ pendingMasteryChecks day2)
                      (completeMasteryCheck groupId) with
              | Throw => Throw
              | Done (_, delayed) =>
                  Done (writes walk ++ writes day2 ++ writes delayed)
              end
          end
      end
  end.

(** [seedProgressEventsForGroup], run on a day whose weekday is [today]
    with [CONFIG.DAYS_TO_SEED = daysToSeed]. The console output and the
    [dailyStats] map that feeds it are left out. *)
Definition seedProgressEventsForGroup (today daysToSeed : Z) (groupId : Z)
    (enrollments : list Enrollment)
    (lessonsByModule : list (list LessonData)) : outcome (list DbWrite) :=
  seedProgressEventsOver groupId (workingDaysOf today daysToSeed)
    enrollments lessonsByModule.

(** ** seed/events.ts: [seedStandaloneLessonEvents] *)

(** [a * b] *)
Definition times (a b : intnum) : intnum :=
  match a, b with
  | INaN, _ | _, INaN => INaN
  | Int x, Int y => Int (x * y)
  | IInf s, Int y =>
      if y =? 0 then INaN else IInf (xorb s (y <? 0))
  | Int x, IInf s =>
      if x =? 0 then INaN else IInf (xorb s (x <? 0))
  | IInf s, IInf t => IInf (xorb s t)
  end.

(** A day offset handed to [getTimestampDaysAgo]: [setDate] of a NaN or
    infinite day gives an invalid date, on which [toISOString] throws. *)
Definition dayOffsetOf (x : intnum) : M Z :=
  match x with
  | Int d => ret d
  | _ => throw
  end.

Module Standalone.

(** [StandaloneLessonData] (config.ts, lines 84-89): a lesson without a
    mastery check. *)
Record LessonData : Type := {
  lessonId : Z;
  lessonTitle : string;
  assignedLessonId : Z;
  questions : list LessonQuestion
}.

End Standalone.

(** events.ts, lines 665-692 *)
Definition createStandaloneQuestionShownEvent (enrollment : Enrollment)
    (lesson : Standalone.LessonData) (question : LessonQuestion) (groupId : Z)
    (timestamp : Z) : M unit :=
  if negb (truthy (kcId question)) then ret tt
  else insert (InsertEvent
         {| type := LESSON_QUESTION_SHOWN;
            ev_enrollmentId := enrollment_id enrollment;
            ev_assignmentId := Standalone.lessonId lesson;
            ev_questionId := Some (question_id question);
            ev_groupId := groupId;
            created_at := timestamp |}).

(** events.ts, lines 694-728 *)
Definition createStandaloneQuestionAnsweredEvent (enrollment : Enrollment)
    (lesson : Standalone.LessonData) (question : LessonQuestion)
    (questionIndex : Z) (groupId : Z) (timestamp : Z) : M unit :=
  insert (InsertEvent
    {| type := QUESTION_ANSWERED;
       ev_enrollmentId := enrollment_id enrollment;
       ev_assignmentId := Standalone.lessonId lesson;
       ev_questionId := Some (question_id question);
       ev_groupId := groupId;
       created_at := timestamp |}).

(** events.ts, lines 839-862 *)
Definition createStandaloneLessonCompletedEvent (enrollment : Enrollment)
    (lesson : Standalone.LessonData) (groupId : Z) (timestamp : Z) : M unit :=
  insert (InsertEvent
    {| type := LESSON_COMPLETED;
       ev_enrollmentId := enrollment_id enrollment;
       ev_assignmentId := Standalone.lessonId lesson;
       ev_questionId := None;
       ev_groupId := groupId;
       created_at := timestamp |}).

(** Line 639:
    [daysToSeed - (moduleIndex * Math.floor(daysToSeed / 2)) - lessonIdx] *)
Definition baseDayOffset (daysToSeed moduleIndex lessonIdx : Z) : intnum :=
  sub (sub (Int daysToSeed)
           (times (Int moduleIndex)
                  (Math_floor (div (ofInt daysToSeed) (ofInt 2)))))
      (Int lessonIdx).

(** Line 644: [Math.max(1, baseDayOffset - Math.floor(i / 4))] *)
Definition studentDayOffset (base : intnum) (i : Z) : intnum :=
  Math_max (Int 1) (sub base (Math_floor (div (ofInt i) (ofInt 4)))).

(** Lines 642-657: one student on one ramp-up lesson. *)
Definition completeStandaloneLesson (groupId : Z)
    (lesson : Standalone.LessonData) (base : intnum) (i : Z)
    (enrollment : Enrollment) : M unit :=
  let dayOffset := studentDayOffset base i in
  for_index (Standalone.questions lesson) 0
    (Int (length (Standalone.questions lesson)))
    (fun q question _ =>
       day <- dayOffsetOf dayOffset ;;
       qTs <- getTimestampDaysAgo day (Int (Z.rem i 4 + q)) ;;
       createStandaloneQuestionShownEvent enrollment lesson question groupId
         qTs ;;;
       createStandaloneQuestionAnsweredEvent enrollment lesson question q
         groupId qTs)
    tt ;;;
  day <- dayOffsetOf dayOffset ;;
  completedTs <-
    getTimestampDaysAgo day
      (Int (Z.rem i 4 + length (Standalone.questions lesson))) ;;
  createStandaloneLessonCompletedEvent enrollment lesson groupId completedTs.

(** Lines 636-661: one ramp-up lesson, for every student. *)
Definition seedStandaloneLesson (daysToSeed groupId : Z)
    (enrollments : list Enrollment) (moduleIndex lessonIdx : Z)
    (lesson : Standalone.LessonData) : M unit :=
  let base := baseDayOffset daysToSeed moduleIndex lessonIdx in
  for_index enrollments 0 (Int (length enrollments))
    (fun i enrollment _ =>
       completeStandaloneLesson groupId lesson base i enrollment)
    tt.

(** [seedStandaloneLessonEvents] (lines 623-663), with
    [CONFIG.DAYS_TO_SEED = daysToSeed]: the rows inserted, in order. *)
Definition seedStandaloneLessonEvents (daysToSeed groupId : Z)
    (enrollments : list Enrollment)
    (standaloneLessonsByModule : list (list Standalone.LessonData))
  : outcome (list DbWrite) :=
  match
    for_index standaloneLessonsByModule 0
      (Int (length standaloneLessonsByModule))
      (fun moduleIndex standaloneLessons _ =>
         for_index standaloneLessons 0 (Int (length standaloneLessons))
           (fun lessonIdx lesson _ =>
              seedStandaloneLesson daysToSeed groupId enrollments moduleIndex
                lessonIdx lesson)
           tt)
      tt
  with
  | Throw => Throw
  | Done (_, o) => Done (writes o)
  end.

(** ** seed/events.ts: points and attendance events *)

(** The seeders of the other event types write rows of their own: a
    computation returns a value and the rows it inserted, or throws. *)
Definition W (R A : Type) : Type := outcome (A * list R).

Definition wret {R A : Type} (a : A) : W R A := Done (a, []).

Definition wbind {R A B : Type} (c : W R A) (k : A -> W R B) : W R B :=
  match c with
  | Throw => Throw
  | Done (a, rows1) =>
      match k a with
      | Throw => Throw
      | Done (b, rows2) => Done (b, rows1 ++ rows2)
      end
  end.

Definition emit {R : Type} (row : R) : W R unit := Done (tt, [row]).

(** The value of a computation that inserts no row. *)
Definition value {R A : Type} (c : M A) : W R A :=
  match c with
  | Done (a, _) => wret a
  | Throw => Throw
  end.

(** [for (let i = k; i < arr.length; i++) { const x = arr[i]; body }],
    where [rest] is [arr] from index [k] on. *)
Fixpoint for_each {R A : Type} (rest : list A) (k : Z)
    (body : Z -> A -> W R unit) : W R unit :=
  match rest with
  | [] => wret tt
  | x :: rest' => wbind (body k x) (fun _ => for_each rest' (k + 1) body)
  end.

(** [for (let t = k; t < k + n; t++) body] *)
Fixpoint for_count {R : Type} (n : nat) (k : Z) (body : Z -> W R unit)
  : W R unit :=
  match n with
  | O => wret tt
  | S n' => wbind (body k) (fun _ => for_count n' (k + 1) body)
  end.

(** [a % b] on integers: NaN when [b] is zero. *)
Definition remainder (a b : Z) : intnum :=
  if b =? 0 then INaN else Int (Z.rem a b).

(** Lines 734-740 *)
Definition POINT_DESCRIPTIONS : list string :=
  ["Completed Assignment"; "Streak Bonus"; "Teacher Award"; "Perfect Score";
   "Daily Login Bonus"]%string.

(** The data of a [POINTS_UPDATED] event and its [created_at]; a missing
    [description] is [None]. *)
Record PointsEvent : Type := {
  points_studentProfileId : string;
  points_enrollmentId : Z;
  amount : intnum;
  description : option string;
  points_created_at : Z
}.

(** Line 764: [Math.floor((t / transactionCount) * CONFIG.DAYS_TO_SEED) + 1] *)
Definition pointsDaysAgo (t transactionCount daysToSeed : Z) : intnum :=
  add (Math_floor (mul (div (ofInt t) (ofInt transactionCount))
                       (ofInt daysToSeed)))
      (Int 1).

(** Line 766: [5 + Math.floor(((i + t) * 7) % (maxAmount - 5 + 1))] *)
Definition pointsAmount (i t maxAmount : Z) : intnum :=
  add (Int 5) (remainder ((i + t) * 7) (maxAmount - 5 + 1)).

(** Lines 763-784: one transaction. *)
Definition seedPointsTransaction (daysToSeed : Z) (enrollment : Enrollment)
    (i transactionCount maxAmount t : Z) : W PointsEvent unit :=
  wbind (value (dayOffsetOf (pointsDaysAgo t transactionCount daysToSeed)))
    (fun daysAgo =>
  wbind (value (getTimestampDaysAgo daysAgo (Int (Z.rem t 6))))
    (fun timestamp =>
  emit {| points_studentProfileId := studentProfileId enrollment;
          points_enrollmentId := enrollment_id enrollment;
          amount := pointsAmount i t maxAmount;
          description := get POINT_DESCRIPTIONS (Int (Z.rem (i + t) 5));
          points_created_at := timestamp |})).

(** Lines 755-785: the transactions of one student. A learner type that
    is not an index of the two tables leaves [transactionCount]
    undefined, and [t < undefined] ends the loop at once. *)
Definition seedPointsOfStudent (daysToSeed : Z) (i : Z)
    (enrollment : Enrollment) : W PointsEvent unit :=
  let learnerType := Z.rem i 5 in
  match get [8; 6; 5; 4; 3] (Int learnerType),
        get [50; 40; 30; 25; 15] (Int learnerType) with
  | Some transactionCount, Some maxAmount =>
      for_count (Z.to_nat transactionCount) 0
        (seedPointsTransaction daysToSeed enrollment i transactionCount
           maxAmount)
  | _, _ => wret tt
  end.

(** [seedPointsEvents] (lines 746-789), with
    [CONFIG.DAYS_TO_SEED = daysToSeed]: the rows inserted, in order. *)
Definition seedPointsEvents (daysToSeed groupId : Z)
    (enrollments : list Enrollment) : outcome (list PointsEvent) :=
  match for_each enrollments 0 (seedPointsOfStudent daysToSeed) with
  | Throw => Throw
  | Done (_, rows) => Done rows
  end.

(** The data of a [STUDENT_MARKED_PRESENT] event. Its [created_at] is the
    reading of the clock when the row is written, and [date] the day of
    the clock when the function starts: [today]. *)
Record PresentEvent : Type := {
  present_groupId : Z;
  present_enrollmentId : Z;
  present_studentProfileId : string;
  date : string
}.

(** [seedAttendanceEvents] (lines 801-837) on the day [today]. *)
Definition seedAttendanceEvents (today : string) (groupId : Z)
    (enrollments : list Enrollment) : outcome (list PresentEvent) :=
  match
    for_each enrollments 0
      (fun i enrollment =>
         if Z.rem i 4 =? 3 then wret tt
         else emit {| present_groupId := groupId;
                      present_enrollmentId := enrollment_id enrollment;
                      present_studentProfileId := studentProfileId enrollment;
                      date := today |})
  with
  | Throw => Throw
  | Done (_, rows) => Done rows
  end.

(** ** seed/events.ts: [seedDetailedProgressForFirstLesson] *)

(** The periods of [getTimestamp] (config.ts, lines 195-209). *)
Inductive Period : Type :=
| PeriodToday
| PeriodYesterday
| PeriodEarlier.

(** [for (let q = k; q < k + n; q++) body] *)
Fixpoint for_times (n : nat) (k : Z) (body : Z -> M unit) : M unit :=
  match n with
  | O => ret tt
  | S n' => body k ;;; for_times n' (k + 1) body
  end.

(** events.ts, lines 500-516 *)
Definition createQuestionAnsweredEventWithTimestamp (enrollment : Enrollment)
    (lesson : LessonData) (question : LessonQuestion) (questionIndex : Z)
    (groupId : Z) (timestamp : Z) : M unit :=
  createQuestionAnsweredEvent enrollment lesson question questionIndex groupId
    timestamp.

(** The [switch] of lines 329-380: [None] for [continue], else
    [questionsCompleted], [lessonCompleted], [masteryCheckCompleted] and
    [timestampPeriod]. *)
Definition progressOf (i : Z) : option (Z * bool * bool * Period) :=
  match Z.rem i 7 with
  | 0 => None
  | 1 => Some (1, false, false, PeriodToday)
  | 2 => Some (2 + Z.rem i 2, false, false, PeriodEarlier)
  | 3 => Some (4, true, false, PeriodYesterday)
  | 4 => Some (4, true, true, PeriodYesterday)
  | 5 => Some (4, true, true, PeriodYesterday)
  | 6 => Some (4, true, true, PeriodToday)
  | _ => Some (0, false, false, PeriodToday)
  end.

(** Lines 321-427: one student. [getTimestamp] draws from [Math.random]:
    its results are an input, [getTimestamp n period] being the time in
    milliseconds of the date that the call number [n] of the run returns;
    [calls] counts the calls made so far, and the timestamps of the rows
    are in milliseconds. *)
Definition seedDetailedProgressOfStudent (getTimestamp : Z -> Period -> Z)
    (groupId : Z) (firstLesson : LessonData) (i : Z) (enrollment : Enrollment)
    (calls : Z) : M Z :=
  let progressIndex := Z.rem i 7 in
  match progressOf i with
  | None => ret calls
  | Some (questionsCompleted, lessonCompleted, masteryCheckCompleted,
          timestampPeriod) =>
      let baseTimestamp := getTimestamp calls timestampPeriod in
      for_times (Z.to_nat questionsCompleted) 0
        (fun q =>
           match get (questions firstLesson) (Int q) with
           | None => ret tt
           | Some question =>
               let ts := baseTimestamp + q * 15 * 60 * 1000 in
               createQuestionShownEvent enrollment firstLesson question
                 groupId ts ;;;
               createQuestionAnsweredEventWithTimestamp enrollment firstLesson
                 question q groupId ts
           end) ;;;
      if lessonCompleted then
        let lessonTs :=
          baseTimestamp + questionsCompleted * 15 * 60 * 1000 + 5 * 60 * 1000 in
        createLessonCompletedEvent enrollment firstLesson groupId lessonTs ;;;
        if masteryCheckCompleted then
          let masteryTs :=
            if progressIndex =? 4 then getTimestamp (calls + 1) PeriodToday
            else lessonTs + 5 * 60 * 1000 in
          createMasteryCheckResponse enrollment firstLesson masteryTs ;;;
          createMasteryCheckCompletedEvent enrollment firstLesson groupId
            masteryTs ;;;
          ret (if progressIndex =? 4 then calls + 2 else calls + 1)
        else ret (calls + 1)
      else ret (calls + 1)
  end.

(** Lines 320-428: the students from index [i] on. *)
Fixpoint seedDetailedProgressFrom (getTimestamp : Z -> Period -> Z)
    (groupId : Z) (firstLesson : LessonData) (enrollments : list Enrollment)
    (i calls : Z) : M Z :=
  match enrollments with
  | [] => ret calls
  | enrollment :: rest =>
      calls' <- seedDetailedProgressOfStudent getTimestamp groupId firstLesson
                  i enrollment calls ;;
      seedDetailedProgressFrom getTimestamp groupId firstLesson rest (i + 1)
        calls'
  end.

(** [seedDetailedProgressForFirstLesson] (lines 313-429): the rows
    inserted, in order. *)
Definition seedDetailedProgressForFirstLesson
    (getTimestamp : Z -> Period -> Z) (groupId : Z)
    (enrollments : list Enrollment) (firstLesson : LessonData)
  : outcome (list DbWrite) :=
  match seedDetailedProgressFrom getTimestamp groupId firstLesson enrollments
          0 0 with
  | Throw => Throw
  | Done (_, o) => Done (writes o)
  end.

(** ** Notions used in the statements *)

(** What [binary_round_aux] makes of a mantissa [mr] that is already
    rounded, at exponent [e]. *)
Definition packed (sx : bool) (mr e : Z) : spec_float :=
  let j := Z.max 0 (fexp prec emax (Zdigits2 mr + e) - e) in
  match mr / 2 ^ j with
  | Z0 => S754_zero sx
  | Zpos m =>
      if e + j <=? emax - prec then S754_finite sx m (e + j)
      else S754_infinity sx
  | Zneg _ => S754_nan
  end.

(** Zero, a positive finite number or [+Infinity]. *)
Definition nonneg (x : number) : Prop :=
  match x with
  | S754_zero false | S754_infinity false | S754_finite false _ _ => True
  | _ => False
  end.

(** Zero or a positive finite number. *)
Definition finite_nonneg (x : number) : Prop :=
  match x with
  | S754_zero false | S754_finite false _ _ => True
  | _ => False
  end.

(** A natural number or [+Infinity]. *)
Definition natural (x : intnum) : Prop :=
  match x with
  | Int c => 0 <= c
  | IInf false => True
  | _ => False
  end.

(** Two numbers of 53 digits compare by exponent, then by mantissa. *)
Definition normal_le (m1 : positive) (e1 : Z) (m2 : positive) (e2 : Z) : Prop :=
  e1 < e2 \/ (e1 = e2 /\ Zpos m1 <= Zpos m2).

(** The largest array length of JavaScript is [2^32 - 1]. *)
Definition array_length_ok {A : Type} (l : list A) : Prop := length l < 2 ^ 32.

(** Day offsets in descending order, as [workingDays] has them. *)
Definition descending (s : list Z) : Prop := StronglySorted Z.gt s.

(** The rows of the events of a question at index [q], shown and answered
    at [timestamp]. *)
Definition shownRow (groupId : Z) (enrollment : Enrollment)
    (lesson : LessonData) (question : LessonQuestion) (timestamp : Z)
  : DbWrite :=
  InsertEvent
    {| type := LESSON_QUESTION_SHOWN;
       ev_enrollmentId := enrollment_id enrollment;
       ev_assignmentId := lessonId lesson;
       ev_questionId := Some (question_id question);
       ev_groupId := groupId;
       created_at := timestamp |}.

Definition answeredRow (groupId : Z) (enrollment : Enrollment)
    (lesson : LessonData) (question : LessonQuestion) (timestamp : Z)
  : DbWrite :=
  InsertEvent
    {| type := QUESTION_ANSWERED;
       ev_enrollmentId := enrollment_id enrollment;
       ev_assignmentId := lessonId lesson;
       ev_questionId := Some (question_id question);
       ev_groupId := groupId;
       created_at := timestamp |}.

Definition lessonCompletedRow (groupId : Z) (enrollment : Enrollment)
    (lesson : LessonData) (timestamp : Z) : DbWrite :=
  InsertEvent
    {| type := LESSON_COMPLETED;
       ev_enrollmentId := enrollment_id enrollment;
       ev_assignmentId := lessonId lesson;
       ev_questionId := None;
       ev_groupId := groupId;
       created_at := timestamp |}.

Definition masteryCompletedRow (groupId : Z) (enrollment : Enrollment)
    (lesson : LessonData) (timestamp : Z) : DbWrite :=
  InsertEvent
    {| type := ASSIGNMENT_COMPLETED;
       ev_enrollmentId := enrollment_id enrollment;
       ev_assignmentId := masteryCheckId lesson;
       ev_questionId := None;
       ev_groupId := groupId;
       created_at := timestamp |}.

Definition masteryResponseRow (enrollment : Enrollment) (lesson : LessonData)
    (timestamp : Z) : DbWrite :=
  MasteryCheckResponse (enrollment_id enrollment) (masteryCheckId lesson)
    timestamp.

(** The rows of one question: shown when it has a knowledge component,
    and answered. *)
Definition questionRow (groupId : Z) (enrollment : Enrollment)
    (lesson : LessonData) (question : LessonQuestion) (timestamp : Z)
  : list DbWrite :=
  (if truthy (kcId question)
   then [shownRow groupId enrollment lesson question timestamp] else [])
  ++ [answeredRow groupId enrollment lesson question timestamp].

(** The rows of the questions [qs], the first of them at index [q], on the
    day [dayOffset], the question at index [k] at [hours k] after 10. *)
Fixpoint questionRows (groupId : Z) (enrollment : Enrollment)
    (lesson : LessonData) (dayOffset : Z) (hours : Z -> Z) (q : Z)
    (qs : list LessonQuestion) : list DbWrite :=
  match qs with
  | [] => []
  | question :: qs' =>
      questionRow groupId enrollment lesson question
        (10 + hours q - 24 * dayOffset)
      ++ questionRows groupId enrollment lesson dayOffset hours (q + 1) qs'
  end.

(** The rows of a lesson completion followed at once by the mastery
    check, all at [timestamp]. *)
Definition completedWithMasteryRows (groupId : Z) (enrollment : Enrollment)
    (lesson : LessonData) (timestamp : Z) : list DbWrite :=
  [lessonCompletedRow groupId enrollment lesson timestamp;
   masteryResponseRow enrollment lesson timestamp;
   masteryCompletedRow groupId enrollment lesson timestamp].

Definition is_lesson_completed (w : DbWrite) : bool :=
  match w with
  | InsertEvent e =>
      match type e with
      | LESSON_COMPLETED => true
      | _ => false
      end
  | MasteryCheckResponse _ _ _ => false
  end.

(** The lessons that a part of the walk scheduled: each one is completed
    on its day or queued for its second day. *)
Definition lessonsScheduled (o : Out) : Z :=
  length (filter is_lesson_completed (writes o))
  + length (partialLessonProgress o).

(** A computation that only writes rows. *)
Definition rows_only (rows : list DbWrite) : M unit :=
  Done (tt, Build_Out rows [] []).

(** Lines 200-222: what completing a lesson on its day writes and
    queues. *)
Definition completeTodayOut (groupId : Z) (enrollment : Enrollment)
    (lesson : LessonData) (sum day1Offset answered : Z) (moduleIndex : Z)
    (moduleDays : list Z) : Out :=
  let ts := 10 + answered - 24 * day1Offset in
  if delayMasteryCheck sum && (1 <? day1Offset)
  then Build_Out [lessonCompletedRow groupId enrollment lesson ts] []
         [{| pending_enrollment := enrollment;
             pending_lesson := lesson;
             pending_scheduledDayOffset :=
               getNextWorkingDay day1Offset moduleDays;
             pending_moduleIndex := moduleIndex |}]
  else Build_Out (completedWithMasteryRows groupId enrollment lesson ts) [] [].

(** Lines 229-277: what the second day of a split lesson writes and
    queues, when the mastery check finds the window of its module. *)
Definition continueLessonOut (groupId : Z) (partial : PartialLessonProgress)
    (done : Z) (moduleDays : list Z) : Out :=
  let enrollment := partial_enrollment partial in
  let lesson := partial_lesson partial in
  let day := partial_scheduledDayOffset partial in
  let ts := 10 + (length (questions lesson) - done) - 24 * day in
  let rows :=
    questionRows groupId enrollment lesson day (fun q => q - done) done
      (from_index (questions lesson) done) in
  if delayMasteryCheck (lessonIndex partial + partial_moduleIndex partial)
     && (1 <? day)
  then Build_Out (rows ++ [lessonCompletedRow groupId enrollment lesson ts]) []
         [{| pending_enrollment := enrollment;
             pending_lesson := lesson;
             pending_scheduledDayOffset := getNextWorkingDay day moduleDays;
             pending_moduleIndex := partial_moduleIndex partial |}]
  else Build_Out (rows ++ completedWithMasteryRows groupId enrollment lesson ts)
         [] [].

(** ** Sample data for the examples *)

Definition sampleQuestion (id : Z) : LessonQuestion :=
  {| question_id := id; kcId := Some (100 + id);
     assignmentQuestionId := 200 + id |}.

(** A lesson with [nq] questions. *)
Definition sampleLesson (id nq : Z) : LessonData :=
  {| lessonId := id; lessonTitle := "Lesson";
     masteryCheckId := 1000 + id; masteryCheckTitle := "Mastery check";
     assignedLessonId := 2000 + id; assignedMasteryId := 3000 + id;
     questions :=
       map (fun k => sampleQuestion (id * 100 + Z.of_nat k))
           (seq 0 (Z.to_nat nq)) |}.

Definition sampleEnrollment (id : Z) : Enrollment :=
  {| enrollment_id := id; studentProfileId := "profile"; name := "Student" |}.

(** [nm] modules of [nl] lessons of [nq] questions each. *)
Definition sampleModules (nm nl nq : Z) : list (list LessonData) :=
  map (fun m =>
         map (fun l => sampleLesson (Z.of_nat m * 100 + Z.of_nat l) nq)
             (seq 0 (Z.to_nat nl)))
      (seq 0 (Z.to_nat nm)).

Definition sampleEnrollments (n : Z) : list Enrollment :=
  map (fun k => sampleEnrollment (Z.of_nat k)) (seq 0 (Z.to_nat n)).

(** An entry of the queue of split lessons that the main pass makes for
    the module [moduleIndex]: its count of completed questions is an
    integer between 0 and the number of questions of its lesson. *)
Definition partial_from (moduleIndex : Z) (p : PartialLessonProgress) : Prop :=
  partial_moduleIndex p = moduleIndex
  /\ exists done,
       questionsCompleted p = Int done
       /\ 0 <= done <= length (questions (partial_lesson p)).

(** Such an entry for a module that has a window. *)
Definition partial_ok (windows : list (list Z)) (p : PartialLessonProgress)
  : Prop :=
  exists moduleIndex moduleDays,
    partial_from moduleIndex p
    /\ get windows (Int moduleIndex) = Some moduleDays.

(** The timestamp of a row. *)
Definition timestamp (w : DbWrite) : Z :=
  match w with
  | InsertEvent e => created_at e
  | MasteryCheckResponse _ _ ts => ts
  end.

(** Timestamps in order, all between [lo] and [hi]. *)
Definition ordered_between (lo hi : Z) (rows : list DbWrite) : Prop :=
  StronglySorted Z.le (map timestamp rows)
  /\ Forall (fun w => lo <= timestamp w <= hi) rows.

(** ** The day count in the words of the specification *)

(** [ceil(moduleLessonCount / totalLessons * totalWorkingDays)] over the
    rationals: the least integer that is not below the exact quotient.
    Line 69 of events.ts computes [moduleDayCount], the same expression
    in binary64. *)
Definition specDayCount (moduleLessonCount totalLessons totalWorkingDays : Z)
    : Z :=
  - ((- (moduleLessonCount * totalWorkingDays)) / totalLessons).

(** ** Notions for the further properties *)

Definition is_mastery_completed (w : DbWrite) : bool :=
  match w with
  | InsertEvent e =>
      match type e with
      | ASSIGNMENT_COMPLETED => true
      | _ => false
      end
  | MasteryCheckResponse _ _ _ => false
  end.

(** The calls of [createMasteryCheckResponse]. *)
Definition is_mastery_response (w : DbWrite) : bool :=
  match w with
  | InsertEvent _ => false
  | MasteryCheckResponse _ _ _ => true
  end.

(** The number of the rows that [f] selects. *)
Definition count_rows (f : DbWrite -> bool) (rows : list DbWrite) : Z :=
  length (filter f rows).

(** In a part of the run, every lesson completion is followed by its
    mastery check or has it queued, and every mastery check completion
    comes with a call of [createMasteryCheckResponse]. *)
Definition balanced (o : Out) : Prop :=
  count_rows is_lesson_completed (writes o)
  = count_rows is_mastery_completed (writes o)
    + length (pendingMasteryChecks o)
  /\ count_rows is_mastery_response (writes o)
     = count_rows is_mastery_completed (writes o).

(** What a computation wrote and queued satisfies [P], if it returns. *)
Definition keeps {A : Type} (P : Out -> Prop) (c : M A) : Prop :=
  match c with
  | Done (_, o) => P o
  | Throw => True
  end.

(** The ids of the questions that the rows answer, in the order of the
    rows. *)
Definition answeredQuestions (rows : list DbWrite) : list Z :=
  flat_map
    (fun w =>
       match w with
       | InsertEvent e =>
           match type e, ev_questionId e with
           | QUESTION_ANSWERED, Some q => [q]
           | _, _ => []
           end
       | MasteryCheckResponse _ _ _ => []
       end)
    rows.


(** A row dated within the seeded days: not before 10 o'clock
    [daysToSeed] days ago, and before the midnight that starts the day of
    the run. *)
Definition dated_within (daysToSeed : Z) (w : DbWrite) : Prop :=
  10 - 24 * daysToSeed <= timestamp w < 0.

(** The range of [Date]: a date lies within 100,000,000 days of 1 January
    1970, and [toISOString] throws a [RangeError] on a date outside. For
    a run made between 1971 and the year 30000, the dates at most
    [maxDateDays] days before the run, at an hour offset below
    [maxDateHours], lie within the range; the properties that a seeder
    returns are stated for such days and hours. *)
Definition maxDateDays : Z := 100000000.
Definition maxDateHours : Z := 2 ^ 31.

(** A day offset of the seeded days. *)
Definition seeded_day (daysToSeed d : Z) : Prop := 1 <= d <= daysToSeed.

(** A split lesson queued for a seeded day, with at most 13 questions,
    some of them done. *)
Definition partial_within (daysToSeed : Z) (p : PartialLessonProgress) : Prop :=
  seeded_day daysToSeed (partial_scheduledDayOffset p)
  /\ length (questions (partial_lesson p)) <= 13
  /\ exists done,
       questionsCompleted p = Int done
       /\ 0 <= done <= length (questions (partial_lesson p)).

(** What a part of the run wrote and queued lies within the seeded
    days. *)
Definition within (daysToSeed : Z) (o : Out) : Prop :=
  Forall (dated_within daysToSeed) (writes o)
  /\ Forall (partial_within daysToSeed) (partialLessonProgress o)
  /\ Forall (fun p => seeded_day daysToSeed (pending_scheduledDayOffset p))
       (pendingMasteryChecks o).


(** A ramp-up lesson as a lesson without a mastery check: the rows of
    its questions and of its completion only read the lesson's id and
    questions. *)
Definition as_lesson (lesson : Standalone.LessonData) : LessonData :=
  {| lessonId := Standalone.lessonId lesson;
     lessonTitle := Standalone.lessonTitle lesson;
     masteryCheckId := 0;
     masteryCheckTitle := EmptyString;
     assignedLessonId := Standalone.assignedLessonId lesson;
     assignedMasteryId := 0;
     questions := Standalone.questions lesson |}.

(** The ramp-up lessons of a run. *)
Definition totalStandalone
    (standaloneLessonsByModule : list (list Standalone.LessonData)) : Z :=
  fold_right (fun m sum => length m + sum) 0 standaloneLessonsByModule.

Definition sampleStandalone (id nq : Z) : Standalone.LessonData :=
  {| Standalone.lessonId := id; Standalone.lessonTitle := "Ramp Up";
     Standalone.assignedLessonId := 2000 + id;
     Standalone.questions :=
       map (fun k => sampleQuestion (id * 100 + Z.of_nat k))
           (seq 0 (Z.to_nat nq)) |}.

(** The points transactions of the first [n] students: 26 for every five
    students, and 8, 6, 5, 4 of the next ones. *)
Definition pointsTransactionsOf (n : Z) : Z :=
  26 * (n / 5) + nth (Z.to_nat (n mod 5)) [0; 8; 14; 19; 23] 0.

(** A points transaction within the seeded days, with an amount from 5
    to 50 and a description. *)
Definition points_in_range (daysToSeed : Z) (row : PointsEvent) : Prop :=
  (exists a, amount row = Int a /\ 5 <= a <= 50)
  /\ description row <> None
  /\ 10 - 24 * daysToSeed <= points_created_at row <= 15 - 24.

(** The row that marks a student present. *)
Definition presentRow (today : string) (groupId : Z) (enrollment : Enrollment)
  : PresentEvent :=
  {| present_groupId := groupId;
     present_enrollmentId := enrollment_id enrollment;
     present_studentProfileId := studentProfileId enrollment;
     date := today |}.


(** Lines 405-427: the rows that follow the questions of a student. *)
Definition detailedTail (groupId : Z) (enrollment : Enrollment)
    (lesson : LessonData) (lessonCompleted masteryCheckCompleted : bool)
    (lessonTs masteryTs : Z) : list DbWrite :=
  if lessonCompleted then
    lessonCompletedRow groupId enrollment lesson lessonTs
    :: (if masteryCheckCompleted
        then [masteryResponseRow enrollment lesson masteryTs;
              masteryCompletedRow groupId enrollment lesson masteryTs]
        else [])
  else [].

(** The questions that the student of index [i] has done in the first
    lesson (lines 329-380). *)
Definition questionsDoneBy (i : Z) : Z :=
  nth (Z.to_nat (Z.rem i 7)) [0; 1; 2 + Z.rem i 2; 4; 4; 4; 4] 0.

(** Of the first [n] students, those who completed the first lesson (four
    of every seven), and those who completed its mastery check (three of
    every seven). *)
Definition lessonCompletedAmong (n : Z) : Z :=
  4 * (n / 7) + Z.max 0 (n mod 7 - 3).

Definition masteryCompletedAmong (n : Z) : Z :=
  3 * (n / 7) + Z.max 0 (n mod 7 - 4).

(** ** Facts about binary64 arithmetic *)

Module Binary64.

(** *** Digits *)

Lemma digits2_pos_bounds (p : positive) :
  2 ^ (Zpos (digits2_pos p) - 1) <= Zpos p < 2 ^ Zpos (digits2_pos p).
Proof.
  induction p as [p IH | p IH |]; cbn [digits2_pos].
  - rewrite Pos2Z.inj_succ.
    replace (Z.succ (Zpos (digits2_pos p)) - 1) with (Zpos (digits2_pos p) - 1 + 1) by lia.
    rewrite Z.pow_succ_r by lia.
    rewrite Z.pow_add_r by lia. change (2 ^ 1) with 2. lia.
  - rewrite Pos2Z.inj_succ.
    replace (Z.succ (Zpos (digits2_pos p)) - 1) with (Zpos (digits2_pos p) - 1 + 1) by lia.
    rewrite Z.pow_succ_r by lia.
    rewrite Z.pow_add_r by lia. change (2 ^ 1) with 2. lia.
  - cbn. lia.
Qed.

Lemma pow2_lt_inv (a b : Z) : 0 <= b -> 2 ^ a < 2 ^ b -> a < b.
Proof.
  intros Hb H. destruct (Z_lt_le_dec a b) as [|Hle]; [assumption|].
  exfalso. assert (2 ^ b <= 2 ^ a) by (apply Z.pow_le_mono_r; lia). lia.
Qed.

Lemma Zdigits2_unique (p : positive) (d : Z) :
  2 ^ (d - 1) <= Zpos p < 2 ^ d -> Zdigits2 (Zpos p) = d.
Proof.
  intros [Hlo Hhi]. cbn [Zdigits2].
  pose proof (digits2_pos_bounds p) as [Blo Bhi].
  assert (0 < d).
  { destruct (Z_lt_le_dec 0 d); [assumption|].
    exfalso. assert (2 ^ d <= 2 ^ 0) by (apply Z.pow_le_mono_r; lia).
    change (2 ^ 0) with 1 in *. lia. }
  assert (d - 1 < Zpos (digits2_pos p)) by (apply pow2_lt_inv; lia).
  assert (Zpos (digits2_pos p) - 1 < d) by (apply pow2_lt_inv; lia).
  lia.
Qed.

(** *** Shifting a mantissa to the right *)

Lemma iter_pos_nat {A : Type} (f : A -> A) (p : positive) (x : A) :
  iter_pos f p x = Nat.iter (Pos.to_nat p) f x.
Proof.
  revert x. induction p as [p IH | p IH |]; intros x; cbn [iter_pos].
  - rewrite !IH, Pos2Nat.inj_xI.
    replace (S (2 * Pos.to_nat p)) with (Pos.to_nat p + S (Pos.to_nat p))%nat by lia.
    rewrite Nat.iter_add, Nat.iter_succ_r. reflexivity.
  - rewrite !IH, Pos2Nat.inj_xO.
    replace (2 * Pos.to_nat p)%nat with (Pos.to_nat p + Pos.to_nat p)%nat by lia.
    rewrite Nat.iter_add. reflexivity.
  - reflexivity.
Qed.

Lemma shr_1_nonneg (m : Z) (r s : bool) :
  0 <= m ->
  shr_1 (Build_shr_record m r s) = Build_shr_record (m / 2) (Z.odd m) (r || s).
Proof.
  intros Hm. rewrite <- Z.div2_div.
  destruct m as [|p|p]; [reflexivity | | lia].
  destruct p; reflexivity.
Qed.

Lemma shr_iter_m (n : nat) (m : Z) (r s : bool) :
  0 <= m ->
  shr_m (Nat.iter n shr_1 (Build_shr_record m r s)) = m / 2 ^ Z.of_nat n.
Proof.
  intros Hm. induction n as [|n IH].
  - cbn. rewrite Z.div_1_r. reflexivity.
  - rewrite Nat.iter_succ.
    destruct (Nat.iter n shr_1 (Build_shr_record m r s)) as [m' r' s'].
    cbn [shr_m] in IH. subst m'.
    rewrite shr_1_nonneg by (apply Z.div_pos; lia). cbn [shr_m].
    rewrite Nat2Z.inj_succ, Z.pow_succ_r by lia.
    rewrite Z.div_div by lia. f_equal. lia.
Qed.

Lemma shr_iter_exact (n : nat) (m : Z) :
  0 <= m -> m mod 2 ^ Z.of_nat n = 0 ->
  Nat.iter n shr_1 (Build_shr_record m false false)
  = Build_shr_record (m / 2 ^ Z.of_nat n) false false.
Proof.
  intros Hm. induction n as [|n IH]; intros Hmod.
  - cbn. rewrite Z.div_1_r. reflexivity.
  - rewrite Nat2Z.inj_succ, Z.pow_succ_r in Hmod by lia.
    assert (Hpos : 0 < 2 ^ Z.of_nat n) by (apply Z.pow_pos_nonneg; lia).
    apply Z.mod_divide in Hmod; [|lia]. destruct Hmod as [c Hc].
    assert (Hn : m mod 2 ^ Z.of_nat n = 0).
    { apply Z.mod_divide; [lia|]. exists (c * 2). lia. }
    rewrite Nat.iter_succ, (IH Hn).
    rewrite shr_1_nonneg by (apply Z.div_pos; lia).
    assert (Hq : m / 2 ^ Z.of_nat n = c * 2).
    { subst m. replace (c * (2 * 2 ^ Z.of_nat n)) with (c * 2 * 2 ^ Z.of_nat n) by lia.
      apply Z.div_mul. lia. }
    rewrite Nat2Z.inj_succ, Z.pow_succ_r by lia.
    rewrite Hq. rewrite Z.odd_mul. cbn [Z.odd]. rewrite andb_false_r.
    f_equal. rewrite <- Hq, Z.div_div by lia. f_equal. lia.
Qed.

(** [shr] by [n] places; no shift when [n] is not positive. *)
Lemma shr_m_spec (m : Z) (l : location) (e n : Z) :
  0 <= m ->
  let k := Z.max 0 n in
  shr_m (fst (shr (shr_record_of_loc m l) e n)) = m / 2 ^ k
  /\ snd (shr (shr_record_of_loc m l) e n) = e + k.
Proof.
  intros Hm k. subst k. destruct n as [|p|p]; cbn [shr fst snd].
  - change (Z.max 0 0) with 0. change (2 ^ 0) with 1. rewrite Z.div_1_r.
    split; [destruct l as [|[]]; reflexivity | lia].
  - rewrite Z.max_r by lia. split; [|reflexivity].
    rewrite iter_pos_nat.
    destruct l as [|[]]; cbn [shr_record_of_loc];
      rewrite shr_iter_m by assumption; rewrite positive_nat_Z; reflexivity.
  - rewrite Z.max_l by lia. change (2 ^ 0) with 1. rewrite Z.div_1_r.
    split; [destruct l as [|[]]; reflexivity | lia].
Qed.

Lemma shr_exact (m e n : Z) :
  0 <= m -> m mod 2 ^ Z.max 0 n = 0 ->
  loc_of_shr_record (fst (shr (shr_record_of_loc m loc_Exact) e n)) = loc_Exact.
Proof.
  intros Hm Hmod. destruct n as [|p|p]; cbn [shr fst shr_record_of_loc]; try reflexivity.
  rewrite Z.max_r in Hmod by lia.
  rewrite iter_pos_nat, shr_iter_exact; [reflexivity | assumption |].
  rewrite positive_nat_Z. assumption.
Qed.

Lemma round_nearest_even_bounds (m : Z) (l : location) :
  m <= round_nearest_even m l <= m + 1.
Proof.
  destruct l as [|[]]; cbn [round_nearest_even]; try lia.
  destruct (Z.even m); lia.
Qed.

(** *** The shape of a rounded result *)


Lemma binary_round_aux_shape (sx : bool) (m e : Z) (l : location) :
  0 <= m ->
  let k := Z.max 0 (fexp prec emax (Zdigits2 m + e) - e) in
  exists mr,
    m / 2 ^ k <= mr <= m / 2 ^ k + 1
    /\ (l = loc_Exact -> m mod 2 ^ k = 0 -> mr = m / 2 ^ k)
    /\ binary_round_aux prec emax sx m e l = packed sx mr (e + k).
Proof.
  intros Hm k.
  unfold binary_round_aux, shr_fexp.
  pose proof (shr_m_spec m l e (fexp prec emax (Zdigits2 m + e) - e) Hm) as [H1 H2].
  fold k in H1, H2.
  destruct (shr (shr_record_of_loc m l) e (fexp prec emax (Zdigits2 m + e) - e))
    as [mrs' e'] eqn:E1.
  cbn [fst snd] in H1, H2. subst e'.
  set (mr := round_nearest_even (shr_m mrs') (loc_of_shr_record mrs')).
  exists mr.
  assert (Hb : m / 2 ^ k <= mr <= m / 2 ^ k + 1).
  { subst mr. rewrite <- H1. apply round_nearest_even_bounds. }
  split; [exact Hb|]. split.
  - intros -> Hmod. subst mr.
    pose proof (shr_exact m e (fexp prec emax (Zdigits2 m + e) - e) Hm Hmod) as Hx.
    rewrite E1 in Hx. cbn [fst] in Hx. rewrite Hx. cbn [round_nearest_even]. exact H1.
  - assert (Hmr : 0 <= mr).
    { assert (0 <= m / 2 ^ k) by (apply Z.div_pos; [lia | apply Z.pow_pos_nonneg; lia]). lia. }
    pose proof (shr_m_spec mr loc_Exact (e + k)
                  (fexp prec emax (Zdigits2 mr + (e + k)) - (e + k)) Hmr) as [H3 H4].
    destruct (shr (shr_record_of_loc mr loc_Exact) (e + k)
                (fexp prec emax (Zdigits2 mr + (e + k)) - (e + k))) as [mrs'' e''].
    cbn [fst snd] in H3, H4. subst e''. rewrite H3.
    unfold packed. reflexivity.
Qed.


(** *** Packing a rounded mantissa *)

Lemma fexp_normal (x : Z) :
  emin prec emax <= x - prec -> fexp prec emax x = x - prec.
Proof. unfold fexp. lia. Qed.

Lemma emin_value : emin prec emax = -1074.
Proof. reflexivity. Qed.

(** A mantissa of 53 digits in the range of the normal exponents is
    packed as it is. *)
Lemma packed_normal (sx : bool) (m : positive) (e : Z) :
  2 ^ 52 <= Zpos m < 2 ^ 53 -> -1074 <= e <= 971 ->
  packed sx (Zpos m) e = S754_finite sx m e.
Proof.
  intros Hm He. unfold packed.
  rewrite (Zdigits2_unique m 53) by (change (53 - 1) with 52; exact Hm).
  rewrite fexp_normal by (rewrite emin_value; unfold prec; lia).
  replace (Z.max 0 (53 + e - prec - e)) with 0 by (unfold prec; lia).
  change (2 ^ 0) with 1. rewrite Z.div_1_r, Z.add_0_r.
  replace (e <=? emax - prec) with true; [reflexivity|].
  symmetry. apply Z.leb_le. unfold emax, prec. lia.
Qed.

(** The three results of packing a non-negative mantissa. *)
Lemma packed_cases (mr e : Z) :
  0 <= mr ->
  packed false mr e = S754_zero false
  \/ packed false mr e = S754_infinity false
  \/ exists m j, packed false mr e = S754_finite false m (e + j)
                 /\ 0 <= j /\ Zpos m = mr / 2 ^ j
                 /\ j = Z.max 0 (fexp prec emax (Zdigits2 mr + e) - e)
                 /\ e + j <= emax - prec.
Proof.
  intros Hmr. unfold packed.
  set (j := Z.max 0 (fexp prec emax (Zdigits2 mr + e) - e)).
  assert (Hq : 0 <= mr / 2 ^ j)
    by (apply Z.div_pos; [lia | apply Z.pow_pos_nonneg; lia]).
  destruct (mr / 2 ^ j) as [|m|m] eqn:E; [left; reflexivity | | lia].
  destruct (Z.leb_spec (e + j) (emax - prec)).
  - right; right. exists m, j. repeat split; try lia.
  - right; left. reflexivity.
Qed.

(** *** The binary64 value of an integer *)

Lemma pos_iter_xO (p k : positive) :
  Zpos (Pos.iter xO p k) = Zpos p * 2 ^ Zpos k.
Proof.
  induction k as [|k IH] using Pos.peano_ind.
  - cbn. lia.
  - rewrite Pos.iter_succ, Pos2Z.inj_xO, IH, Pos2Z.inj_succ, Z.pow_succ_r by lia.
    lia.
Qed.

(** A positive integer below [2^53], as a number: a mantissa of 53
    digits and an exponent between -52 and 0. *)
Lemma ofInt_pos (n : Z) :
  0 < n < 2 ^ 53 ->
  exists m e, ofInt n = S754_finite false m e
              /\ 2 ^ 52 <= Zpos m < 2 ^ 53
              /\ -52 <= e <= 0
              /\ Zpos m = n * 2 ^ (- e).
Proof.
  intros [Hlo Hhi]. destruct n as [|p|p]; try lia.
  unfold ofInt, binary_normalize, binary_round.
  pose proof (digits2_pos_bounds p) as [Dlo Dhi].
  set (d := Zpos (digits2_pos p)) in *.
  assert (Hd : 1 <= d <= 53).
  { split; [subst d; lia|].
    assert (d - 1 < 53) by (apply pow2_lt_inv; lia). lia. }
  rewrite Z.add_0_r.
  rewrite fexp_normal by (rewrite emin_value; unfold prec; lia).
  unfold shl_align. rewrite Z.sub_0_r.
  assert (Hround : forall mz ez, 2 ^ 52 <= Zpos mz < 2 ^ 53 -> -52 <= ez <= 0 ->
            binary_round_aux prec emax false (Zpos mz) ez loc_Exact
            = S754_finite false mz ez).
  { intros mz ez Hmz Hez.
    destruct (binary_round_aux_shape false (Zpos mz) ez loc_Exact) as (mr & _ & Hex & ->); [lia|].
    rewrite (Zdigits2_unique mz 53) in * by (change (53 - 1) with 52; exact Hmz).
    rewrite fexp_normal in * by (rewrite emin_value; unfold prec; lia).
    replace (Z.max 0 (53 + ez - prec - ez)) with 0 in * by (unfold prec; lia).
    change (2 ^ 0) with 1 in *. rewrite Z.div_1_r in Hex.
    rewrite Hex by (try reflexivity; apply Z.mod_1_r).
    rewrite Z.add_0_r. apply packed_normal; lia. }
  destruct (d - prec) as [|q|q] eqn:E.
  - exists p, 0. unfold prec in E. replace d with 53 in * by lia.
    change (53 - 1) with 52 in Dlo.
    split; [apply Hround; lia|]. repeat split; try lia.
  - unfold prec in E. lia.
  - unfold prec in E.
    assert (Hq : Zpos q = 53 - d) by lia.
    exists (Pos.iter xO p q), (Zneg q).
    assert (Hval : Zpos (Pos.iter xO p q) = Zpos p * 2 ^ (53 - d))
      by (rewrite pos_iter_xO, Hq; reflexivity).
    assert (Hm : 2 ^ 52 <= Zpos (Pos.iter xO p q) < 2 ^ 53).
    { rewrite Hval.
      assert (Hp : 0 < 2 ^ (53 - d)) by (apply Z.pow_pos_nonneg; lia).
      replace (2 ^ 52) with (2 ^ (d - 1) * 2 ^ (53 - d))
        by (rewrite <- Z.pow_add_r by lia; f_equal; lia).
      replace (2 ^ 53) with (2 ^ d * 2 ^ (53 - d))
        by (rewrite <- Z.pow_add_r by lia; f_equal; lia).
      split; [apply Z.mul_le_mono_nonneg_r; lia | apply Z.mul_lt_mono_pos_r; lia]. }
    split; [apply Hround; lia|].
    split; [exact Hm|]. split; [lia|].
    rewrite Hval. f_equal. f_equal. lia.
Qed.

Lemma ofInt_0 : ofInt 0 = S754_zero false.
Proof. reflexivity. Qed.


(** *** Ceiling and floor of packed values *)

Lemma digits_le (p : positive) (d : Z) :
  0 <= d -> Zpos p < 2 ^ d -> Zdigits2 (Zpos p) <= d.
Proof.
  intros Hd Hp. cbn [Zdigits2].
  pose proof (digits2_pos_bounds p) as [Blo _].
  assert (Zpos (digits2_pos p) - 1 < d) by (apply pow2_lt_inv; lia). lia.
Qed.

Lemma ceil_div_le (m n D : Z) :
  0 < D -> 0 < m -> m <= n * D -> 0 <= - ((- m) / D) <= n.
Proof.
  intros HD Hm Hle. split.
  - assert ((- m) / D < 1) by (apply Z.div_lt_upper_bound; lia). lia.
  - assert (- n <= (- m) / D) by (apply Z.div_le_lower_bound; lia). lia.
Qed.

(** The ceiling of a packed mantissa that is at most [n * 2^t], at the
    exponent [- t], is at most [n]. *)
Lemma ceil_packed_le (mr n t : Z) :
  0 <= mr -> mr <= n * 2 ^ t -> 0 <= t <= 1074 -> 0 <= n < 2 ^ 53 ->
  exists c, Math_ceil (packed false mr (- t)) = Int c /\ 0 <= c <= n.
Proof.
  intros Hmr Hle Ht Hn.
  assert (Hpt : 0 < 2 ^ t) by (apply Z.pow_pos_nonneg; lia).
  destruct (packed_cases mr (- t) Hmr) as [-> | [Hinf | (m & j & -> & Hj & Hm & Hjv & Hov)]].
  - exists 0. split; [reflexivity | lia].
  - exfalso. unfold packed in Hinf.
    set (j := Z.max 0 (fexp prec emax (Zdigits2 mr + - t) - - t)) in *.
    assert (Hjt : j <= t).
    { subst j. destruct mr as [|p|p]; [cbn; unfold fexp, emin, prec, emax; lia | | lia].
      assert (Zdigits2 (Zpos p) <= 53 + t).
      { apply digits_le; [lia|]. rewrite Z.pow_add_r by lia. nia. }
      unfold fexp, emin, prec, emax. lia. }
    destruct (mr / 2 ^ j); try discriminate.
    destruct (Z.leb_spec (- t + j) (emax - prec)); [discriminate|].
    unfold emax, prec in *. lia.
  - assert (Hjt : j <= t).
    { rewrite Hjv. destruct mr as [|p|p]; [cbn; unfold fexp, emin, prec, emax; lia | | lia].
      assert (Zdigits2 (Zpos p) <= 53 + t).
      { apply digits_le; [lia|]. rewrite Z.pow_add_r by lia. nia. }
      unfold fexp, emin, prec, emax. lia. }
    assert (Hpj : 0 < 2 ^ j) by (apply Z.pow_pos_nonneg; lia).
    assert (Hptj : 0 < 2 ^ (t - j)) by (apply Z.pow_pos_nonneg; lia).
    assert (Hsplit : 2 ^ t = 2 ^ (t - j) * 2 ^ j)
      by (rewrite <- Z.pow_add_r by lia; f_equal; lia).
    assert (Hmle : Zpos m <= n * 2 ^ (t - j)).
    { rewrite Hm. apply Z.div_le_upper_bound; [lia|]. rewrite Hsplit in Hle. lia. }
    cbn [Math_ceil cond_Zopp].
    destruct (Z.leb_spec 0 (- t + j)).
    + replace (- t + j) with 0 by lia. replace (t - j) with 0 in Hmle by lia.
      change (2 ^ 0) with 1 in *. exists (Zpos m * 1). split; [reflexivity | lia].
    + exists (- (- Zpos m / 2 ^ (- (- t + j)))). split; [reflexivity|].
      replace (- (- t + j)) with (t - j) by lia.
      apply ceil_div_le; lia.
Qed.

(** *** Products *)

Lemma mul_finite (mx my : positive) (ex ey : Z) :
  mul (S754_finite false mx ex) (S754_finite false my ey)
  = binary_round_aux prec emax false (Zpos mx * Zpos my) (ex + ey) loc_Exact.
Proof. reflexivity. Qed.

(** The rounded product of two mantissas of 53 digits: the shift [k] by
    which the product is cut to 53 digits and the rounded mantissa. *)
Lemma mul_shape (mx my : positive) (ex ey : Z) :
  2 ^ 52 <= Zpos mx < 2 ^ 53 -> 2 ^ 52 <= Zpos my < 2 ^ 53 ->
  -1000 <= ex + ey ->
  exists k mr,
    52 <= k <= 53
    /\ 2 ^ (52 + k) <= Zpos mx * Zpos my < 2 ^ (53 + k)
    /\ (Zpos mx * Zpos my) / 2 ^ k <= mr <= (Zpos mx * Zpos my) / 2 ^ k + 1
    /\ ((Zpos mx * Zpos my) mod 2 ^ k = 0 -> mr = (Zpos mx * Zpos my) / 2 ^ k)
    /\ mul (S754_finite false mx ex) (S754_finite false my ey)
       = packed false mr (ex + ey + k).
Proof.
  intros Hx Hy He. rewrite mul_finite.
  assert (HM : 2 ^ 104 <= Zpos mx * Zpos my < 2 ^ 106).
  { change (2 ^ 104) with (2 ^ 52 * 2 ^ 52). change (2 ^ 106) with (2 ^ 53 * 2 ^ 53).
    split; [apply Z.mul_le_mono_nonneg | apply Z.mul_lt_mono_nonneg]; lia. }
  destruct (binary_round_aux_shape false (Zpos mx * Zpos my) (ex + ey) loc_Exact)
    as (mr & Hb & Hex & Heq); [lia|].
  change (Zpos mx * Zpos my) with (Zpos (mx * my)) in *.
  pose proof (digits2_pos_bounds (mx * my)) as [Dlo Dhi].
  cbn [Zdigits2] in *. set (d := Zpos (digits2_pos (mx * my))) in *.
  assert (Hd : 105 <= d <= 106).
  { assert (104 < d) by (apply pow2_lt_inv; lia).
    assert (d - 1 < 106) by (apply pow2_lt_inv; lia). lia. }
  rewrite fexp_normal in * by (rewrite emin_value; unfold prec; lia).
  replace (Z.max 0 (d + (ex + ey) - prec - (ex + ey))) with (d - 53) in *
    by (unfold prec; lia).
  exists (d - 53), mr.
  replace (52 + (d - 53)) with (d - 1) by lia.
  replace (53 + (d - 53)) with d by lia.
  split; [lia|]. split; [lia|]. split; [exact Hb|].
  split; [intros Hmod; apply Hex; [reflexivity | exact Hmod]|].
  exact Heq.
Qed.

(** A factor of 53 digits whose value [my * 2^ey] is at most 1 never
    takes the rounded product, nor its ceiling, above the other factor
    when that is an integer. *)
Lemma ceil_mul_le (n : Z) (my : positive) (ey : Z) :
  0 <= n < 2 ^ 53 -> 2 ^ 52 <= Zpos my < 2 ^ 53 ->
  Zpos my <= 2 ^ (- ey) -> -900 <= ey ->
  exists c, Math_ceil (mul (ofInt n) (S754_finite false my ey)) = Int c
            /\ 0 <= c <= n.
Proof.
  intros Hn Hy Hone Hey.
  destruct (Z.eq_dec n 0) as [-> | Hn0].
  - exists 0. split; [reflexivity | lia].
  - destruct (ofInt_pos n) as (mx & ex & -> & Hx & Hex & Hval); [lia|].
    assert (Hey52 : 52 <= - ey).
    { destruct (Z_lt_le_dec (- ey) 0) as [Hneg | Hnn].
      - rewrite (Z.pow_neg_r 2 (- ey)) in Hone by lia. lia.
      - assert (52 < - ey + 1); [|lia]. apply pow2_lt_inv; [lia|].
        rewrite Z.pow_add_r by lia. change (2 ^ 1) with 2.
        assert (0 < 2 ^ (- ey)) by (apply Z.pow_pos_nonneg; lia). lia. }
    destruct (mul_shape mx my ex ey Hx Hy) as (k & mr & Hk & HM & Hb & Hexact & ->); [lia|].
    set (M := Zpos mx * Zpos my) in *.
    assert (Hp : 0 < 2 ^ (- ey)) by (apply Z.pow_pos_nonneg; lia).
    assert (HMle : M <= Zpos mx * 2 ^ (- ey)) by (subst M; nia).
    assert (Hka : k <= - ey).
    { assert (52 + k < 53 + - ey); [|lia]. apply pow2_lt_inv; [lia|].
      rewrite (Z.pow_add_r 2 53 (- ey)) by lia. nia. }
    assert (Hpk : 0 < 2 ^ k) by (apply Z.pow_pos_nonneg; lia).
    assert (Hpa : 0 < 2 ^ (- ey - k)) by (apply Z.pow_pos_nonneg; lia).
    assert (Hsplit : 2 ^ (- ey) = 2 ^ (- ey - k) * 2 ^ k)
      by (rewrite <- Z.pow_add_r by lia; f_equal; lia).
    set (N := Zpos mx * 2 ^ (- ey - k)).
    assert (HMN : M <= N * 2 ^ k) by (subst N; rewrite Hsplit in HMle; lia).
    assert (Hdiv : M / 2 ^ k <= N) by (apply Z.div_le_upper_bound; lia).
    assert (Hmr : mr <= N).
    { destruct (Z.eq_dec (M / 2 ^ k) N) as [Heq | Hne]; [|lia].
      rewrite Hexact; [lia|].
      pose proof (Z.div_mod M (2 ^ k) ltac:(lia)) as Hdm.
      pose proof (Z.mod_pos_bound M (2 ^ k) Hpk) as Hmb.
      rewrite Heq in Hdm. lia. }
    assert (Hmr0 : 0 <= mr).
    { assert (0 <= M / 2 ^ k) by (apply Z.div_pos; subst M; lia). lia. }
    replace (ex + ey + k) with (- (- ey - k - ex)) by lia.
    apply ceil_packed_le; try lia.
    subst N. rewrite Hval in Hmr.
    replace (2 ^ (- ey - k - ex)) with (2 ^ (- ex) * 2 ^ (- ey - k))
      by (rewrite <- Z.pow_add_r by lia; f_equal; lia).
    lia.
Qed.


(** *** Integers are fixed by ceiling, floor and the factor 1.0 *)

Lemma ceil_floor_ofInt (n : Z) :
  0 <= n < 2 ^ 53 ->
  Math_ceil (ofInt n) = Int n /\ Math_floor (ofInt n) = Int n.
Proof.
  intros Hn. destruct (Z.eq_dec n 0) as [-> | Hn0]; [split; reflexivity|].
  destruct (ofInt_pos n) as (m & e & -> & Hm & He & Hval); [lia|].
  cbn [Math_ceil Math_floor cond_Zopp]. rewrite Hval.
  destruct (Z.leb_spec 0 e).
  - replace e with 0 by lia. cbn. split; f_equal; lia.
  - assert (0 < 2 ^ (- e)) by (apply Z.pow_pos_nonneg; lia).
    split; f_equal.
    + rewrite <- Z.mul_opp_l, Z.div_mul by lia. lia.
    + apply Z.div_mul. lia.
Qed.

Lemma mul_one (n : Z) :
  0 <= n < 2 ^ 53 -> mul (ofInt n) lit_1_0 = ofInt n.
Proof.
  intros Hn. destruct (Z.eq_dec n 0) as [-> | Hn0]; [reflexivity|].
  destruct (ofInt_pos n) as (m & e & -> & Hm & He & Hval); [lia|].
  unfold lit_1_0.
  destruct (mul_shape m 4503599627370496 e (-52) Hm) as (k & mr & Hk & HM & _ & Hexact & ->);
    [lia | lia |].
  change (Zpos 4503599627370496) with (2 ^ 52) in *.
  assert (k = 52).
  { assert (52 + k < 105); [|lia]. apply pow2_lt_inv; [lia|].
    change (2 ^ 105) with (2 ^ 53 * 2 ^ 52). nia. }
  subst k. rewrite Hexact by (apply Z.mod_mul; lia).
  rewrite Z.div_mul by lia.
  replace (e + -52 + 52) with e by lia.
  apply packed_normal; lia.
Qed.

(** *** Quotients *)

Lemma div_core (mx my : positive) (ex ey : Z) :
  2 ^ 52 <= Zpos mx < 2 ^ 53 -> 2 ^ 52 <= Zpos my < 2 ^ 53 ->
  -1000 <= ex - ey ->
  SFdiv_core_binary prec emax (Zpos mx) ex (Zpos my) ey
  = ((Zpos mx * 2 ^ 53) / Zpos my, ex - ey - 53,
     new_location (Zpos my) ((Zpos mx * 2 ^ 53) mod Zpos my)).
Proof.
  intros Hx Hy He. unfold SFdiv_core_binary.
  rewrite (Zdigits2_unique mx 53), (Zdigits2_unique my 53)
    by (change (53 - 1) with 52; assumption).
  rewrite fexp_normal by (rewrite emin_value; unfold prec; lia).
  replace (Z.min (53 + ex - (53 + ey) - prec) (ex - ey)) with (ex - ey - 53)
    by (unfold prec; lia).
  replace (ex - ey - (ex - ey - 53)) with 53 by lia.
  rewrite Z.shiftl_mul_pow2 by lia.
  unfold Z.div, Z.modulo.
  destruct (Z.div_eucl (Zpos mx * 2 ^ 53) (Zpos my)). reflexivity.
Qed.

Lemma div_finite (mx my : positive) (ex ey : Z) :
  div (S754_finite false mx ex) (S754_finite false my ey)
  = let '(mz, ez, lz) := SFdiv_core_binary prec emax (Zpos mx) ex (Zpos my) ey in
    binary_round_aux prec emax false mz ez lz.
Proof. reflexivity. Qed.

(** [Math.floor(n / 2)] is the integer quotient. *)
Lemma floor_half (n : Z) :
  0 <= n < 2 ^ 53 -> Math_floor (div (ofInt n) (ofInt 2)) = Int (n / 2).
Proof.
  intros Hn. destruct (Z.eq_dec n 0) as [-> | Hn0]; [reflexivity|].
  destruct (ofInt_pos n) as (m & e & -> & Hm & He & Hval); [lia|].
  change (ofInt 2) with (S754_finite false 4503599627370496 (-51)).
  rewrite div_finite, div_core by (cbn; lia).
  change (Zpos 4503599627370496) with (2 ^ 52).
  replace (Zpos m * 2 ^ 53) with (Zpos m * 2 * 2 ^ 52)
    by (change (2 ^ 53) with (2 * 2 ^ 52); lia).
  rewrite Z.div_mul, Z.mod_mul by lia.
  change (new_location (2 ^ 52) 0) with loc_Exact.
  destruct (binary_round_aux_shape false (Zpos m * 2) (e - -51 - 53) loc_Exact)
    as (mr & _ & Hexact & ->); [lia|].
  replace (Zdigits2 (Zpos m * 2)) with 54 in *
    by (symmetry; change (Zpos m * 2) with (Zpos (m * 2));
        apply Zdigits2_unique; rewrite Pos2Z.inj_mul; lia).
  rewrite fexp_normal in * by (rewrite emin_value; unfold prec; lia).
  replace (Z.max 0 (54 + (e - -51 - 53) - prec - (e - -51 - 53))) with 1 in *
    by (unfold prec; lia).
  change (2 ^ 1) with 2 in *.
  rewrite Hexact by (try reflexivity; apply Z.mod_mul; lia).
  rewrite Z.div_mul by lia.
  rewrite packed_normal by lia.
  cbn [Math_floor cond_Zopp].
  destruct (Z.leb_spec 0 (e - -51 - 53 + 1)); [lia|].
  f_equal. rewrite Hval.
  replace (- (e - -51 - 53 + 1)) with (1 + - e) by lia.
  rewrite Z.pow_add_r by lia. change (2 ^ 1) with 2.
  assert (0 < 2 ^ (- e)) by (apply Z.pow_pos_nonneg; lia).
  apply Z.div_mul_cancel_r; lia.
Qed.


(** *** Signs: no NaN and nothing negative from non-negative operands *)




Lemma finite_nonneg_nonneg (x : number) : finite_nonneg x -> nonneg x.
Proof. destruct x as [[]|[]| |[] m e]; cbn; tauto. Qed.

Lemma packed_nonneg (mr e : Z) : 0 <= mr -> nonneg (packed false mr e).
Proof.
  intros Hmr.
  destruct (packed_cases mr e Hmr) as [-> | [-> | (m & j & -> & _)]]; exact I.
Qed.

Lemma round_nonneg (m e : Z) (l : location) :
  0 <= m -> nonneg (binary_round_aux prec emax false m e l).
Proof.
  intros Hm.
  destruct (binary_round_aux_shape false m e l Hm) as (mr & Hb & _ & ->).
  apply packed_nonneg.
  assert (0 <= m / 2 ^ Z.max 0 (fexp prec emax (Zdigits2 m + e) - e))
    by (apply Z.div_pos; [lia | apply Z.pow_pos_nonneg; lia]).
  lia.
Qed.

Lemma div_core_nonneg (mx my : positive) (ex ey : Z) :
  0 <= fst (fst (SFdiv_core_binary prec emax (Zpos mx) ex (Zpos my) ey)).
Proof.
  unfold SFdiv_core_binary.
  set (s := ex - ey - _).
  set (m' := match s with Z0 => Zpos mx | Zpos _ => Z.shiftl (Zpos mx) s | Zneg _ => 0 end).
  assert (Hm' : 0 <= m').
  { subst m'. destruct s; [lia | apply Z.shiftl_nonneg; lia | lia]. }
  pose proof (Z.div_pos m' (Zpos my) Hm' ltac:(lia)) as Hq.
  unfold Z.div in Hq. destruct (Z.div_eucl m' (Zpos my)). exact Hq.
Qed.

Lemma div_nonneg (x : number) (my : positive) (ey : Z) :
  nonneg x -> nonneg (div x (S754_finite false my ey)).
Proof.
  destruct x as [[]|[]| |[] mx ex]; cbn [nonneg]; try tauto; intros _; try exact I.
  rewrite div_finite.
  pose proof (div_core_nonneg mx my ex ey) as Hq.
  destruct (SFdiv_core_binary prec emax (Zpos mx) ex (Zpos my) ey) as [[mz ez] lz].
  apply round_nonneg. exact Hq.
Qed.

Lemma mul_nonneg (x y : number) :
  nonneg x -> finite_nonneg y -> finite_nonneg x \/ y <> S754_zero false ->
  nonneg (mul x y).
Proof.
  destruct x as [[]|[]| |[] mx ex]; cbn [nonneg]; try tauto;
    destruct y as [[]|[]| |[] my ey]; cbn [finite_nonneg]; try tauto;
    intros _ _ _; try exact I.
  rewrite mul_finite. apply round_nonneg. lia.
Qed.

Lemma ceil_natural (x : number) : nonneg x -> natural (Math_ceil x).
Proof.
  destruct x as [[]|[]| |[] m e]; cbn [nonneg]; try tauto; intros _;
    cbn [Math_ceil natural cond_Zopp]; try lia.
  destruct (Z.leb_spec 0 e); cbn [natural].
  - assert (0 < 2 ^ e) by (apply Z.pow_pos_nonneg; lia). lia.
  - assert (0 < 2 ^ (- e)) by (apply Z.pow_pos_nonneg; lia).
    assert ((- Zpos m) / 2 ^ (- e) < 1) by (apply Z.div_lt_upper_bound; lia). lia.
Qed.

Lemma floor_natural (x : number) : nonneg x -> natural (Math_floor x).
Proof.
  destruct x as [[]|[]| |[] m e]; cbn [nonneg]; try tauto; intros _;
    cbn [Math_floor natural cond_Zopp]; try lia.
  destruct (Z.leb_spec 0 e); cbn [natural].
  - assert (0 < 2 ^ e) by (apply Z.pow_pos_nonneg; lia). lia.
  - apply Z.div_pos; [lia | apply Z.pow_pos_nonneg; lia].
Qed.

Lemma ofInt_finite_nonneg (n : Z) : 0 <= n < 2 ^ 53 -> finite_nonneg (ofInt n).
Proof.
  intros Hn. destruct (Z.eq_dec n 0) as [-> | Hn0]; [exact I|].
  destruct (ofInt_pos n) as (m & e & -> & _); [lia | exact I].
Qed.


(** *** Normal numbers *)

(** Packing a rounded mantissa between [2^52] and [2^53]: 53 digits
    again, one exponent up when the rounding carried. *)
Lemma packed_round (mr e : Z) :
  2 ^ 52 <= mr <= 2 ^ 53 -> -1074 <= e <= 970 ->
  exists m' e', packed false mr e = S754_finite false m' e'
                /\ 2 ^ 52 <= Zpos m' < 2 ^ 53
                /\ e <= e' <= e + 1
                /\ Zpos m' * 2 ^ (e' - e) = mr.
Proof.
  intros Hmr He. destruct mr as [|p|p]; try lia.
  destruct (Z.eq_dec (Zpos p) (2 ^ 53)) as [Heq | Hne].
  - exists 4503599627370496%positive, (e + 1).
    split.
    + rewrite Heq. unfold packed.
      change (Zdigits2 (2 ^ 53)) with 54.
      rewrite fexp_normal by (rewrite emin_value; unfold prec; lia).
      replace (Z.max 0 (54 + e - prec - e)) with 1 by (unfold prec; lia).
      change (2 ^ 53 / 2 ^ 1) with (Zpos 4503599627370496).
      replace (e + 1 <=? emax - prec) with true; [reflexivity|].
      symmetry. apply Z.leb_le. unfold emax, prec. lia.
    + replace (e + 1 - e) with 1 by lia. rewrite Heq. cbn. lia.
  - exists p, e. rewrite packed_normal by lia.
    replace (e - e) with 0 by lia. cbn [Z.pow]. repeat split; lia.
Qed.


Lemma normal_le_scaled (m1 m2 : positive) (e1 e2 : Z) :
  Zpos m1 < 2 ^ 53 -> 2 ^ 52 <= Zpos m2 ->
  normal_le m1 e1 m2 e2 ->
  e1 <= e2 /\ Zpos m1 <= Zpos m2 * 2 ^ (e2 - e1).
Proof.
  intros H1 H2 [Hlt | [-> Hle]].
  - split; [lia|].
    assert (2 ^ 1 <= 2 ^ (e2 - e1)) by (apply Z.pow_le_mono_r; lia).
    change (2 ^ 1) with 2 in *. change (2 ^ 53) with (2 ^ 52 * 2) in H1. nia.
  - split; [lia|]. rewrite Z.sub_diag. cbn. lia.
Qed.

(** The rounded product does not exceed a number of 53 digits that the
    exact product does not exceed. *)
Lemma mul_le (mx my mz : positive) (ex ey ez : Z) :
  2 ^ 52 <= Zpos mx < 2 ^ 53 -> 2 ^ 52 <= Zpos my < 2 ^ 53 ->
  2 ^ 52 <= Zpos mz < 2 ^ 53 ->
  -1000 <= ex + ey -> ez <= 900 ->
  ex + ey <= ez -> Zpos mx * Zpos my <= Zpos mz * 2 ^ (ez - (ex + ey)) ->
  exists m' e', mul (S754_finite false mx ex) (S754_finite false my ey)
                = S754_finite false m' e'
                /\ 2 ^ 52 <= Zpos m' < 2 ^ 53
                /\ ex + ey + 52 <= e'
                /\ normal_le m' e' mz ez.
Proof.
  intros Hx Hy Hz He Hez Hle HM.
  destruct (mul_shape mx my ex ey Hx Hy He) as (k & mr & Hk & HMb & Hb & Hexact & ->).
  set (M := Zpos mx * Zpos my) in *. set (e := ex + ey) in *.
  assert (Hpe : 0 < 2 ^ (ez - e)) by (apply Z.pow_pos_nonneg; lia).
  assert (Hkz : k <= ez - e).
  { assert (52 + k < 53 + (ez - e)); [|lia]. apply pow2_lt_inv; [lia|].
    rewrite (Z.pow_add_r 2 53 (ez - e)) by lia. nia. }
  assert (Hpk : 0 < 2 ^ k) by (apply Z.pow_pos_nonneg; lia).
  assert (Hpa : 0 < 2 ^ (ez - e - k)) by (apply Z.pow_pos_nonneg; lia).
  assert (Hsplit : 2 ^ (ez - e) = 2 ^ (ez - e - k) * 2 ^ k)
    by (rewrite <- Z.pow_add_r by lia; f_equal; lia).
  set (N := Zpos mz * 2 ^ (ez - e - k)).
  assert (HMN : M <= N * 2 ^ k) by (subst N; rewrite Hsplit in HM; lia).
  assert (Hdiv : M / 2 ^ k <= N) by (apply Z.div_le_upper_bound; lia).
  assert (Hmr : mr <= N).
  { destruct (Z.eq_dec (M / 2 ^ k) N) as [Heq | Hne]; [|lia].
    rewrite Hexact; [lia|].
    pose proof (Z.div_mod M (2 ^ k) ltac:(lia)) as Hdm.
    pose proof (Z.mod_pos_bound M (2 ^ k) Hpk) as Hmb.
    rewrite Heq in Hdm. lia. }
  assert (Hlo : 2 ^ 52 <= M / 2 ^ k).
  { apply Z.div_le_lower_bound; [lia|]. rewrite <- Z.pow_add_r by lia.
    replace (k + 52) with (52 + k) by lia. lia. }
  assert (Hhi : M / 2 ^ k < 2 ^ 53).
  { apply Z.div_lt_upper_bound; [lia|]. rewrite <- Z.pow_add_r by lia.
    replace (k + 53) with (53 + k) by lia. lia. }
  destruct (packed_round mr (e + k)) as (m' & e' & -> & Hm' & He' & Hval); [lia | lia |].
  exists m', e'. split; [reflexivity|]. split; [exact Hm'|]. split; [lia|].
  unfold normal_le.
  destruct (Z.eq_dec e' (e + k)) as [-> | Hcarry].
  - rewrite Z.sub_diag in Hval. change (2 ^ 0) with 1 in Hval.
    destruct (Z.eq_dec ez (e + k)) as [-> | Hgt]; [|left; lia].
    right. split; [reflexivity|]. subst N.
    replace (e + k - e - k) with 0 in Hmr by lia. change (2 ^ 0) with 1 in Hmr. lia.
  - replace (e' - (e + k)) with 1 in Hval by lia. change (2 ^ 1) with 2 in Hval.
    assert (e' = e + k + 1) by lia. subst e'.
    destruct (Z.eq_dec ez (e + k)) as [-> | Hne].
    + exfalso. subst N. replace (e + k - e - k) with 0 in Hmr by lia.
      change (2 ^ 0) with 1 in Hmr. lia.
    + destruct (Z.eq_dec ez (e + k + 1)) as [-> | Hgt]; [|left; lia].
      right. split; [reflexivity|]. subst N.
      replace (e + k + 1 - e - k) with 1 in Hmr by lia. change (2 ^ 1) with 2 in Hmr. lia.
Qed.

(** The rounded quotient of two numbers of 53 digits. *)
Lemma div_shape (mx my : positive) (ex ey : Z) :
  2 ^ 52 <= Zpos mx < 2 ^ 53 -> 2 ^ 52 <= Zpos my < 2 ^ 53 ->
  -900 <= ex - ey <= 900 ->
  exists k mr m' e',
    0 <= k <= 1
    /\ 2 ^ (52 + k) <= (Zpos mx * 2 ^ 53) / Zpos my < 2 ^ (53 + k)
    /\ (Zpos mx * 2 ^ 53) / Zpos my / 2 ^ k <= mr
       <= (Zpos mx * 2 ^ 53) / Zpos my / 2 ^ k + 1
    /\ ((Zpos mx * 2 ^ 53) mod Zpos my = 0 ->
        ((Zpos mx * 2 ^ 53) / Zpos my) mod 2 ^ k = 0 ->
        mr = (Zpos mx * 2 ^ 53) / Zpos my / 2 ^ k)
    /\ div (S754_finite false mx ex) (S754_finite false my ey)
       = S754_finite false m' e'
    /\ 2 ^ 52 <= Zpos m' < 2 ^ 53
    /\ ex - ey - 53 + k <= e' <= ex - ey - 53 + k + 1
    /\ Zpos m' * 2 ^ (e' - (ex - ey - 53 + k)) = mr.
Proof.
  intros Hx Hy He. rewrite div_finite, div_core by lia.
  set (Q := (Zpos mx * 2 ^ 53) / Zpos my).
  assert (HQ : 2 ^ 52 <= Q < 2 ^ 54).
  { subst Q. split.
    - apply Z.div_le_lower_bound; [lia|].
      change (2 ^ 53) with (2 * 2 ^ 52) in *. nia.
    - apply Z.div_lt_upper_bound; [lia|].
      change (2 ^ 54) with (2 * 2 ^ 53) in *. change (2 ^ 53) with (2 * 2 ^ 52) in *. nia. }
  destruct (binary_round_aux_shape false Q (ex - ey - 53)
              (new_location (Zpos my) ((Zpos mx * 2 ^ 53) mod Zpos my)))
    as (mr & Hb & Hexact & ->); [lia|].
  assert (Hloc : (Zpos mx * 2 ^ 53) mod Zpos my = 0 ->
                 new_location (Zpos my) ((Zpos mx * 2 ^ 53) mod Zpos my) = loc_Exact).
  { intros ->. unfold new_location, new_location_even, new_location_odd.
    destruct (Z.even (Zpos my)); reflexivity. }
  destruct Q as [|q|q] eqn:EQ; try lia.
  pose proof (digits2_pos_bounds q) as [Dlo Dhi].
  cbn [Zdigits2] in *. set (d := Zpos (digits2_pos q)) in *.
  assert (Hd : 53 <= d <= 54).
  { assert (52 < d) by (apply pow2_lt_inv; lia).
    assert (d - 1 < 54) by (apply pow2_lt_inv; lia). lia. }
  rewrite fexp_normal in * by (rewrite emin_value; unfold prec; lia).
  replace (Z.max 0 (d + (ex - ey - 53) - prec - (ex - ey - 53))) with (d - 53) in *
    by (unfold prec; lia).
  assert (Hpk : 0 < 2 ^ (d - 53)) by (apply Z.pow_pos_nonneg; lia).
  assert (Hlo : 2 ^ 52 <= Zpos q / 2 ^ (d - 53)).
  { apply Z.div_le_lower_bound; [lia|]. rewrite <- Z.pow_add_r by lia.
    replace (d - 53 + 52) with (d - 1) by lia. lia. }
  assert (Hhi : Zpos q / 2 ^ (d - 53) < 2 ^ 53).
  { apply Z.div_lt_upper_bound; [lia|]. rewrite <- Z.pow_add_r by lia.
    replace (d - 53 + 53) with d by lia. lia. }
  destruct (packed_round mr (ex - ey - 53 + (d - 53))) as (m' & e' & -> & Hm' & He' & Hval);
    [lia | lia |].
  exists (d - 53), mr, m', e'.
  replace (52 + (d - 53)) with (d - 1) by lia.
  replace (53 + (d - 53)) with d by lia.
  split; [lia|]. split; [lia|]. split; [exact Hb|].
  split; [intros Hr Hq; apply Hexact; [apply Hloc; exact Hr | exact Hq]|].
  split; [reflexivity|].
  split; [exact Hm'|]. split; [lia | exact Hval].
Qed.


Lemma mul_comm (x y : number) : mul x y = mul y x.
Proof.
  unfold mul, SFmul.
  destruct x as [sx|sx| |sx mx ex], y as [sy|sy| |sy my ey];
    try reflexivity; try (rewrite xorb_comm; reflexivity).
  rewrite xorb_comm, Pos.mul_comm, Z.add_comm. reflexivity.
Qed.

(** Integers below [2^53] compare as their mantissas and exponents. *)
Lemma ofInt_le (a t : Z) (ma mt : positive) (ea et : Z) :
  a <= t ->
  2 ^ 52 <= Zpos ma -> Zpos mt < 2 ^ 53 -> ea <= 0 -> et <= 0 ->
  Zpos ma = a * 2 ^ (- ea) -> Zpos mt = t * 2 ^ (- et) ->
  normal_le ma ea mt et.
Proof.
  intros Hat Hma Hmt Hea Het Ha Ht. unfold normal_le.
  assert (Pa : 0 < 2 ^ (- ea)) by (apply Z.pow_pos_nonneg; lia).
  assert (Pt : 0 < 2 ^ (- et)) by (apply Z.pow_pos_nonneg; lia).
  destruct (Z.lt_trichotomy ea et) as [Hlt | [Heq | Hgt]].
  - left. exact Hlt.
  - right. split; [exact Heq|]. subst et. rewrite Ha, Ht. nia.
  - exfalso.
    assert (Hs : 2 ^ (- et) = 2 ^ (- ea) * 2 ^ (ea - et))
      by (rewrite <- Z.pow_add_r by lia; f_equal; lia).
    assert (2 ^ 1 <= 2 ^ (ea - et)) by (apply Z.pow_le_mono_r; lia).
    change (2 ^ 1) with 2 in *. change (2 ^ 53) with (2 * 2 ^ 52) in *.
    assert (0 < a) by nia.
    rewrite Hs in Ht. nia.
Qed.

(** The quotient of two integers, the first at most the second, is a
    number of 53 digits that is at most 1. *)
Lemma div_le_one (a t : Z) :
  0 < a -> a <= t -> t < 2 ^ 53 ->
  exists m e, div (ofInt a) (ofInt t) = S754_finite false m e
              /\ 2 ^ 52 <= Zpos m < 2 ^ 53
              /\ -106 <= e
              /\ normal_le m e 4503599627370496 (-52).
Proof.
  intros Ha Hat Ht.
  destruct (ofInt_pos a) as (ma & ea & -> & Hma & Hea & Hva); [lia|].
  destruct (ofInt_pos t) as (mt & et & -> & Hmt & Het & Hvt); [lia|].
  pose proof (ofInt_le a t ma mt ea et Hat ltac:(lia) ltac:(lia) ltac:(lia) ltac:(lia) Hva Hvt)
    as Hord.
  destruct (div_shape ma mt ea et Hma Hmt)
    as (k & mr & m' & e' & Hk & HQ & Hb & Hexact & -> & Hm' & He' & Hval); [lia|].
  exists m', e'. split; [reflexivity|]. split; [exact Hm'|]. split; [lia|].
  set (Q := (Zpos ma * 2 ^ 53) / Zpos mt) in *.
  assert (Hpk : 0 < 2 ^ k) by (apply Z.pow_pos_nonneg; lia).
  assert (HQk : Q / 2 ^ k < 2 ^ 53).
  { apply Z.div_lt_upper_bound; [lia|]. rewrite <- Z.pow_add_r by lia.
    replace (k + 53) with (53 + k) by lia. lia. }
  unfold normal_le. change (Zpos 4503599627370496) with (2 ^ 52).
  destruct Hord as [Hlt | [Heq Hle]].
  - (* a smaller exponent *)
    destruct (Z.eq_dec e' (-52)) as [He52 | Hne]; [|left; lia].
    right. split; [exact He52|].
    replace (e' - (ea - et - 53 + k)) with 1 in Hval by lia.
    change (2 ^ 1) with 2 in Hval. lia.
  - subst et.
    destruct (Z.eq_dec (Zpos ma) (Zpos mt)) as [Hsame | Hdiff].
    + (* the quotient is 1 *)
      assert (HQ1 : Q = 2 ^ 53).
      { subst Q. rewrite Hsame, Z.mul_comm. apply Z.div_mul. lia. }
      assert (k = 1).
      { rewrite HQ1 in HQ.
        assert (52 + k < 54) by (apply pow2_lt_inv; lia).
        assert (53 < 53 + k) by (apply pow2_lt_inv; lia).
        lia. }
      subst k. change (2 ^ 1) with 2 in *.
      assert (Hmr : mr = Q / 2).
      { apply Hexact.
        - rewrite Hsame, Z.mul_comm. apply Z.mod_mul. lia.
        - rewrite HQ1. reflexivity. }
      rewrite HQ1 in Hmr. change (2 ^ 53 / 2) with (2 ^ 52) in Hmr.
      destruct (Z.eq_dec e' (ea - ea - 53 + 1)) as [He0 | He1].
      * rewrite He0, Z.sub_diag in Hval. change (2 ^ 0) with 1 in Hval.
        right. split; lia.
      * exfalso. replace (e' - (ea - ea - 53 + 1)) with 1 in Hval by lia.
        change (2 ^ 1) with 2 in Hval. lia.
    + (* the quotient is below 1 *)
      assert (HQlt : Q < 2 ^ 53).
      { subst Q. apply Z.div_lt_upper_bound; [lia|]. nia. }
      assert (k = 0).
      { assert (52 + k < 53) by (apply pow2_lt_inv; lia). lia. }
      subst k. change (2 ^ 0) with 1 in *. rewrite Z.div_1_r in Hb.
      destruct (Z.eq_dec e' (-52)) as [He52 | Hne]; [|left; lia].
      right. split; [exact He52|].
      replace (e' - (ea - ea - 53 + 0)) with 1 in Hval by lia.
      change (2 ^ 1) with 2 in Hval. lia.
Qed.

(** [Math.ceil((a / t) * w)] for integers [0 <= a <= t], [0 < t]: an
    integer between 0 and [w]. *)
Lemma ceil_quotient_mul (a t w : Z) :
  0 <= a <= t -> 0 < t < 2 ^ 53 -> 0 <= w < 2 ^ 53 ->
  exists c, Math_ceil (mul (div (ofInt a) (ofInt t)) (ofInt w)) = Int c
            /\ 0 <= c <= w.
Proof.
  intros Ha Ht Hw.
  destruct (Z.eq_dec a 0) as [-> | Ha0].
  - destruct (ofInt_pos t) as (mt & et & -> & _); [lia|].
    pose proof (ofInt_finite_nonneg w Hw) as Hf.
    exists 0. split; [|lia].
    destruct (ofInt w) as [[]|[]| |[] mw ew]; cbn in Hf; try tauto; reflexivity.
  - destruct (div_le_one a t) as (m & e & -> & Hm & He & Hle); [lia | lia | lia |].
    rewrite mul_comm.
    apply normal_le_scaled in Hle; [|lia | cbn; lia].
    destruct Hle as [He52 Hscaled].
    apply ceil_mul_le; try lia.
    change (Zpos 4503599627370496) with (2 ^ 52) in Hscaled.
    rewrite <- Z.pow_add_r in Hscaled by lia.
    replace (52 + (-52 - e)) with (- e) in Hscaled by lia. exact Hscaled.
Qed.

(** [Math.floor((i / n) * (len * 0.3))] for a student [i] of [n] and a
    window of [len >= 1] days: an index of the window. *)
Lemma floor_start (i n len : Z) :
  0 <= i < n -> n < 2 ^ 53 -> 0 < len < 2 ^ 53 ->
  exists s, Math_floor (mul (div (ofInt i) (ofInt n)) (mul (ofInt len) lit_0_3))
            = Int s
            /\ 0 <= s < len.
Proof.
  intros Hi Hn Hlen.
  destruct (ofInt_pos len) as (ml & el & El & Hml & Hel & Hvl); [lia|].
  rewrite El. unfold lit_0_3.
  destruct (mul_le ml 5404319552844595 ml el (-54) (el - 1))
    as (mb & eb & -> & Hmb & Heb & Hble); try lia.
  { replace (el - 1 - (el + -54)) with 53 by lia. nia. }
  destruct (Z.eq_dec i 0) as [-> | Hi0].
  - destruct (ofInt_pos n) as (mn & en & -> & _); [lia|].
    exists 0. split; [reflexivity | lia].
  - destruct (div_le_one i n) as (mq & eq & -> & Hmq & Heq & Hqle); [lia | lia | lia |].
    apply normal_le_scaled in Hqle; [|lia | cbn; lia].
    destruct Hqle as [Heq52 Hq].
    change (Zpos 4503599627370496) with (2 ^ 52) in Hq.
    rewrite <- Z.pow_add_r in Hq by lia.
    replace (52 + (-52 - eq)) with (- eq) in Hq by lia.
    apply normal_le_scaled in Hble; [|lia | lia].
    destruct Hble as [Hebl Hb].
    assert (Pq : 0 < 2 ^ (- eq)) by (apply Z.pow_pos_nonneg; lia).
    assert (Pb : 0 < 2 ^ (el - 1 - eb)) by (apply Z.pow_pos_nonneg; lia).
    destruct (mul_le mq mb ml eq eb (el - 1))
      as (m' & e' & -> & Hm' & He' & Hle'); try lia.
    { replace (el - 1 - (eq + eb)) with (- eq + (el - 1 - eb)) by lia.
      rewrite Z.pow_add_r by lia. nia. }
    apply normal_le_scaled in Hle'; [|lia | lia].
    destruct Hle' as [He'l Hm'le].
    cbn [Math_floor cond_Zopp].
    destruct (Z.leb_spec 0 e'); [lia|].
    exists (Zpos m' / 2 ^ (- e')). split; [reflexivity|].
    assert (Pe : 0 < 2 ^ (el - 1 - e')) by (apply Z.pow_pos_nonneg; lia).
    assert (Hs : 2 ^ (- e') = 2 ^ (- el) * (2 * 2 ^ (el - 1 - e'))).
    { rewrite <- Z.pow_succ_r, <- Z.pow_add_r by lia. f_equal. lia. }
    assert (Pl : 0 < 2 ^ (- el)) by (apply Z.pow_pos_nonneg; lia).
    split.
    + apply Z.div_pos; [lia | apply Z.pow_pos_nonneg; lia].
    + apply Z.div_lt_upper_bound; [apply Z.pow_pos_nonneg; lia|].
      rewrite Hs. rewrite Hvl in Hm'le. nia.
Qed.

(** *** The rounding error of a quotient and of a product *)

(** The quotient of two integers [0 < a <= t], as a number [m * 2^e]: its
    distance from [a / t] is at most one part in [2^52]. *)
Lemma div_error (a t : Z) :
  0 < a -> a <= t -> t < 2 ^ 53 ->
  exists m e, div (ofInt a) (ofInt t) = S754_finite false m e
              /\ 2 ^ 52 <= Zpos m < 2 ^ 53
              /\ -106 <= e <= -52
              /\ a * (2 ^ 52 - 1) * 2 ^ (- e) <= Zpos m * t * 2 ^ 52
              /\ Zpos m * t * 2 ^ 52 <= a * (2 ^ 52 + 1) * 2 ^ (- e).
Proof.
  intros Ha Hat Ht.
  destruct (div_le_one a t Ha Hat Ht) as (m0 & e0 & Hdiv0 & Hm0 & He0 & Hle1).
  apply normal_le_scaled in Hle1; [|lia | cbn; lia].
  destruct Hle1 as [He52 _].
  destruct (ofInt_pos a) as (ma & ea & Ea & Hma & Hea & Hva); [lia|].
  destruct (ofInt_pos t) as (mt & et & Et & Hmt & Het & Hvt); [lia|].
  rewrite Ea, Et in *.
  destruct (div_shape ma mt ea et Hma Hmt)
    as (k & mr & m & e & Hk & HQ & Hb & _ & Hdiv & Hm & He & Hval); [lia|].
  rewrite Hdiv in Hdiv0. injection Hdiv0 as <- <-.
  exists m, e. split; [exact Hdiv|]. split; [exact Hm|]. split; [lia|].
  set (Q := (Zpos ma * 2 ^ 53) / Zpos mt) in *.
  pose proof (Z.div_mod (Zpos ma * 2 ^ 53) (Zpos mt) ltac:(lia)) as HQdm.
  pose proof (Z.mod_pos_bound (Zpos ma * 2 ^ 53) (Zpos mt) ltac:(lia)) as HQr.
  fold Q in HQdm. set (r := (Zpos ma * 2 ^ 53) mod Zpos mt) in *.
  assert (PK : 0 < 2 ^ k) by (apply Z.pow_pos_nonneg; lia).
  pose proof (Z.div_mod Q (2 ^ k) ltac:(lia)) as Hqdm.
  pose proof (Z.mod_pos_bound Q (2 ^ k) PK) as Hqr.
  set (q1 := Q / 2 ^ k) in *. set (r1 := Q mod 2 ^ k) in *.
  assert (Hq1 : 2 ^ 52 <= q1).
  { subst q1. apply Z.div_le_lower_bound; [lia|]. rewrite <- Z.pow_add_r by lia.
    replace (k + 52) with (52 + k) by lia. lia. }
  assert (PV : 0 < 2 ^ (e - (ea - et - 53 + k))) by (apply Z.pow_pos_nonneg; lia).
  assert (PT : 0 < 2 ^ (- et)) by (apply Z.pow_pos_nonneg; lia).
  assert (PA : 0 < 2 ^ (- ea)) by (apply Z.pow_pos_nonneg; lia).
  assert (PX : 0 < 2 ^ (- e)) by (apply Z.pow_pos_nonneg; lia).
  assert (Hrel : 2 ^ (- e) * (2 ^ (e - (ea - et - 53 + k)) * 2 ^ (- et) * 2 ^ k)
                 = 2 ^ (- ea) * 2 ^ 53).
  { rewrite <- !Z.pow_add_r by lia. f_equal. lia. }
  set (K := 2 ^ k) in *. set (V := 2 ^ (e - (ea - et - 53 + k))) in *.
  set (T := 2 ^ (- et)) in *. set (A := 2 ^ (- ea)) in *. set (X := 2 ^ (- e)) in *.
  assert (PS : 0 < V * T * K) by (repeat apply Z.mul_pos_pos; lia).
  assert (HL : Zpos m * t * 2 ^ 52 * (V * T * K) = mr * Zpos mt * K * 2 ^ 52).
  { rewrite <- Hval, Hvt. ring. }
  assert (HU : a * (2 ^ 52 + 1) * X * (V * T * K)
               = Zpos ma * 2 ^ 53 * (2 ^ 52 + 1)).
  { transitivity (a * (2 ^ 52 + 1) * (X * (V * T * K))); [ring|].
    rewrite Hrel, Hva. ring. }
  assert (HD : a * (2 ^ 52 - 1) * X * (V * T * K)
               = Zpos ma * 2 ^ 53 * (2 ^ 52 - 1)).
  { transitivity (a * (2 ^ 52 - 1) * (X * (V * T * K))); [ring|].
    rewrite Hrel, Hva. ring. }
  assert (HmtK : 0 <= Zpos mt * K) by nia.
  assert (Hk2 : K * Zpos mt <= 2 * Zpos ma).
  { assert (Hk01 : k = 0 \/ k = 1) by lia.
    destruct Hk01 as [-> | ->]; subst K.
    - change (2 ^ 0) with 1. change (2 ^ 53) with (2 * 2 ^ 52) in Hmt. lia.
    - change (2 ^ 1) with 2. change (52 + 1) with 53 in HQ.
      assert (Zpos mt * 2 ^ 53 <= Zpos ma * 2 ^ 53) by nia.
      assert (0 < 2 ^ 53) by (apply Z.pow_pos_nonneg; lia).
      nia. }
  split.
  - apply (Z.mul_le_mono_pos_r _ _ (V * T * K) PS). rewrite HD, HL.
    assert (H1 : Zpos ma * 2 ^ 53 - K * Zpos mt + 1 <= mr * Zpos mt * K).
    { assert (q1 * K * Zpos mt <= mr * Zpos mt * K) by nia.
      assert (Q - K + 1 <= q1 * K) by lia.
      assert ((Q - K + 1) * Zpos mt <= q1 * K * Zpos mt)
        by (apply Z.mul_le_mono_nonneg_r; lia).
      nia. }
    assert (H2 : (Zpos ma * 2 ^ 53 - K * Zpos mt) * 2 ^ 52
                 <= mr * Zpos mt * K * 2 ^ 52)
      by (apply Z.mul_le_mono_nonneg_r; lia).
    assert (H3 : K * Zpos mt * 2 ^ 52 <= Zpos ma * 2 ^ 53).
    { change (2 ^ 53) with (2 * 2 ^ 52). nia. }
    lia.
  - apply (Z.mul_le_mono_pos_r _ _ (V * T * K) PS). rewrite HU, HL.
    assert (H1 : mr * 2 ^ 52 <= q1 * (2 ^ 52 + 1)) by lia.
    assert (H2 : mr * 2 ^ 52 * (Zpos mt * K) <= q1 * (2 ^ 52 + 1) * (Zpos mt * K))
      by (apply Z.mul_le_mono_nonneg_r; lia).
    assert (H3 : q1 * K * Zpos mt <= Zpos ma * 2 ^ 53) by nia.
    assert (H4 : q1 * K * Zpos mt * (2 ^ 52 + 1)
                 <= Zpos ma * 2 ^ 53 * (2 ^ 52 + 1))
      by (apply Z.mul_le_mono_nonneg_r; lia).
    lia.
Qed.

(** The product of a number [mq * 2^eq] of 53 digits and a positive
    integer [w], as a number [m * 2^e]: its distance from the exact
    product is at most one part in [2^52]. *)
Lemma mul_error (mq : positive) (eq w : Z) :
  2 ^ 52 <= Zpos mq < 2 ^ 53 -> -106 <= eq <= -52 -> 0 < w < 2 ^ 53 ->
  exists m e, mul (S754_finite false mq eq) (ofInt w) = S754_finite false m e
              /\ 2 ^ 52 <= Zpos m < 2 ^ 53
              /\ eq <= e
              /\ Zpos mq * w * (2 ^ 52 - 1) <= Zpos m * 2 ^ (e - eq) * 2 ^ 52
              /\ Zpos m * 2 ^ (e - eq) * 2 ^ 52 <= Zpos mq * w * (2 ^ 52 + 1).
Proof.
  intros Hmq Heq Hw.
  destruct (ofInt_pos w) as (mw & ew & -> & Hmw & Hew & Hvw); [lia|].
  destruct (mul_shape mq mw eq ew Hmq Hmw)
    as (k & mr & Hk & HP & Hb & _ & ->); [lia|].
  set (P := Zpos mq * Zpos mw) in *.
  assert (PK : 0 < 2 ^ k) by (apply Z.pow_pos_nonneg; lia).
  pose proof (Z.div_mod P (2 ^ k) ltac:(lia)) as Hdm.
  pose proof (Z.mod_pos_bound P (2 ^ k) PK) as Hr.
  set (q1 := P / 2 ^ k) in *. set (r1 := P mod 2 ^ k) in *.
  assert (Hq1 : 2 ^ 52 <= q1).
  { subst q1. apply Z.div_le_lower_bound; [lia|]. rewrite <- Z.pow_add_r by lia.
    replace (k + 52) with (52 + k) by lia. lia. }
  assert (Hq1' : q1 < 2 ^ 53).
  { subst q1. apply Z.div_lt_upper_bound; [lia|]. rewrite <- Z.pow_add_r by lia.
    replace (k + 53) with (53 + k) by lia. lia. }
  destruct (packed_round mr (eq + ew + k)) as (m & e & -> & Hm & He & Hval);
    [lia | lia |].
  exists m, e. split; [reflexivity|]. split; [exact Hm|]. split; [lia|].
  assert (PV : 0 < 2 ^ (e - (eq + ew + k))) by (apply Z.pow_pos_nonneg; lia).
  assert (PW : 0 < 2 ^ (- ew)) by (apply Z.pow_pos_nonneg; lia).
  assert (PY : 0 < 2 ^ (e - eq)) by (apply Z.pow_pos_nonneg; lia).
  assert (Hrel : 2 ^ (e - eq) * 2 ^ (- ew) = 2 ^ (e - (eq + ew + k)) * 2 ^ k).
  { rewrite <- !Z.pow_add_r by lia. f_equal. lia. }
  assert (HK : 2 ^ 52 * 2 ^ k <= P).
  { rewrite <- Z.pow_add_r by lia. lia. }
  set (K := 2 ^ k) in *. set (V := 2 ^ (e - (eq + ew + k))) in *.
  set (Y := 2 ^ (e - eq)) in *. set (Wp := 2 ^ (- ew)) in *.
  assert (HL : Zpos m * Y * 2 ^ 52 * Wp = mr * K * 2 ^ 52).
  { transitivity (Zpos m * (Y * Wp) * 2 ^ 52); [ring|].
    rewrite Hrel, <- Hval. ring. }
  assert (HR : forall c, Zpos mq * w * c * Wp = P * c).
  { intros c. subst P. rewrite Hvw. ring. }
  split.
  - apply (Z.mul_le_mono_pos_r _ _ Wp PW). rewrite HL, HR.
    assert (H1 : P - K + 1 <= mr * K) by nia.
    assert (H2 : (P - K) * 2 ^ 52 <= mr * K * 2 ^ 52)
      by (apply Z.mul_le_mono_nonneg_r; lia).
    lia.
  - apply (Z.mul_le_mono_pos_r _ _ Wp PW). rewrite HL, HR.
    assert (H1 : mr * 2 ^ 52 <= q1 * (2 ^ 52 + 1)) by lia.
    assert (H2 : mr * 2 ^ 52 * K <= q1 * (2 ^ 52 + 1) * K)
      by (apply Z.mul_le_mono_nonneg_r; lia).
    assert (H3 : q1 * K * (2 ^ 52 + 1) <= P * (2 ^ 52 + 1))
      by (apply Z.mul_le_mono_nonneg_r; lia).
    lia.
Qed.

(** [Math.ceil((a / t) * w)] against the exact quotient [a * w / t], for
    [a * w <= 2^50]: the two roundings move the product by less than
    [1 / t], so the result is the ceiling of the exact quotient, or one
    more when the exact quotient is an integer and the product lands
    above it. *)
Lemma ceil_quotient_mul_near (a t w : Z) :
  0 <= a <= t -> 0 < t < 2 ^ 53 -> 0 <= w < 2 ^ 53 -> a * w <= 2 ^ 50 ->
  exists c, Math_ceil (mul (div (ofInt a) (ofInt t)) (ofInt w)) = Int c
            /\ - ((- (a * w)) / t) <= c <= a * w / t + 1.
Proof.
  intros Ha Ht Hw Haw.
  destruct (Z.eq_dec a 0) as [-> | Ha0].
  { destruct (ofInt_pos t) as (mt & et & -> & _); [lia|].
    pose proof (ofInt_finite_nonneg w Hw) as Hf.
    exists 0. split; [|cbn; lia].
    destruct (ofInt w) as [[]|[]| |[] mw ew]; cbn in Hf; try tauto; reflexivity. }
  destruct (div_error a t) as (m & e & -> & Hm & He & D1 & D2); [lia | lia | lia |].
  destruct (Z.eq_dec w 0) as [-> | Hw0].
  { exists 0. split; [reflexivity|]. rewrite Z.mul_0_r. cbn. lia. }
  destruct (mul_error m e w Hm He) as (m2 & e2 & -> & Hm2 & He2 & M1 & M2); [lia|].
  set (N := a * w) in *.
  assert (HN : 1 <= N) by (subst N; nia).
  assert (PX : 0 < 2 ^ (- e)) by (apply Z.pow_pos_nonneg; lia).
  assert (PY : 0 < 2 ^ (e2 - e)) by (apply Z.pow_pos_nonneg; lia).
  set (X := 2 ^ (- e)) in *. set (Y := 2 ^ (e2 - e)) in *.
  (* the two bounds together *)
  assert (CU : Zpos m2 * Y * 2 ^ 104 * t <= N * (2 ^ 52 + 1) * (2 ^ 52 + 1) * X).
  { assert (H1 : Zpos m2 * Y * 2 ^ 52 * (t * 2 ^ 52)
                 <= Zpos m * w * (2 ^ 52 + 1) * (t * 2 ^ 52))
      by (apply Z.mul_le_mono_nonneg_r; lia).
    assert (H2 : Zpos m * t * 2 ^ 52 * (w * (2 ^ 52 + 1))
                 <= a * (2 ^ 52 + 1) * X * (w * (2 ^ 52 + 1)))
      by (apply Z.mul_le_mono_nonneg_r; lia).
    replace (Zpos m2 * Y * 2 ^ 104 * t)
      with (Zpos m2 * Y * 2 ^ 52 * (t * 2 ^ 52))
      by (change (2 ^ 104) with (2 ^ 52 * 2 ^ 52); ring).
    replace (N * (2 ^ 52 + 1) * (2 ^ 52 + 1) * X)
      with (a * (2 ^ 52 + 1) * X * (w * (2 ^ 52 + 1))) by (subst N; ring).
    replace (Zpos m * w * (2 ^ 52 + 1) * (t * 2 ^ 52))
      with (Zpos m * t * 2 ^ 52 * (w * (2 ^ 52 + 1))) in H1 by ring.
    lia. }
  assert (CL : N * (2 ^ 52 - 1) * (2 ^ 52 - 1) * X <= Zpos m2 * Y * 2 ^ 104 * t).
  { assert (H1 : Zpos m * w * (2 ^ 52 - 1) * (t * 2 ^ 52)
                 <= Zpos m2 * Y * 2 ^ 52 * (t * 2 ^ 52))
      by (apply Z.mul_le_mono_nonneg_r; lia).
    assert (H2 : a * (2 ^ 52 - 1) * X * (w * (2 ^ 52 - 1))
                 <= Zpos m * t * 2 ^ 52 * (w * (2 ^ 52 - 1)))
      by (apply Z.mul_le_mono_nonneg_r; lia).
    replace (Zpos m2 * Y * 2 ^ 104 * t)
      with (Zpos m2 * Y * 2 ^ 52 * (t * 2 ^ 52))
      by (change (2 ^ 104) with (2 ^ 52 * 2 ^ 52); ring).
    replace (N * (2 ^ 52 - 1) * (2 ^ 52 - 1) * X)
      with (a * (2 ^ 52 - 1) * X * (w * (2 ^ 52 - 1))) by (subst N; ring).
    replace (Zpos m * w * (2 ^ 52 - 1) * (t * 2 ^ 52))
      with (Zpos m * t * 2 ^ 52 * (w * (2 ^ 52 - 1))) in H1 by ring.
    lia. }
  assert (HNu : N * (2 ^ 52 + 1) * (2 ^ 52 + 1) <= (N + 1) * 2 ^ 104).
  { change (2 ^ 50) with 1125899906842624 in Haw.
    change (2 ^ 52) with 4503599627370496.
    change (2 ^ 104) with 20282409603651670423947251286016. lia. }
  assert (HNl : (N - 1) * 2 ^ 104 < N * (2 ^ 52 - 1) * (2 ^ 52 - 1)).
  { change (2 ^ 50) with 1125899906842624 in Haw.
    change (2 ^ 52) with 4503599627370496.
    change (2 ^ 104) with 20282409603651670423947251286016. lia. }
  assert (P104 : 0 < 2 ^ 104) by (apply Z.pow_pos_nonneg; lia).
  cbn [Math_ceil cond_Zopp].
  destruct (Z.leb_spec 0 e2) as [Hpos | Hneg].
  - (* the product is below 2^52 *)
    exfalso.
    assert (HXY : X <= Y) by (subst X Y; apply Z.pow_le_mono_r; lia).
    assert (H1 : Zpos m2 * 2 ^ 104 * t * X <= Zpos m2 * 2 ^ 104 * t * Y)
      by (apply Z.mul_le_mono_nonneg_l; [nia | lia]).
    assert (H2 : Zpos m2 * 2 ^ 104 * t * X <= (N + 1) * 2 ^ 104 * X).
    { assert (N * (2 ^ 52 + 1) * (2 ^ 52 + 1) * X <= (N + 1) * 2 ^ 104 * X)
        by (apply Z.mul_le_mono_nonneg_r; lia).
      replace (Zpos m2 * 2 ^ 104 * t * Y) with (Zpos m2 * Y * 2 ^ 104 * t) in H1
        by ring.
      lia. }
    apply Z.mul_le_mono_pos_r in H2; [|exact PX].
    assert (H3 : Zpos m2 * t <= N + 1).
    { replace (Zpos m2 * 2 ^ 104 * t) with (Zpos m2 * t * 2 ^ 104) in H2 by ring.
      apply Z.mul_le_mono_pos_r in H2; [exact H2 | exact P104]. }
    change (2 ^ 50) with 1125899906842624 in Haw.
    change (2 ^ 52) with 4503599627370496 in Hm2. nia.
  - assert (PZ : 0 < 2 ^ (- e2)) by (apply Z.pow_pos_nonneg; lia).
    assert (HXYZ : X = Y * 2 ^ (- e2)).
    { subst X Y. rewrite <- Z.pow_add_r by lia. f_equal. lia. }
    set (Zs := 2 ^ (- e2)) in *.
    assert (CU' : Zpos m2 * 2 ^ 104 * t <= N * (2 ^ 52 + 1) * (2 ^ 52 + 1) * Zs).
    { apply (Z.mul_le_mono_pos_r _ _ Y PY).
      replace (Zpos m2 * 2 ^ 104 * t * Y) with (Zpos m2 * Y * 2 ^ 104 * t) by ring.
      replace (N * (2 ^ 52 + 1) * (2 ^ 52 + 1) * Zs * Y)
        with (N * (2 ^ 52 + 1) * (2 ^ 52 + 1) * X) by (rewrite HXYZ; ring).
      exact CU. }
    assert (CL' : N * (2 ^ 52 - 1) * (2 ^ 52 - 1) * Zs <= Zpos m2 * 2 ^ 104 * t).
    { apply (Z.mul_le_mono_pos_r _ _ Y PY).
      replace (Zpos m2 * 2 ^ 104 * t * Y) with (Zpos m2 * Y * 2 ^ 104 * t) by ring.
      replace (N * (2 ^ 52 - 1) * (2 ^ 52 - 1) * Zs * Y)
        with (N * (2 ^ 52 - 1) * (2 ^ 52 - 1) * X) by (rewrite HXYZ; ring).
      exact CL. }
    exists (- (- Zpos m2 / Zs)). split; [reflexivity|].
    pose proof (Z.div_mod N t ltac:(lia)) as HF.
    pose proof (Z.mod_pos_bound N t ltac:(lia)) as HFr.
    pose proof (Z.div_mod (- N) t ltac:(lia)) as HG.
    pose proof (Z.mod_pos_bound (- N) t ltac:(lia)) as HGr.
    set (F := N / t) in *. set (G := (- N) / t) in *.
    split.
    + (* the ceiling of the exact quotient is reached *)
      assert (Hlt : - Zpos m2 / Zs < G + 1); [|lia].
      apply Z.div_lt_upper_bound; [exact PZ|].
      assert (Hj : (- (G + 1)) * t <= N - 1) by lia.
      assert (H1 : (- (G + 1)) * t * (2 ^ 104 * Zs) <= (N - 1) * (2 ^ 104 * Zs))
        by (apply Z.mul_le_mono_nonneg_r; lia).
      assert (H2 : (N - 1) * 2 ^ 104 * Zs < N * (2 ^ 52 - 1) * (2 ^ 52 - 1) * Zs)
        by (apply Z.mul_lt_mono_pos_r; [exact PZ | exact HNl]).
      assert (H3 : (- (G + 1)) * Zs * (2 ^ 104 * t) < Zpos m2 * (2 ^ 104 * t)).
      { replace ((- (G + 1)) * Zs * (2 ^ 104 * t))
          with ((- (G + 1)) * t * (2 ^ 104 * Zs)) by ring.
        replace (Zpos m2 * (2 ^ 104 * t)) with (Zpos m2 * 2 ^ 104 * t) by ring.
        replace ((N - 1) * (2 ^ 104 * Zs)) with ((N - 1) * 2 ^ 104 * Zs) in H1 by ring.
        lia. }
      apply Z.mul_lt_mono_pos_r in H3; [lia | lia].
    + (* and passed by at most one *)
      assert (Hge : - (F + 1) <= - Zpos m2 / Zs); [|lia].
      apply Z.div_le_lower_bound; [exact PZ|].
      assert (Hj : N + 1 <= (F + 1) * t) by lia.
      assert (H1 : (N + 1) * (2 ^ 104 * Zs) <= (F + 1) * t * (2 ^ 104 * Zs))
        by (apply Z.mul_le_mono_nonneg_r; lia).
      assert (H2 : N * (2 ^ 52 + 1) * (2 ^ 52 + 1) * Zs <= (N + 1) * 2 ^ 104 * Zs)
        by (apply Z.mul_le_mono_nonneg_r; lia).
      assert (H3 : Zpos m2 * (2 ^ 104 * t) <= (F + 1) * Zs * (2 ^ 104 * t)).
      { replace ((F + 1) * Zs * (2 ^ 104 * t))
          with ((F + 1) * t * (2 ^ 104 * Zs)) by ring.
        replace (Zpos m2 * (2 ^ 104 * t)) with (Zpos m2 * 2 ^ 104 * t) by ring.
        replace ((N + 1) * (2 ^ 104 * Zs)) with ((N + 1) * 2 ^ 104 * Zs) in H1 by ring.
        lia. }
      apply Z.mul_le_mono_pos_r in H3; [lia | lia].
Qed.

End Binary64.

(** ** The next working day *)

Lemma length_app {A : Type} (l1 l2 : list A) :
  length (l1 ++ l2) = length l1 + length l2.
Proof. unfold length. rewrite List.length_app. lia. Qed.

Lemma length_cons {A : Type} (x : A) (l : list A) :
  length (x :: l) = length l + 1.
Proof. unfold length. cbn [List.length]. lia. Qed.

Lemma length_nonneg {A : Type} (l : list A) : 0 <= length l.
Proof. unfold length. lia. Qed.

Lemma indexOf_from_absent (l : list Z) (x k : Z) :
  ~ In x l -> indexOf_from l x k = -1.
Proof.
  revert k. induction l as [|y l IH]; intros k Hin; cbn [indexOf_from].
  - reflexivity.
  - destruct (Z.eqb_spec y x) as [-> | _].
    + exfalso. apply Hin. left. reflexivity.
    + apply IH. intros H. apply Hin. right. exact H.
Qed.

Lemma indexOf_from_first (pre post : list Z) (x k : Z) :
  ~ In x pre -> indexOf_from (pre ++ x :: post) x k = k + length pre.
Proof.
  revert k. induction pre as [|y pre IH]; intros k Hin; cbn [indexOf_from app].
  - rewrite Z.eqb_refl. unfold length. cbn. lia.
  - destruct (Z.eqb_spec y x) as [-> | _].
    + exfalso. apply Hin. left. reflexivity.
    + rewrite IH by (intros H; apply Hin; right; exact H).
      rewrite length_cons. lia.
Qed.

(** In a descending sequence nothing before an element equals it. *)
Lemma descending_before (pre post : list Z) (c : Z) :
  descending (pre ++ c :: post) -> ~ In c pre.
Proof.
  unfold descending. induction pre as [|y pre IH]; intros Hs Hin.
  - exact Hin.
  - cbn [app] in Hs. apply StronglySorted_inv in Hs. destruct Hs as [Hs Hall].
    destruct Hin as [-> | Hin].
    + rewrite Forall_forall in Hall.
      specialize (Hall c (in_elt c pre post)). lia.
    + exact (IH Hs Hin).
Qed.

Lemma getNextWorkingDay_next (c next : Z) (pre post : list Z) :
  ~ In c pre -> getNextWorkingDay c (pre ++ c :: next :: post) = next.
Proof.
  intros Hpre. unfold getNextWorkingDay, indexOf.
  rewrite indexOf_from_first by exact Hpre.
  rewrite !length_app, !length_cons. cbn [Z.add].
  pose proof (length_nonneg pre). pose proof (length_nonneg post).
  destruct (Z.eqb_spec (length pre) (-1)); [lia|].
  destruct (Z.eqb_spec (length pre) (length pre + (length post + 1 + 1) - 1)); [lia|].
  cbn [orb]. unfold length.
  replace (Z.to_nat (Z.of_nat (List.length pre) + 1)) with (S (List.length pre)) by lia.
  rewrite app_nth2 by lia.
  replace (S (List.length pre) - List.length pre)%nat with 1%nat by lia.
  reflexivity.
Qed.

Lemma getNextWorkingDay_last (c : Z) (pre : list Z) :
  ~ In c pre -> getNextWorkingDay c (pre ++ [c]) = Z.max 1 (c - 1).
Proof.
  intros Hpre. unfold getNextWorkingDay, indexOf.
  rewrite indexOf_from_first by exact Hpre.
  rewrite length_app, length_cons. cbn [Z.add].
  replace (length pre =? length pre + (length (@nil Z) + 1) - 1) with true.
  - rewrite orb_true_r. reflexivity.
  - symmetry. apply Z.eqb_eq. unfold length. cbn. lia.
Qed.

Lemma getNextWorkingDay_absent (c : Z) (s : list Z) :
  ~ In c s -> getNextWorkingDay c s = Z.max 1 (c - 1).
Proof.
  intros Hin. unfold getNextWorkingDay, indexOf.
  rewrite indexOf_from_absent by exact Hin. reflexivity.
Qed.

(** In a descending sequence, the working day after a day of offset above
    1 is a later day: its offset is smaller. *)
Lemma getNextWorkingDay_later (c : Z) (s : list Z) :
  descending s -> 1 < c -> getNextWorkingDay c s <= c - 1.
Proof.
  intros Hs Hc. destruct (in_dec Z.eq_dec c s) as [Hin | Hout].
  - apply in_split in Hin. destruct Hin as (pre & post & ->).
    pose proof (descending_before pre post c Hs) as Hpre.
    destruct post as [|next post].
    + rewrite getNextWorkingDay_last by exact Hpre. lia.
    + rewrite getNextWorkingDay_next by exact Hpre.
      unfold descending in Hs. clear Hpre.
      induction pre as [|y pre IH]; cbn [app] in Hs;
        apply StronglySorted_inv in Hs; destruct Hs as [Hs Hall].
      * apply Forall_inv in Hall. lia.
      * exact (IH Hs).
  - rewrite getNextWorkingDay_absent by exact Hout. lia.
Qed.

(** C6. For a current offset [c] and a descending sequence [s] of
    candidate offsets, [getNextWorkingDay c s] is the element of [s] that
    follows [c] when [c] occurs in [s] before its last position, and
    [max(1, c - 1)] when [c] does not occur in [s] or is its last
    element. *)
Theorem getNextWorkingDay_descending (c : Z) (s : list Z) :
  descending s ->
  (forall pre next post,
      s = pre ++ c :: next :: post -> getNextWorkingDay c s = next)
  /\ (~ In c s -> getNextWorkingDay c s = Z.max 1 (c - 1))
  /\ (forall pre, s = pre ++ [c] -> getNextWorkingDay c s = Z.max 1 (c - 1)).
Proof.
  intros Hs. split; [|split].
  - intros pre next post ->. apply getNextWorkingDay_next.
    eapply descending_before. exact Hs.
  - apply getNextWorkingDay_absent.
  - intros pre ->. apply getNextWorkingDay_last.
    eapply descending_before. exact Hs.
Qed.

Lemma getNextWorkingDay_descending_witness :
  getNextWorkingDay 2 [3; 2; 1] = 1.
Proof.
  assert (Hs : descending [3; 2; 1]).
  { unfold descending. repeat constructor; lia. }
  exact (proj1 (getNextWorkingDay_descending 2 [3; 2; 1] Hs) [3] 1 [] eq_refl).
Defined.

(** ** The steps of the scheduler *)

Lemma out_app_nil_r (o : Out) : out_app o out_nil = o.
Proof. destruct o. unfold out_app. cbn. rewrite !app_nil_r. reflexivity. Qed.

Lemma out_app_nil_l (o : Out) : out_app out_nil o = o.
Proof. destruct o. reflexivity. Qed.

Lemma bind_done {A B : Type} (a : A) (k : A -> M B) :
  bind (ret a) k = k a.
Proof.
  unfold bind, ret. destruct (k a) as [[b o]|]; [|reflexivity].
  rewrite out_app_nil_l. reflexivity.
Qed.

Lemma bind_rows {B : Type} (rows : list DbWrite) (k : unit -> M B) :
  bind (rows_only rows) k
  = match k tt with
    | Throw => Throw
    | Done (b, o) =>
        Done (b, Build_Out (rows ++ writes o) (partialLessonProgress o)
                   (pendingMasteryChecks o))
    end.
Proof. reflexivity. Qed.

Lemma answerQuestion_rows (groupId : Z) (enrollment : Enrollment)
    (lesson : LessonData) (dayOffset h q : Z) (question : LessonQuestion) :
  answerQuestion groupId enrollment lesson dayOffset (Int h) q question
  = rows_only (questionRow groupId enrollment lesson question
                 (10 + h - 24 * dayOffset)).
Proof.
  unfold answerQuestion, getTimestampDaysAgo, createQuestionShownEvent,
    createQuestionAnsweredEvent, questionRow, rows_only.
  rewrite bind_done. destruct (truthy (kcId question)); reflexivity.
Qed.

(** The question loops: the questions from [q] up to [b], in order. *)
Lemma for_index_questions (groupId : Z) (enrollment : Enrollment)
    (lesson : LessonData) (dayOffset : Z) (hours : Z -> Z) :
  forall (rest : list LessonQuestion) (q b : Z),
    q <= b -> b - q <= length rest ->
    for_index rest q (Int b)
      (fun k question _ =>
         answerQuestion groupId enrollment lesson dayOffset (Int (hours k)) k
           question)
      tt
    = rows_only (questionRows groupId enrollment lesson dayOffset hours q
                   (firstn (Z.to_nat (b - q)) rest)).
Proof.
  induction rest as [|question rest IH]; intros q b Hq Hb.
  - unfold length in Hb. cbn [List.length] in Hb.
    replace b with q by lia. cbn [for_index lt]. rewrite Z.ltb_irrefl.
    rewrite Z.sub_diag. reflexivity.
  - cbn [for_index lt]. destruct (Z.ltb_spec q b) as [Hlt | Hge].
    + rewrite answerQuestion_rows, bind_rows.
      rewrite length_cons in Hb.
      rewrite (IH (q + 1) b) by lia.
      replace (Z.to_nat (b - q)) with (S (Z.to_nat (b - (q + 1)))) by lia.
      reflexivity.
    + replace b with q by lia. rewrite Z.sub_diag. reflexivity.
Qed.

Lemma length_firstn {A : Type} (l : list A) (k : Z) :
  0 <= k <= length l -> length (firstn (Z.to_nat k) l) = k.
Proof. unfold length. intros H. rewrite List.length_firstn. lia. Qed.

Lemma length_from_index {A : Type} (l : list A) (k : Z) :
  0 <= k <= length l -> length (from_index l k) = length l - k.
Proof.
  unfold length, from_index. intros H.
  destruct (Z.ltb_spec k 0); [lia|]. rewrite List.length_skipn. lia.
Qed.

(** The day of a lesson: the clamped index is an index of the available
    days. *)
Lemma day1_defined (availableDays : list Z) (dayIdxOffset : intnum) :
  availableDays <> [] -> natural dayIdxOffset ->
  exists idx day1Offset,
    Math_min dayIdxOffset (Int (length availableDays - 1)) = Int idx
    /\ 0 <= idx < length availableDays
    /\ get availableDays (Int idx) = Some day1Offset
    /\ In day1Offset availableDays.
Proof.
  intros Hne Hnat.
  assert (Hlen : 0 < length availableDays).
  { unfold length. destruct availableDays; [contradiction | cbn; lia]. }
  assert (Hget : forall idx, 0 <= idx < length availableDays ->
            exists d, get availableDays (Int idx) = Some d /\ In d availableDays).
  { intros idx Hidx. unfold get. destruct (Z.ltb_spec idx 0); [lia|].
    destruct (nth_error availableDays (Z.to_nat idx)) as [d|] eqn:E.
    - exists d. split; [reflexivity | eapply nth_error_In; exact E].
    - apply nth_error_None in E. unfold length in Hidx. lia. }
  destruct dayIdxOffset as [o | [] |]; cbn [natural] in Hnat; try contradiction.
  - cbn [Math_min lt].
    destruct (Z.ltb_spec (length availableDays - 1) o).
    + destruct (Hget (length availableDays - 1)) as (d & Hd & Hin); [lia|].
      exists (length availableDays - 1), d. repeat split; try lia; assumption.
    + destruct (Hget o) as (d & Hd & Hin); [lia|].
      exists o, d. repeat split; try lia; assumption.
  - cbn [Math_min lt negb].
    destruct (Hget (length availableDays - 1)) as (d & Hd & Hin); [lia|].
    exists (length availableDays - 1), d. repeat split; try lia; assumption.
Qed.

Lemma completeToday_out (groupId : Z) (enrollment : Enrollment)
    (lesson : LessonData) (i lessonIdx moduleIndex day1Offset answered : Z)
    (moduleDays : list Z) :
  completeToday groupId enrollment lesson i lessonIdx moduleIndex day1Offset
    (Int answered) moduleDays
  = Done (tt, completeTodayOut groupId enrollment lesson
                (i + lessonIdx + moduleIndex) day1Offset answered moduleIndex
                moduleDays).
Proof.
  unfold completeToday, completeTodayOut, getTimestampDaysAgo.
  rewrite bind_done.
  destruct (delayMasteryCheck (i + lessonIdx + moduleIndex) && (1 <? day1Offset));
    reflexivity.
Qed.


Lemma firstn_from_index {A : Type} (l : list A) (k : Z) :
  0 <= k <= length l ->
  firstn (Z.to_nat (length l - k)) (from_index l k) = from_index l k.
Proof.
  intros H. pose proof (length_from_index l k H) as Hlen.
  rewrite <- Hlen. unfold length. rewrite Nat2Z.id. apply firstn_all.
Qed.

Lemma continueLesson_out (groupId : Z) (windows : list (list Z))
    (partial : PartialLessonProgress) (done : Z) (moduleDays : list Z) :
  questionsCompleted partial = Int done ->
  0 <= done <= length (questions (partial_lesson partial)) ->
  (delayMasteryCheck (lessonIndex partial + partial_moduleIndex partial)
   && (1 <? partial_scheduledDayOffset partial) = true ->
   get windows (Int (partial_moduleIndex partial)) = Some moduleDays) ->
  continueLesson groupId windows partial
  = Done (tt, continueLessonOut groupId partial done moduleDays).
Proof.
  intros Hqc Hdone Hwin. unfold continueLesson, continueLessonOut.
  rewrite Hqc.
  pose proof (for_index_questions groupId (partial_enrollment partial)
                (partial_lesson partial) (partial_scheduledDayOffset partial)
                (fun q => q - done)
                (from_index (questions (partial_lesson partial)) done) done
                (length (questions (partial_lesson partial)))) as Hloop.
  cbn beta in Hloop. rewrite Hloop by (rewrite ?length_from_index; lia).
  rewrite firstn_from_index by lia.
  rewrite bind_rows. unfold getTimestampDaysAgo. rewrite bind_done.
  destruct (delayMasteryCheck (lessonIndex partial + partial_moduleIndex partial)
            && (1 <? partial_scheduledDayOffset partial)) eqn:Hdelay.
  - rewrite (Hwin eq_refl). reflexivity.
  - reflexivity.
Qed.

(** Lines 152-223, the lesson is split: the first half of the questions
    today, the rest queued. *)
Lemma scheduleLesson_split (groupId : Z) (enrollment : Enrollment)
    (i moduleIndex : Z) (moduleDays availableDays : list Z)
    (perLesson : intnum) (lessonIdx : Z) (lesson : LessonData)
    (dayIdxOffset : intnum) (idx day1Offset : Z) :
  let n := length (questions lesson) in
  n < 2 ^ 53 ->
  splitLesson i lessonIdx moduleIndex n = true ->
  Math_min dayIdxOffset (Int (length availableDays - 1)) = Int idx ->
  get availableDays (Int idx) = Some day1Offset ->
  scheduleLesson groupId enrollment i moduleIndex moduleDays availableDays
    perLesson lessonIdx lesson dayIdxOffset
  = Done (add dayIdxOffset (Int 2),
          Build_Out
            (questionRows groupId enrollment lesson day1Offset (fun q => q) 0
               (firstn (Z.to_nat (n / 2)) (questions lesson)))
            [{| partial_enrollment := enrollment;
                partial_lesson := lesson;
                questionsCompleted := Int (n / 2);
                partial_scheduledDayOffset :=
                  getNextWorkingDay day1Offset availableDays;
                partial_moduleIndex := moduleIndex;
                lessonIndex := lessonIdx |}]
            []).
Proof.
  intros n Hn Hsplit Hmin Hget. unfold scheduleLesson. fold n.
  rewrite Hsplit, Hmin, Hget. cbn [defined]. rewrite bind_done.
  pose proof (length_nonneg (questions lesson)) as Hn0. fold n in Hn0.
  assert (Hn2 : 2 <= n).
  { unfold splitLesson in Hsplit. apply andb_prop in Hsplit.
    destruct Hsplit as [_ H2]. apply Z.leb_le in H2. exact H2. }
  unfold questionsDay2, questionsDay1.
  rewrite Binary64.floor_half by lia.
  pose proof (for_index_questions groupId enrollment lesson day1Offset
                (fun q => q) (questions lesson) 0 (n / 2)) as Hloop.
  cbn beta in Hloop. rewrite Hloop.
  2: { apply Z.div_pos; lia. }
  2: { fold n. assert (n / 2 <= n) by (apply Z.div_le_upper_bound; lia). lia. }
  rewrite Z.sub_0_r, bind_rows.
  cbn [sub lt andb].
  replace (0 <? n - n / 2) with true.
  2: { symmetry. apply Z.ltb_lt.
       assert (n / 2 < n) by (apply Z.div_lt_upper_bound; lia). lia. }
  unfold push_partial, bind, ret, out_app, out_nil. cbn.
  rewrite app_nil_r. reflexivity.
Qed.

(** Lines 152-223, the lesson is not split: all questions today, then
    the completion. *)
Lemma scheduleLesson_whole (groupId : Z) (enrollment : Enrollment)
    (i moduleIndex : Z) (moduleDays availableDays : list Z)
    (perLesson : intnum) (lessonIdx : Z) (lesson : LessonData)
    (dayIdxOffset : intnum) (idx day1Offset : Z) :
  let n := length (questions lesson) in
  splitLesson i lessonIdx moduleIndex n = false ->
  Math_min dayIdxOffset (Int (length availableDays - 1)) = Int idx ->
  get availableDays (Int idx) = Some day1Offset ->
  scheduleLesson groupId enrollment i moduleIndex moduleDays availableDays
    perLesson lessonIdx lesson dayIdxOffset
  = Done (add dayIdxOffset perLesson,
          out_app
            (Build_Out
               (questionRows groupId enrollment lesson day1Offset
                  (fun q => q) 0 (questions lesson)) [] [])
            (completeTodayOut groupId enrollment lesson
               (i + lessonIdx + moduleIndex) day1Offset n moduleIndex
               moduleDays)).
Proof.
  intros n Hsplit Hmin Hget. unfold scheduleLesson. fold n.
  rewrite Hsplit, Hmin, Hget. cbn [defined]. rewrite bind_done.
  unfold questionsDay1.
  pose proof (length_nonneg (questions lesson)) as Hn0. fold n in Hn0.
  pose proof (for_index_questions groupId enrollment lesson day1Offset
                (fun q => q) (questions lesson) 0 n) as Hloop.
  cbn beta in Hloop. rewrite Hloop by (fold n; lia).
  rewrite Z.sub_0_r. unfold n at 1. unfold length at 1.
  rewrite Nat2Z.id, firstn_all.
  cbn [andb]. rewrite completeToday_out.
  unfold rows_only, bind, ret. cbn.
  rewrite out_app_nil_r. reflexivity.
Qed.

(** ** Questions shown and answered *)

(** C9. For every question the scheduler processes (the body of its two
    question loops), whose knowledge component id, when present, is a
    database key and so not 0: a LESSON_QUESTION_SHOWN row is written if
    and only if the question has a knowledge component id, and a
    QUESTION_ANSWERED row is written in both cases. *)
Theorem question_shown_iff_knowledge_component (groupId : Z)
    (enrollment : Enrollment) (lesson : LessonData) (dayOffset h q : Z)
    (question : LessonQuestion) :
  kcId question <> Some 0 ->
  exists rows,
    answerQuestion groupId enrollment lesson dayOffset (Int h) q question
    = Done (tt, Build_Out rows [] [])
    /\ ((exists e, In (InsertEvent e) rows
                   /\ type e = LESSON_QUESTION_SHOWN
                   /\ ev_questionId e = Some (question_id question))
        <-> kcId question <> None)
    /\ (exists e, In (InsertEvent e) rows
                  /\ type e = QUESTION_ANSWERED
                  /\ ev_questionId e = Some (question_id question)).
Proof.
  intros Hkc. rewrite answerQuestion_rows. unfold rows_only, questionRow.
  eexists. split; [reflexivity|]. split.
  - destruct (kcId question) as [k|] eqn:Ek; cbn [truthy].
    + destruct (Z.eqb_spec k 0) as [-> | Hk]; [contradiction Hkc; reflexivity|].
      cbn [negb]. split; [intros _; discriminate|]. intros _.
      eexists. split; [left; reflexivity|]. split; reflexivity.
    + split; [|intros H; contradiction H; reflexivity].
      intros (e & [He | []] & Ht & _).
      injection He as <-. discriminate Ht.
  - eexists. split; [apply in_or_app; right; left; reflexivity|].
    split; reflexivity.
Qed.

Lemma question_shown_iff_knowledge_component_witness :
  exists rows,
    answerQuestion 7 (sampleEnrollment 0) (sampleLesson 0 2) 3 (Int 1) 1
      (sampleQuestion 1)
    = Done (tt, Build_Out rows [] [])
    /\ ((exists e, In (InsertEvent e) rows
                   /\ type e = LESSON_QUESTION_SHOWN
                   /\ ev_questionId e = Some (question_id (sampleQuestion 1)))
        <-> kcId (sampleQuestion 1) <> None)
    /\ (exists e, In (InsertEvent e) rows
                  /\ type e = QUESTION_ANSWERED
                  /\ ev_questionId e = Some (question_id (sampleQuestion 1))).
Proof.
  apply (question_shown_iff_knowledge_component 7 (sampleEnrollment 0)
           (sampleLesson 0 2) 3 1 1 (sampleQuestion 1)).
  cbn. discriminate.
Defined.

(** ** The split of a lesson *)

Lemma splitLesson_iff (i lessonIdx moduleIndex n : Z) :
  0 <= i -> 0 <= lessonIdx -> 0 <= moduleIndex ->
  splitLesson i lessonIdx moduleIndex n = true
  <-> (i + lessonIdx + moduleIndex) mod 10 < 3 /\ 2 <= n.
Proof.
  intros Hi Hl Hm. unfold splitLesson.
  rewrite Z.rem_mod_nonneg by lia.
  rewrite andb_true_iff, Z.ltb_lt, Z.leb_le. reflexivity.
Qed.

(** The split decision of lines 156-198, on every input. For a student
    [i], a lesson index and a module index, with the lesson scheduled on
    the day [day1Offset] of the available days: a continuation is queued
    if and only if [(i + lessonIdx + moduleIndex) mod 10 < 3] and the
    lesson has at least 2 questions; then the rows written are those of
    exactly the first [floor(n / 2)] questions, on [day1Offset], and the
    one entry queued records [floor(n / 2)] questions completed, leaving
    [n - floor(n / 2)], and carries the day that [getNextWorkingDay]
    gives for [day1Offset] in the available days. Whether that is another
    day is the matter of [getNextWorkingDay]: it is not on the day of
    offset 1 (C4). *)
Theorem lesson_split_decision (groupId : Z) (enrollment : Enrollment)
    (i moduleIndex : Z) (moduleDays availableDays : list Z)
    (perLesson : intnum) (lessonIdx : Z) (lesson : LessonData)
    (dayIdxOffset : intnum) :
  let n := length (questions lesson) in
  0 <= i -> 0 <= lessonIdx -> 0 <= moduleIndex ->
  availableDays <> [] -> natural dayIdxOffset ->
  array_length_ok (questions lesson) ->
  exists day1Offset next o,
    get availableDays (Math_min dayIdxOffset (Int (length availableDays - 1)))
    = Some day1Offset
    /\ scheduleLesson groupId enrollment i moduleIndex moduleDays
         availableDays perLesson lessonIdx lesson dayIdxOffset
       = Done (next, o)
    /\ (partialLessonProgress o <> []
        <-> (i + lessonIdx + moduleIndex) mod 10 < 3 /\ 2 <= n)
    /\ ((i + lessonIdx + moduleIndex) mod 10 < 3 /\ 2 <= n ->
        writes o
        = questionRows groupId enrollment lesson day1Offset (fun q => q) 0
            (firstn (Z.to_nat (n / 2)) (questions lesson))
        /\ length (firstn (Z.to_nat (n / 2)) (questions lesson)) = n / 2
        /\ partialLessonProgress o
           = [{| partial_enrollment := enrollment;
                 partial_lesson := lesson;
                 questionsCompleted := Int (n / 2);
                 partial_scheduledDayOffset :=
                   getNextWorkingDay day1Offset availableDays;
                 partial_moduleIndex := moduleIndex;
                 lessonIndex := lessonIdx |}]
        /\ length (from_index (questions lesson) (n / 2)) = n - n / 2
        /\ pendingMasteryChecks o = []).
Proof.
  intros n Hi Hl Hm Hne Hnat Hlen.
  destruct (day1_defined availableDays dayIdxOffset Hne Hnat)
    as (idx & day1Offset & Hmin & Hidx & Hget & _).
  pose proof (length_nonneg (questions lesson)) as Hn0. fold n in Hn0.
  assert (Hn53 : n < 2 ^ 53) by (unfold array_length_ok in Hlen; fold n in Hlen; lia).
  assert (Hhalf : 0 <= n / 2 <= n).
  { split; [apply Z.div_pos; lia | apply Z.div_le_upper_bound; lia]. }
  exists day1Offset. rewrite Hmin.
  destruct (splitLesson i lessonIdx moduleIndex n) eqn:Hsplit.
  - rewrite (scheduleLesson_split groupId enrollment i moduleIndex moduleDays
               availableDays perLesson lessonIdx lesson dayIdxOffset idx
               day1Offset Hn53 Hsplit Hmin Hget).
    apply splitLesson_iff in Hsplit; [|lia|lia|lia].
    eexists. eexists. split; [exact Hget|]. split; [reflexivity|].
    cbn [partialLessonProgress writes pendingMasteryChecks]. split.
    + split; [intros _; exact Hsplit | intros _; discriminate].
    + intros _. split; [reflexivity|].
      split; [apply length_firstn; fold n; lia|].
      split; [reflexivity|].
      split; [apply length_from_index; fold n; lia | reflexivity].
  - rewrite (scheduleLesson_whole groupId enrollment i moduleIndex moduleDays
               availableDays perLesson lessonIdx lesson dayIdxOffset idx
               day1Offset Hsplit Hmin Hget).
    assert (Hno : ~ ((i + lessonIdx + moduleIndex) mod 10 < 3 /\ 2 <= n)).
    { intros H. apply splitLesson_iff in H; [|lia|lia|lia]. congruence. }
    eexists. eexists. split; [exact Hget|]. split; [reflexivity|].
    split.
    + split; [|intros H; contradiction (Hno H)].
      intros H. exfalso. apply H. unfold completeTodayOut.
      destruct (delayMasteryCheck (i + lessonIdx + moduleIndex) && (1 <? day1Offset));
        reflexivity.
    + intros H. contradiction (Hno H).
Qed.

Lemma lesson_split_decision_witness :
  exists day1Offset next o,
    get [3; 2; 1] (Math_min (Int 0) (Int (length [3; 2; 1] - 1)))
    = Some day1Offset
    /\ scheduleLesson 7 (sampleEnrollment 0) 0 0 [3; 2; 1] [3; 2; 1] (Int 1)
         0 (sampleLesson 0 4) (Int 0)
       = Done (next, o)
    /\ (partialLessonProgress o <> []
        <-> (0 + 0 + 0) mod 10 < 3
            /\ 2 <= length (questions (sampleLesson 0 4)))
    /\ ((0 + 0 + 0) mod 10 < 3 /\ 2 <= length (questions (sampleLesson 0 4)) ->
        writes o
        = questionRows 7 (sampleEnrollment 0) (sampleLesson 0 4) day1Offset
            (fun q => q) 0
            (firstn (Z.to_nat (length (questions (sampleLesson 0 4)) / 2))
               (questions (sampleLesson 0 4)))
        /\ length (firstn (Z.to_nat (length (questions (sampleLesson 0 4)) / 2))
                     (questions (sampleLesson 0 4)))
           = length (questions (sampleLesson 0 4)) / 2
        /\ partialLessonProgress o
           = [{| partial_enrollment := sampleEnrollment 0;
                 partial_lesson := sampleLesson 0 4;
                 questionsCompleted :=
                   Int (length (questions (sampleLesson 0 4)) / 2);
                 partial_scheduledDayOffset :=
                   getNextWorkingDay day1Offset [3; 2; 1];
                 partial_moduleIndex := 0;
                 lessonIndex := 0 |}]
        /\ length (from_index (questions (sampleLesson 0 4))
                     (length (questions (sampleLesson 0 4)) / 2))
           = length (questions (sampleLesson 0 4))
             - length (questions (sampleLesson 0 4)) / 2
        /\ pendingMasteryChecks o = []).
Proof.
  apply (lesson_split_decision 7 (sampleEnrollment 0) 0 0 [3; 2; 1] [3; 2; 1]
           (Int 1) 0 (sampleLesson 0 4) (Int 0)).
  - lia.
  - lia.
  - lia.
  - discriminate.
  - cbn. lia.
  - unfold array_length_ok. vm_compute. reflexivity.
Defined.

(** ** The delay of the mastery check *)

Lemma delayMasteryCheck_iff (sum : Z) :
  0 <= sum -> delayMasteryCheck sum = true <-> sum mod 5 < 2.
Proof.
  intros H. unfold delayMasteryCheck.
  rewrite Z.rem_mod_nonneg by lia. apply Z.ltb_lt.
Qed.

(** C10. In the main pass (a lesson completed on its day [d]) and in the
    second pass over the split lessons (a continuation scheduled on a
    day), a mastery check is queued only when the day offset is greater
    than 1; on day offset 1 the rows written are the lesson completion,
    the mastery-check response and the mastery-check completion, all with
    the timestamp of the lesson completion, and nothing is queued,
    whatever the delay formula gives. *)
Theorem mastery_check_delay_needs_later_day (groupId : Z)
    (enrollment : Enrollment) (lesson : LessonData)
    (i lessonIdx moduleIndex d answered : Z) (moduleDays : list Z)
    (windows : list (list Z)) (partial : PartialLessonProgress) (done : Z) :
  questionsCompleted partial = Int done ->
  0 <= done <= length (questions (partial_lesson partial)) ->
  (exists o,
      completeToday groupId enrollment lesson i lessonIdx moduleIndex d
        (Int answered) moduleDays = Done (tt, o)
      /\ (pendingMasteryChecks o <> [] -> 1 < d)
      /\ (d = 1 ->
          o = Build_Out
                (completedWithMasteryRows groupId enrollment lesson
                   (10 + answered - 24 * 1)) [] []))
  /\ (forall o,
         continueLesson groupId windows partial = Done (tt, o) ->
         pendingMasteryChecks o <> [] ->
         1 < partial_scheduledDayOffset partial)
  /\ (partial_scheduledDayOffset partial = 1 ->
      continueLesson groupId windows partial
      = Done (tt,
              Build_Out
                (questionRows groupId (partial_enrollment partial)
                   (partial_lesson partial) 1 (fun q => q - done) done
                   (from_index (questions (partial_lesson partial)) done)
                 ++ completedWithMasteryRows groupId
                      (partial_enrollment partial) (partial_lesson partial)
                      (10 + (length (questions (partial_lesson partial)) - done)
                       - 24 * 1))
                [] [])).
Proof.
  intros Hqc Hdone. split; [|split].
  - rewrite completeToday_out. eexists. split; [reflexivity|].
    unfold completeTodayOut. split.
    + destruct (delayMasteryCheck (i + lessonIdx + moduleIndex)) eqn:Hd;
        destruct (Z.ltb_spec 1 d) as [Hlt | Hge];
        cbn [andb pendingMasteryChecks]; intros H; try exact Hlt;
        contradiction H; reflexivity.
    + intros ->. cbn [Z.ltb Z.compare]. rewrite andb_false_r. reflexivity.
  - intros o Hrun Hq.
    destruct (delayMasteryCheck (lessonIndex partial + partial_moduleIndex partial)
              && (1 <? partial_scheduledDayOffset partial)) eqn:Hd.
    + apply andb_prop in Hd. destruct Hd as [_ Hd]. apply Z.ltb_lt. exact Hd.
    + rewrite (continueLesson_out groupId windows partial done [] Hqc Hdone) in Hrun
        by (rewrite Hd; discriminate).
      injection Hrun as <-. unfold continueLessonOut in Hq. rewrite Hd in Hq.
      contradiction Hq. reflexivity.
  - intros Hday.
    rewrite (continueLesson_out groupId windows partial done [] Hqc Hdone)
      by (rewrite Hday; cbn [Z.ltb Z.compare]; rewrite andb_false_r; discriminate).
    unfold continueLessonOut. rewrite Hday. cbn [Z.ltb Z.compare].
    rewrite andb_false_r. reflexivity.
Qed.

Lemma mastery_check_delay_needs_later_day_witness :
  let partial :=
    {| partial_enrollment := sampleEnrollment 0;
       partial_lesson := sampleLesson 0 4;
       questionsCompleted := Int 2;
       partial_scheduledDayOffset := 1;
       partial_moduleIndex := 0;
       lessonIndex := 0 |} in
  continueLesson 7 [[3; 2; 1]] partial
  = Done (tt,
          Build_Out
            (questionRows 7 (sampleEnrollment 0) (sampleLesson 0 4) 1
               (fun q => q - 2) 2 (from_index (questions (sampleLesson 0 4)) 2)
             ++ completedWithMasteryRows 7 (sampleEnrollment 0)
                  (sampleLesson 0 4)
                  (10 + (length (questions (sampleLesson 0 4)) - 2) - 24 * 1))
            [] []).
Proof.
  intros partial.
  refine (proj2 (proj2 (mastery_check_delay_needs_later_day 7
            (sampleEnrollment 0) (sampleLesson 0 4) 0 0 0 1 4 [3; 2; 1]
            [[3; 2; 1]] partial 2 eq_refl _)) eq_refl).
  vm_compute. split; discriminate.
Defined.

(** ** The mastery check of a split lesson *)

(** C3, as the code has it. For every entry of the queue of split
    lessons (with its count of completed questions between 0 and the
    number of questions, its indices not negative, and the window of its
    module), the second pass writes the rows of the remaining questions
    and of the lesson completion, and then queues the mastery check if and
    only if [(lessonIndex + moduleIndex) mod 5 < 2] and the scheduled day
    offset is greater than 1; otherwise it writes the mastery-check
    response and completion at once, with the timestamp of the lesson
    completion. The index of the student is not part of the decision. *)
Theorem continuation_mastery_check_decision (groupId : Z)
    (windows : list (list Z)) (partial : PartialLessonProgress) (done : Z)
    (moduleDays : list Z) :
  questionsCompleted partial = Int done ->
  0 <= done <= length (questions (partial_lesson partial)) ->
  0 <= lessonIndex partial -> 0 <= partial_moduleIndex partial ->
  get windows (Int (partial_moduleIndex partial)) = Some moduleDays ->
  let enrollment := partial_enrollment partial in
  let lesson := partial_lesson partial in
  let day := partial_scheduledDayOffset partial in
  let ts := 10 + (length (questions lesson) - done) - 24 * day in
  let rows :=
    questionRows groupId enrollment lesson day (fun q => q - done) done
      (from_index (questions lesson) done) in
  let delayed :=
    (lessonIndex partial + partial_moduleIndex partial) mod 5 < 2 /\ 1 < day in
  exists o,
    continueLesson groupId windows partial = Done (tt, o)
    /\ (delayed ->
        writes o = rows ++ [lessonCompletedRow groupId enrollment lesson ts]
        /\ pendingMasteryChecks o
           = [{| pending_enrollment := enrollment;
                 pending_lesson := lesson;
                 pending_scheduledDayOffset := getNextWorkingDay day moduleDays;
                 pending_moduleIndex := partial_moduleIndex partial |}])
    /\ (~ delayed ->
        writes o = rows ++ completedWithMasteryRows groupId enrollment lesson ts
        /\ pendingMasteryChecks o = []).
Proof.
  intros Hqc Hdone Hl Hm Hwin enrollment lesson day ts rows delayed.
  rewrite (continueLesson_out groupId windows partial done moduleDays Hqc Hdone)
    by (intros _; exact Hwin).
  eexists. split; [reflexivity|]. unfold continueLessonOut.
  fold enrollment lesson day. fold ts. fold rows.
  destruct (delayMasteryCheck (lessonIndex partial + partial_moduleIndex partial)
            && (1 <? day)) eqn:Hd.
  - split; [intros _; split; reflexivity|].
    intros Hno. exfalso. apply Hno. apply andb_prop in Hd.
    destruct Hd as [Hf Hlt]. apply delayMasteryCheck_iff in Hf; [|lia].
    apply Z.ltb_lt in Hlt. split; assumption.
  - split; [|intros _; split; reflexivity].
    intros [Hf Hlt]. exfalso.
    apply delayMasteryCheck_iff in Hf; [|lia]. apply Z.ltb_lt in Hlt.
    rewrite Hf, Hlt in Hd. discriminate Hd.
Qed.

Lemma continuation_mastery_check_decision_witness :
  let partial :=
    {| partial_enrollment := sampleEnrollment 1;
       partial_lesson := sampleLesson 1 2;
       questionsCompleted := Int 1;
       partial_scheduledDayOffset := 2;
       partial_moduleIndex := 0;
       lessonIndex := 1 |} in
  exists o,
    continueLesson 7 [[5; 4; 3; 2; 1]] partial = Done (tt, o)
    /\ ((1 + 0) mod 5 < 2 /\ 1 < 2 ->
        writes o
        = questionRows 7 (sampleEnrollment 1) (sampleLesson 1 2) 2
            (fun q => q - 1) 1 (from_index (questions (sampleLesson 1 2)) 1)
          ++ [lessonCompletedRow 7 (sampleEnrollment 1) (sampleLesson 1 2)
                (10 + (length (questions (sampleLesson 1 2)) - 1) - 24 * 2)]
        /\ pendingMasteryChecks o
           = [{| pending_enrollment := sampleEnrollment 1;
                 pending_lesson := sampleLesson 1 2;
                 pending_scheduledDayOffset :=
                   getNextWorkingDay 2 [5; 4; 3; 2; 1];
                 pending_moduleIndex := 0 |}])
    /\ (~ ((1 + 0) mod 5 < 2 /\ 1 < 2) ->
        writes o
        = questionRows 7 (sampleEnrollment 1) (sampleLesson 1 2) 2
            (fun q => q - 1) 1 (from_index (questions (sampleLesson 1 2)) 1)
          ++ completedWithMasteryRows 7 (sampleEnrollment 1) (sampleLesson 1 2)
               (10 + (length (questions (sampleLesson 1 2)) - 1) - 24 * 2)
        /\ pendingMasteryChecks o = []).
Proof.
  intros partial.
  apply (continuation_mastery_check_decision 7 [[5; 4; 3; 2; 1]] partial 1
           [5; 4; 3; 2; 1]).
  - reflexivity.
  - vm_compute. split; discriminate.
  - cbn. lia.
  - cbn. lia.
  - reflexivity.
Defined.

(** C3, as stated, fails: in the run over the working days 5 to 1 with two
    students and one module of two lessons of two questions, the main pass
    queues the second lesson of the student of index 1 as split; the
    second pass queues its mastery check, although
    [(studentIndex + lessonIndex + moduleIndex) mod 5 = 2]. *)
Lemma continuation_delay_ignores_student_index :
  exists windows walk partial o,
    moduleWorkingDays [5; 4; 3; 2; 1] (sampleModules 1 2 2) = Done windows
    /\ scheduleStudents 7 (length (sampleEnrollments 2)) windows
         (sampleModules 1 2 2) (sampleEnrollments 2) 0
       = Done (tt, walk)
    /\ In partial (partialLessonProgress walk)
    /\ nth_error (sampleEnrollments 2) 1 = Some (partial_enrollment partial)
    /\ lessonIndex partial = 1
    /\ partial_moduleIndex partial = 0
    /\ continueLesson 7 windows partial = Done (tt, o)
    /\ pendingMasteryChecks o <> []
    /\ ~ ((1 + lessonIndex partial + partial_moduleIndex partial) mod 5 < 2).
Proof.
  eexists. eexists. eexists. eexists.
  split; [vm_compute; reflexivity|].
  split; [vm_compute; reflexivity|].
  split; [right; right; right; left; reflexivity|].
  split; [reflexivity|]. split; [reflexivity|]. split; [reflexivity|].
  split; [vm_compute; reflexivity|].
  split; [discriminate|].
  vm_compute. discriminate.
Qed.

(** ** The windows of the modules *)

Lemma firstn_add_skipn {A : Type} (a b : nat) (l : list A) :
  firstn (a + b) l = firstn a l ++ firstn b (skipn a l).
Proof.
  revert l. induction a as [|a IH]; intros l; [reflexivity|].
  destruct l as [|x l]; cbn [Nat.add firstn skipn app].
  - rewrite firstn_nil. reflexivity.
  - rewrite IH. reflexivity.
Qed.

Lemma slice_int {A : Type} (l : list A) (d e : Z) :
  0 <= d <= e -> e <= length l ->
  slice l (Int d) (Int e)
  = firstn (Z.to_nat (e - d)) (skipn (Z.to_nat d) l).
Proof.
  intros Hd He. unfold slice, relativeIndex.
  destruct (Z.ltb_spec d 0); [lia|]. destruct (Z.ltb_spec e 0); [lia|].
  rewrite !Z.min_l by lia. reflexivity.
Qed.

Lemma slice_from_int {A : Type} (l : list A) (d : Z) :
  0 <= d <= length l -> slice_from l (Int d) = skipn (Z.to_nat d) l.
Proof.
  intros Hd. unfold slice_from. rewrite slice_int by lia.
  apply firstn_all2. rewrite List.length_skipn. unfold length. lia.
Qed.

Lemma length_slice_chunk {A : Type} (l : list A) (d e : Z) :
  0 <= d <= e -> e <= length l ->
  length (firstn (Z.to_nat (e - d)) (skipn (Z.to_nat d) l)) = e - d.
Proof.
  intros Hd He. unfold length in *.
  rewrite List.length_firstn, List.length_skipn. lia.
Qed.

Lemma totalLessons_from (modules : list (list LessonData)) (acc : Z) :
  fold_left (fun sum m => sum + length m) modules acc
  = acc + totalLessons modules.
Proof.
  unfold totalLessons. revert acc.
  induction modules as [|m modules IH]; intros acc; cbn [fold_left].
  - lia.
  - rewrite IH, (IH (0 + length m)). lia.
Qed.

Lemma totalLessons_cons (m : list LessonData) (modules : list (list LessonData)) :
  totalLessons (m :: modules) = length m + totalLessons modules.
Proof.
  unfold totalLessons at 1. cbn [fold_left]. rewrite totalLessons_from. lia.
Qed.

Lemma totalLessons_nonneg (modules : list (list LessonData)) :
  0 <= totalLessons modules.
Proof.
  induction modules as [|m modules IH]; [unfold totalLessons; cbn; lia|].
  rewrite totalLessons_cons. pose proof (length_nonneg m). lia.
Qed.

Lemma totalLessons_bounds (modules : list (list LessonData)) :
  Forall (fun m => length m <= totalLessons modules) modules.
Proof.
  induction modules as [|m modules IH]; constructor.
  - rewrite totalLessons_cons. pose proof (totalLessons_nonneg modules). lia.
  - eapply Forall_impl; [|exact IH]. cbn beta. intros m' Hm'.
    rewrite totalLessons_cons. pose proof (length_nonneg m). lia.
Qed.

(** The loop of lines 68-74 from [dayIndex = d]: the windows are the next
    chunks of the working days, each as long as its day count allows. *)
Lemma allocateFrom_windows (workingDays : list Z) (total : Z) :
  0 < total < 2 ^ 53 -> length workingDays < 2 ^ 53 ->
  forall (modules : list (list LessonData)) (d : Z),
    0 <= d <= length workingDays ->
    Forall (fun m => length m <= total) modules ->
    exists raw d',
      allocateFrom workingDays total modules (Int d) = (raw, Int d')
      /\ d <= d' <= length workingDays
      /\ List.concat raw
         = firstn (Z.to_nat (d' - d)) (skipn (Z.to_nat d) workingDays)
      /\ List.length raw = List.length modules
      /\ (forall k m,
             nth_error modules k = Some m ->
             exists c w,
               moduleDayCount (length m) total (length workingDays) = Int c
               /\ 0 <= c
               /\ nth_error raw k = Some w
               /\ w = firstn (Z.to_nat
                               (Z.min c (length workingDays
                                         - (d + length (List.concat (firstn k raw))))))
                        (skipn (Z.to_nat (d + length (List.concat (firstn k raw))))
                           workingDays)).
Proof.
  intros Ht Hw. pose proof (length_nonneg workingDays) as Hw0.
  induction modules as [|m modules IH]; intros d Hd Hall.
  - exists [], d. cbn [allocateFrom List.concat]. rewrite Z.sub_diag.
    split; [reflexivity|]. split; [lia|]. split; [reflexivity|].
    split; [reflexivity|]. intros [|k] m' Hk; discriminate Hk.
  - apply Forall_cons_iff in Hall. destruct Hall as [Hm Hall].
    pose proof (length_nonneg m) as Hm0.
    destruct (Binary64.ceil_quotient_mul (length m) total (length workingDays))
      as (c & Hc & Hcb); [lia | lia | lia |].
    cbn [allocateFrom]. unfold moduleDayCount in *. rewrite Hc.
    cbn [add Math_min lt].
    set (e := if length workingDays <? d + c then length workingDays else d + c).
    assert (He : e = Z.min (d + c) (length workingDays)).
    { subst e. destruct (Z.ltb_spec (length workingDays) (d + c)); lia. }
    assert (Hend : (if length workingDays <? d + c
                    then Int (length workingDays) else Int (d + c)) = Int e).
    { subst e. destruct (length workingDays <? d + c); reflexivity. }
    rewrite Hend.
    destruct (IH e ltac:(lia) Hall) as (raw & d' & Hrun & Hd' & Hcat & Hlen & Hnth).
    rewrite Hrun. rewrite slice_int by lia.
    set (w0 := firstn (Z.to_nat (e - d)) (skipn (Z.to_nat d) workingDays)).
    assert (Hw0len : length w0 = e - d) by (apply length_slice_chunk; lia).
    exists (w0 :: raw), d'. split; [reflexivity|]. split; [lia|]. split; [|split].
    + cbn [List.concat]. rewrite Hcat. subst w0.
      replace (Z.to_nat (d' - d)) with (Z.to_nat (e - d) + Z.to_nat (d' - e))%nat by lia.
      rewrite firstn_add_skipn, skipn_skipn.
      replace (Z.to_nat (e - d) + Z.to_nat d)%nat with (Z.to_nat e) by lia.
      reflexivity.
    + cbn [List.length]. rewrite Hlen. reflexivity.
    + intros [|k] m' Hk; cbn [nth_error] in Hk.
      * injection Hk as <-. exists c, w0. split; [exact Hc|]. split; [lia|].
        split; [reflexivity|]. cbn [firstn List.concat].
        replace (length (@nil Z)) with 0 by reflexivity.
        rewrite Z.add_0_r. subst w0. f_equal. lia.
      * destruct (Hnth k m' Hk) as (c' & w & Hc' & Hc0 & Hw' & Heq).
        exists c', w. split; [exact Hc'|]. split; [exact Hc0|].
        split; [exact Hw'|]. cbn [firstn List.concat]. rewrite length_app, Hw0len.
        replace (d + (e - d + length (List.concat (firstn k raw))))
          with (e + length (List.concat (firstn k raw))) by lia.
        exact Heq.
Qed.

Lemma concat_snoc {A : Type} (ls : list (list A)) (l : list A) :
  List.concat (ls ++ [l]) = List.concat ls ++ l.
Proof. rewrite concat_app. cbn [List.concat]. rewrite app_nil_r. reflexivity. Qed.

Lemma length_concat_sum {A : Type} (ls : list (list A)) :
  fold_right Z.add 0 (map (@length A) ls) = length (List.concat ls).
Proof.
  induction ls as [|l ls IH]; [reflexivity|].
  cbn [map fold_right List.concat]. rewrite IH, length_app. reflexivity.
Qed.

Lemma firstn_snoc_le {A : Type} (k : nat) (l : list A) (x : A) :
  (k <= List.length l)%nat -> firstn k (l ++ [x]) = firstn k l.
Proof.
  intros Hk. rewrite firstn_app.
  replace (k - List.length l)%nat with 0%nat by lia.
  cbn [firstn]. apply app_nil_r.
Qed.

Lemma nth_error_snoc_lt {A : Type} (k : nat) (l : list A) (x : A) :
  (k < List.length l)%nat -> nth_error (l ++ [x]) k = nth_error l k.
Proof. intros Hk. apply nth_error_app1. exact Hk. Qed.

Lemma nth_error_snoc_last {A : Type} (l : list A) (x : A) :
  nth_error (l ++ [x]) (List.length l) = Some x.
Proof.
  rewrite nth_error_app2 by lia. rewrite Nat.sub_diag. reflexivity.
Qed.

(** Lines 66-78: the windows are those of the loop, the last one followed
    by the days that the loop left. *)
Lemma moduleWorkingDays_form (workingDays : list Z)
    (lessonsByModule : list (list LessonData)) :
  lessonsByModule <> [] ->
  0 < totalLessons lessonsByModule < 2 ^ 53 ->
  length workingDays < 2 ^ 53 ->
  exists front lastw d',
    fst (allocateFrom workingDays (totalLessons lessonsByModule)
           lessonsByModule (Int 0)) = front ++ [lastw]
    /\ 0 <= d' <= length workingDays
    /\ List.concat (front ++ [lastw]) = firstn (Z.to_nat d') workingDays
    /\ List.length (front ++ [lastw]) = List.length lessonsByModule
    /\ (forall k m,
           nth_error lessonsByModule k = Some m ->
           exists c w,
             moduleDayCount (length m) (totalLessons lessonsByModule)
               (length workingDays) = Int c
             /\ 0 <= c
             /\ nth_error (front ++ [lastw]) k = Some w
             /\ w = firstn (Z.to_nat
                             (Z.min c (length workingDays
                                       - length (List.concat
                                                   (firstn k (front ++ [lastw]))))))
                      (skipn (Z.to_nat
                                (length (List.concat
                                           (firstn k (front ++ [lastw])))))
                         workingDays))
    /\ moduleWorkingDays workingDays lessonsByModule
       = Done (front ++ [lastw ++ skipn (Z.to_nat d') workingDays]).
Proof.
  intros Hne Ht Hw. pose proof (length_nonneg workingDays) as Hw0.
  destruct (allocateFrom_windows workingDays (totalLessons lessonsByModule) Ht Hw
              lessonsByModule 0 ltac:(lia) (totalLessons_bounds lessonsByModule))
    as (raw & d' & Hrun & Hd' & Hcat & Hlen & Hnth).
  assert (Hraw : raw <> []).
  { intros ->. destruct lessonsByModule; [contradiction | discriminate Hlen]. }
  destruct (exists_last Hraw) as (front & lastw & ->).
  exists front, lastw, d'. rewrite Hrun. cbn [fst].
  split; [reflexivity|]. split; [lia|].
  split; [rewrite Hcat, Z.sub_0_r; reflexivity|].
  split; [exact Hlen|]. split.
  - intros k m Hk. destruct (Hnth k m Hk) as (c & w & Hc & Hc0 & Hw' & Heq).
    exists c, w. rewrite Z.add_0_l in Heq. auto.
  - unfold moduleWorkingDays. rewrite Hrun. cbn [lt].
    destruct (Z.ltb_spec d' (length workingDays)) as [Hlt | Hge].
    + destruct (front ++ [lastw]) as [|w0 ws] eqn:E;
        [destruct front; discriminate E|].
      rewrite <- E. rewrite removelast_last, last_last.
      rewrite slice_from_int by lia. reflexivity.
    + replace d' with (length workingDays) by lia.
      unfold length. rewrite Nat2Z.id, skipn_all, app_nil_r. reflexivity.
Qed.

(** The exact ceiling is one above the exact floor, unless the division
    leaves no remainder. *)
Lemma specDayCount_floor (a t w : Z) :
  0 < t ->
  specDayCount a t w
  = (if (a * w) mod t =? 0 then a * w / t else a * w / t + 1).
Proof.
  intros Ht. unfold specDayCount.
  pose proof (Z.div_mod (a * w) t ltac:(lia)) as Hdm.
  pose proof (Z.mod_pos_bound (a * w) t Ht) as Hr.
  set (N := a * w) in *. set (F := N / t) in *. set (r := N mod t) in *.
  destruct (Z.eqb_spec r 0) as [Hr0 | Hr0].
  - assert (H : - N / t = - F); [|lia].
    symmetry. apply (Z.div_unique (- N) t (- F) 0); lia.
  - assert (H : - N / t = - F - 1); [|lia].
    symmetry. apply (Z.div_unique (- N) t (- F - 1) (t - r)); lia.
Qed.

(** Line 69 against the words of the specification: the count of the
    code is the exact ceiling, or one more when the exact quotient is an
    integer. *)
Lemma moduleDayCount_near (a t w c : Z) :
  0 <= a <= t -> 0 < t < 2 ^ 53 -> 0 <= w < 2 ^ 53 -> a * w <= 2 ^ 50 ->
  moduleDayCount a t w = Int c ->
  specDayCount a t w <= c <= specDayCount a t w + 1
  /\ ((a * w) mod t <> 0 -> c = specDayCount a t w).
Proof.
  intros Ha Ht Hw Haw Hc.
  destruct (Binary64.ceil_quotient_mul_near a t w Ha Ht Hw Haw)
    as (c' & Hc' & Hlo & Hhi).
  unfold moduleDayCount in Hc. rewrite Hc' in Hc. injection Hc as ->.
  rewrite specDayCount_floor by lia. fold (specDayCount a t w) in Hlo.
  rewrite specDayCount_floor in Hlo by lia.
  destruct (Z.eqb_spec ((a * w) mod t) 0) as [Hr0 | Hr0]; split; lia.
Qed.

(** C2, as the code has it. For a list of modules that is not empty,
    with a positive total number of lessons, and working days (all counts
    below [2^53]): the windows are as many as the modules; concatenated
    in order they are the working days (contiguous slices off the front
    of the pool, no gap, no overlap), so their lengths add up to the
    number of working days; the window of a module that is not the last
    is the slice that starts where the windows before it end and has [c]
    days, or the days that remain if those are fewer, where [c] is
    [Math.ceil((moduleLessonCount / totalLessons) * workingDays.length)]
    evaluated in binary64; and the last window is such a slice followed
    by all the days that are left after it. For a product
    [moduleLessonCount * workingDays.length] up to [2^50], the count [c]
    is the ceiling of the exact quotient
    [moduleLessonCount * workingDays.length / totalLessons]
    ([specDayCount]) when [totalLessons] does not divide the product, and
    that quotient or one more when it does. *)
Theorem module_windows_partition (workingDays : list Z)
    (lessonsByModule : list (list LessonData)) :
  lessonsByModule <> [] ->
  0 < totalLessons lessonsByModule < 2 ^ 53 ->
  length workingDays < 2 ^ 53 ->
  exists windows,
    moduleWorkingDays workingDays lessonsByModule = Done windows
    /\ List.length windows = List.length lessonsByModule
    /\ List.concat windows = workingDays
    /\ fold_right Z.add 0 (map (@length Z) windows) = length workingDays
    /\ (forall k m,
           (S k < List.length lessonsByModule)%nat ->
           nth_error lessonsByModule k = Some m ->
           exists c w,
             moduleDayCount (length m) (totalLessons lessonsByModule)
               (length workingDays) = Int c
             /\ 0 <= c
             /\ (length m * length workingDays <= 2 ^ 50 ->
                 specDayCount (length m) (totalLessons lessonsByModule)
                   (length workingDays) <= c
                 /\ c <= specDayCount (length m) (totalLessons lessonsByModule)
                           (length workingDays) + 1
                 /\ ((length m * length workingDays)
                       mod totalLessons lessonsByModule <> 0 ->
                     c = specDayCount (length m) (totalLessons lessonsByModule)
                           (length workingDays)))
             /\ nth_error windows k = Some w
             /\ w = firstn (Z.to_nat
                             (Z.min c (length workingDays
                                       - length (List.concat (firstn k windows)))))
                      (skipn (Z.to_nat (length (List.concat (firstn k windows))))
                         workingDays))
    /\ (exists c w,
           moduleDayCount (length (last lessonsByModule []))
             (totalLessons lessonsByModule) (length workingDays) = Int c
           /\ 0 <= c
           /\ (length (last lessonsByModule []) * length workingDays <= 2 ^ 50 ->
               specDayCount (length (last lessonsByModule []))
                 (totalLessons lessonsByModule) (length workingDays) <= c
               /\ c <= specDayCount (length (last lessonsByModule []))
                         (totalLessons lessonsByModule) (length workingDays) + 1)
           /\ w = firstn (Z.to_nat
                           (Z.min c (length workingDays
                                     - length (List.concat (removelast windows)))))
                    (skipn (Z.to_nat (length (List.concat (removelast windows))))
                       workingDays)
           /\ last windows []
              = w ++ skipn (Z.to_nat (length (List.concat (removelast windows))
                                      + length w))
                      workingDays).
Proof.
  intros Hne Ht Hw.
  destruct (moduleWorkingDays_form workingDays lessonsByModule Hne Ht Hw)
    as (front & lastw & d' & _ & Hd' & Hcat & Hlen & Hnth & Hrun).
  exists (front ++ [lastw ++ skipn (Z.to_nat d') workingDays]).
  split; [exact Hrun|].
  assert (Hlen' : List.length front = pred (List.length lessonsByModule)).
  { rewrite <- Hlen, List.length_app. cbn [List.length]. lia. }
  split; [rewrite List.length_app in *; exact Hlen|].
  assert (Hall : List.concat (front ++ [lastw ++ skipn (Z.to_nat d') workingDays])
                 = workingDays).
  { rewrite concat_snoc, app_assoc, <- concat_snoc, Hcat. apply firstn_skipn. }
  split; [exact Hall|].
  split; [rewrite length_concat_sum, Hall; reflexivity|].
  split.
  - intros k m Hk Hm.
    destruct (Hnth k m Hm) as (c & w & Hc & Hc0 & Hw' & Heq).
    exists c, w. split; [exact Hc|]. split; [exact Hc0|].
    split.
    + intros Hsmall.
      pose proof (totalLessons_bounds lessonsByModule) as Hall'.
      rewrite Forall_forall in Hall'.
      pose proof (Hall' m (nth_error_In _ _ Hm)) as Hmt.
      pose proof (length_nonneg m) as Hm0.
      pose proof (length_nonneg workingDays) as Hw0.
      destruct (moduleDayCount_near (length m) (totalLessons lessonsByModule)
                  (length workingDays) c) as [[Hlo Hhi] Hexact];
        [lia | lia | lia | exact Hsmall | exact Hc |].
      split; [exact Hlo|]. split; [exact Hhi | exact Hexact].
    + rewrite nth_error_snoc_lt in * by lia.
      rewrite firstn_snoc_le in * by lia. split; assumption.
  - assert (Hm : nth_error lessonsByModule (List.length front)
                 = Some (last lessonsByModule [])).
    { destruct (exists_last Hne) as (ms & m & ->).
      rewrite List.length_app in Hlen'. cbn [List.length] in Hlen'.
      replace (List.length front) with (List.length ms) by lia.
      rewrite last_last. apply nth_error_snoc_last. }
    destruct (Hnth _ _ Hm) as (c & w & Hc & Hc0 & Hw' & Heq).
    rewrite nth_error_snoc_last in Hw'. injection Hw' as <-.
    rewrite firstn_snoc_le in Heq by lia. rewrite firstn_all in Heq.
    exists c, lastw. rewrite removelast_last, last_last.
    split; [exact Hc|]. split; [exact Hc0|].
    split.
    { intros Hsmall.
      pose proof (totalLessons_bounds lessonsByModule) as Hall'.
      rewrite Forall_forall in Hall'.
      pose proof (Hall' _ (nth_error_In _ _ Hm)) as Hmt.
      pose proof (length_nonneg (last lessonsByModule [])) as Hm0.
      pose proof (length_nonneg workingDays) as Hw0.
      destruct (moduleDayCount_near (length (last lessonsByModule []))
                  (totalLessons lessonsByModule) (length workingDays) c)
        as [[Hlo Hhi] _];
        [lia | lia | lia | exact Hsmall | exact Hc |].
      split; [exact Hlo | exact Hhi]. }
    split; [exact Heq|].
    f_equal. f_equal.
    rewrite <- length_app, <- concat_snoc, Hcat.
    unfold length. rewrite List.length_firstn. unfold length in Hd'. lia.
Qed.

Lemma module_windows_partition_witness :
  exists windows,
    moduleWorkingDays [5; 4; 3; 2; 1] (sampleModules 2 3 2) = Done windows
    /\ List.concat windows = [5; 4; 3; 2; 1].
Proof.
  destruct (module_windows_partition [5; 4; 3; 2; 1] (sampleModules 2 3 2))
    as (windows & Hrun & _ & Hcat & _).
  - discriminate.
  - vm_compute. split; reflexivity.
  - vm_compute. reflexivity.
  - exists windows. split; assumption.
Defined.

(** C2 as the specification words it fails. On the 25 working days of 35
    days to seed, with a module of 7 lessons followed by one of 18: the
    exact quotient [7 / 25 * 25] is 7, but in binary64 [7 / 25] times 25
    is just above 7, and the first module receives 8 days, none of them
    taken by a clamp. *)
Lemma day_count_above_exact_ceiling :
  exists windows w,
    moduleWorkingDays (workingDaysOf 2 35)
      (sampleModules 1 7 4 ++ sampleModules 1 18 4) = Done windows
    /\ length (workingDaysOf 2 35) = 25
    /\ totalLessons (sampleModules 1 7 4 ++ sampleModules 1 18 4) = 25
    /\ option_map (@length LessonData)
         (nth_error (sampleModules 1 7 4 ++ sampleModules 1 18 4) 0) = Some 7
    /\ nth_error windows 0 = Some w
    /\ length w = 8
    /\ specDayCount 7 25 25 = 7.
Proof.
  eexists. eexists.
  split; [vm_compute; reflexivity|].
  repeat split.
Qed.

(** ** The walk over the students *)

Lemma add_natural (a b : intnum) : natural a -> natural b -> natural (add a b).
Proof.
  destruct a as [x | [] |], b as [y | [] |]; cbn [natural add Bool.eqb];
    try tauto; lia.
Qed.

Lemma max_one_natural (x : intnum) : natural x -> natural (Math_max (Int 1) x).
Proof.
  destruct x as [y | [] |]; cbn [natural Math_max lt negb]; try tauto.
  intros Hy. destruct (Z.ltb_spec 1 y); cbn [natural]; lia.
Qed.

(** The completion rates are finite, of 53 digits and at most 1. *)
Lemma completionRate_cases (i : Z) :
  exists my ey,
    completionRate i = S754_finite false my ey
    /\ 2 ^ 52 <= Zpos my < 2 ^ 53
    /\ Zpos my <= 2 ^ (- ey)
    /\ -900 <= ey.
Proof.
  unfold completionRate.
  repeat match goal with
         | |- context [match ?x with _ => _ end] => destruct x
         end;
    (eexists; eexists; split; [reflexivity|]; cbn; lia).
Qed.

Lemma completionRate_table (i : Z) :
  0 <= i ->
  completionRate i
  = nth (Z.to_nat (i mod 5)) [lit_1_0; lit_0_8; lit_0_6; lit_0_4; lit_0_2]
      lit_0_5.
Proof.
  intros Hi. unfold completionRate. rewrite Z.rem_mod_nonneg by lia.
  pose proof (Z.mod_pos_bound i 5 ltac:(lia)) as Hb.
  assert (H : i mod 5 = 0 \/ i mod 5 = 1 \/ i mod 5 = 2 \/ i mod 5 = 3
              \/ i mod 5 = 4) by lia.
  destruct H as [-> | [-> | [-> | [-> | ->]]]]; reflexivity.
Qed.

(** Line 136: never more lessons than the module has. *)
Lemma lessonsToComplete_bounds (moduleLessons : list LessonData) (i : Z) :
  length moduleLessons < 2 ^ 53 ->
  exists c, lessonsToCompleteInModule moduleLessons i = Int c
            /\ 0 <= c <= length moduleLessons.
Proof.
  intros Hlen. unfold lessonsToCompleteInModule.
  destruct (completionRate_cases i) as (my & ey & -> & Hm & Hone & Hey).
  apply Binary64.ceil_mul_le; try assumption.
  pose proof (length_nonneg moduleLessons). lia.
Qed.

Lemma lessonsToComplete_empty (i : Z) :
  lessonsToCompleteInModule [] i = Int 0.
Proof.
  unfold lessonsToCompleteInModule.
  destruct (completionRate_cases i) as (my & ey & -> & _). reflexivity.
Qed.

(** Line 147 *)
Lemma daysPerLesson_natural (availableDays : list Z) (c : Z) :
  0 < length availableDays < 2 ^ 53 -> 0 < c < 2 ^ 53 ->
  natural (daysPerLesson availableDays (Int c)).
Proof.
  intros Ha Hc. unfold daysPerLesson. cbn [toNumber].
  apply max_one_natural, Binary64.floor_natural.
  destruct (Binary64.ofInt_pos c Hc) as (m & e & -> & _).
  apply Binary64.div_nonneg, Binary64.finite_nonneg_nonneg,
    Binary64.ofInt_finite_nonneg. lia.
Qed.

Lemma questionRows_not_completed (groupId : Z) (enrollment : Enrollment)
    (lesson : LessonData) (dayOffset : Z) (hours : Z -> Z)
    (qs : list LessonQuestion) (q : Z) :
  filter is_lesson_completed
    (questionRows groupId enrollment lesson dayOffset hours q qs) = [].
Proof.
  revert q. induction qs as [|question qs IH]; intros q; [reflexivity|].
  cbn [questionRows]. rewrite filter_app, IH, app_nil_r.
  unfold questionRow. destruct (truthy (kcId question)); reflexivity.
Qed.

Lemma lessonsScheduled_app (a b : Out) :
  lessonsScheduled (out_app a b) = lessonsScheduled a + lessonsScheduled b.
Proof.
  unfold lessonsScheduled, out_app. cbn [writes partialLessonProgress].
  rewrite filter_app, !length_app. lia.
Qed.

(** Lines 152-223: the body of the lesson loop returns, moves the day
    cursor on and schedules one lesson. *)
Lemma scheduleLesson_total (groupId : Z) (enrollment : Enrollment)
    (i moduleIndex : Z) (moduleDays availableDays : list Z)
    (perLesson : intnum) (lessonIdx : Z) (lesson : LessonData)
    (dayIdxOffset : intnum) :
  availableDays <> [] -> natural perLesson -> natural dayIdxOffset ->
  length (questions lesson) < 2 ^ 53 ->
  exists next o,
    scheduleLesson groupId enrollment i moduleIndex moduleDays availableDays
      perLesson lessonIdx lesson dayIdxOffset = Done (next, o)
    /\ natural next
    /\ lessonsScheduled o = 1.
Proof.
  intros Hne Hper Hnat Hn.
  destruct (day1_defined availableDays dayIdxOffset Hne Hnat)
    as (idx & day1Offset & Hmin & _ & Hget & _).
  destruct (splitLesson i lessonIdx moduleIndex (length (questions lesson)))
    eqn:Hsplit.
  - rewrite (scheduleLesson_split groupId enrollment i moduleIndex moduleDays
               availableDays perLesson lessonIdx lesson dayIdxOffset idx
               day1Offset Hn Hsplit Hmin Hget).
    eexists. eexists. split; [reflexivity|].
    split; [apply add_natural; [exact Hnat | cbn; lia]|].
    unfold lessonsScheduled. cbn [writes partialLessonProgress].
    rewrite questionRows_not_completed. reflexivity.
  - rewrite (scheduleLesson_whole groupId enrollment i moduleIndex moduleDays
               availableDays perLesson lessonIdx lesson dayIdxOffset idx
               day1Offset Hsplit Hmin Hget).
    eexists. eexists. split; [reflexivity|].
    split; [apply add_natural; assumption|].
    rewrite lessonsScheduled_app. unfold lessonsScheduled at 1.
    cbn [writes partialLessonProgress]. rewrite questionRows_not_completed.
    unfold completeTodayOut, lessonsScheduled.
    destruct (delayMasteryCheck (i + lessonIdx + moduleIndex) && (1 <? day1Offset));
      reflexivity.
Qed.

(** Lines 151-224: the lesson loop from [lessonIdx = k] to the bound [c],
    over the lessons [rest] from index [k] on. *)
Lemma lesson_loop_total (groupId : Z) (enrollment : Enrollment)
    (i moduleIndex : Z) (moduleDays availableDays : list Z)
    (perLesson : intnum) (c : Z) :
  availableDays <> [] -> natural perLesson ->
  forall (rest : list LessonData) (k : Z) (dayIdxOffset : intnum),
    k <= c -> c - k <= length rest ->
    Forall (fun lesson => length (questions lesson) < 2 ^ 53) rest ->
    natural dayIdxOffset ->
    exists final o,
      for_index rest k (Int c)
        (scheduleLesson groupId enrollment i moduleIndex moduleDays
           availableDays perLesson)
        dayIdxOffset = Done (final, o)
      /\ lessonsScheduled o = c - k.
Proof.
  intros Hne Hper.
  induction rest as [|lesson rest IH]; intros k dayIdxOffset Hk Hc Hq Hnat.
  - unfold length in Hc. cbn [List.length] in Hc. replace c with k by lia.
    cbn [for_index lt]. rewrite Z.ltb_irrefl.
    eexists. eexists. split; [reflexivity|]. cbn. lia.
  - cbn [for_index lt]. destruct (Z.ltb_spec k c) as [Hlt | Hge].
    + apply Forall_cons_iff in Hq. destruct Hq as [Hq1 Hq].
      destruct (scheduleLesson_total groupId enrollment i moduleIndex
                  moduleDays availableDays perLesson k lesson dayIdxOffset
                  Hne Hper Hnat Hq1) as (next & o1 & -> & Hnext & Hone).
      rewrite length_cons in Hc.
      destruct (IH (k + 1) next ltac:(lia) ltac:(lia) Hq Hnext)
        as (final & o2 & Hrun & Hcount).
      cbn [bind]. rewrite Hrun.
      eexists. eexists. split; [reflexivity|].
      rewrite lessonsScheduled_app. lia.
    + eexists. eexists. split; [reflexivity|]. cbn. lia.
Qed.

Lemma scheduleModule_no_days (groupId : Z) (enrollment : Enrollment)
    (i nEnrollments moduleIndex : Z) (moduleLessons : list LessonData) :
  scheduleModule groupId enrollment i nEnrollments moduleIndex moduleLessons []
  = Done (tt, out_nil).
Proof. reflexivity. Qed.

Lemma scheduleModule_no_lessons (groupId : Z) (enrollment : Enrollment)
    (i nEnrollments moduleIndex : Z) (moduleLessons : list LessonData)
    (moduleDays : list Z) :
  lessonsToCompleteInModule moduleLessons i = Int 0 ->
  scheduleModule groupId enrollment i nEnrollments moduleIndex moduleLessons
    moduleDays = Done (tt, out_nil).
Proof.
  intros H. unfold scheduleModule. rewrite H. cbn [strict_eq Z.eqb].
  destruct (length moduleDays =? 0); reflexivity.
Qed.

(** Lines 130-224: one module of one student returns, and with a window
    that is not empty it schedules as many lessons as line 136 counts. *)
Lemma scheduleModule_total (groupId : Z) (enrollment : Enrollment)
    (i nEnrollments moduleIndex : Z) (moduleLessons : list LessonData)
    (moduleDays : list Z) :
  0 <= i < nEnrollments -> nEnrollments < 2 ^ 53 ->
  length moduleLessons < 2 ^ 53 -> length moduleDays < 2 ^ 53 ->
  Forall (fun lesson => length (questions lesson) < 2 ^ 53) moduleLessons ->
  exists c o,
    lessonsToCompleteInModule moduleLessons i = Int c
    /\ 0 <= c <= length moduleLessons
    /\ scheduleModule groupId enrollment i nEnrollments moduleIndex
         moduleLessons moduleDays = Done (tt, o)
    /\ (moduleDays <> [] -> lessonsScheduled o = c).
Proof.
  intros Hi Hn Hlen Hdays Hq.
  destruct (lessonsToComplete_bounds moduleLessons i Hlen) as (c & Hc & Hcb).
  exists c. unfold scheduleModule. rewrite Hc. cbn [strict_eq].
  destruct (Z.eqb_spec (length moduleDays) 0) as [Hz | Hnz].
  - eexists. split; [reflexivity|]. split; [exact Hcb|]. split; [reflexivity|].
    intros Hne. exfalso. destruct moduleDays; [contradiction|].
    rewrite length_cons in Hz. pose proof (length_nonneg moduleDays). lia.
  - destruct (Z.eqb_spec c 0) as [-> | Hc0].
    + eexists. split; [reflexivity|]. split; [exact Hcb|].
      split; [reflexivity|]. intros _. reflexivity.
    + pose proof (length_nonneg moduleDays) as Hd0.
      destruct (Binary64.floor_start i nEnrollments (length moduleDays))
        as (s & Hs & Hsb); [lia | lia | lia |].
      unfold startDayIndex. rewrite Hs. rewrite slice_from_int by lia.
      set (availableDays := skipn (Z.to_nat s) moduleDays).
      assert (Hav : length availableDays = length moduleDays - s).
      { subst availableDays. unfold length in *. rewrite List.length_skipn. lia. }
      assert (Hne : availableDays <> []).
      { intros E. rewrite E in Hav. unfold length in Hav at 1. cbn in Hav. lia. }
      destruct (Z.eqb_spec (length availableDays) 0) as [Hz | _]; [lia|].
      assert (Hper : natural (daysPerLesson availableDays (Int c)))
        by (apply daysPerLesson_natural; lia).
      destruct (lesson_loop_total groupId enrollment i moduleIndex moduleDays
                  availableDays (daysPerLesson availableDays (Int c)) c Hne
                  Hper moduleLessons 0 (Int 0))
        as (final & o & Hrun & Hcount); [lia | lia | exact Hq | cbn; lia |].
      rewrite Hrun. cbn [bind ret].
      eexists. split; [reflexivity|]. split; [exact Hcb|].
      split; [reflexivity|]. intros _. rewrite out_app_nil_r. lia.
Qed.

Lemma get_defined {A : Type} (l : list A) (k : Z) :
  0 <= k < length l -> exists x, get l (Int k) = Some x /\ In x l.
Proof.
  intros Hk. unfold get. destruct (Z.ltb_spec k 0); [lia|].
  destruct (nth_error l (Z.to_nat k)) as [x|] eqn:E.
  - exists x. split; [reflexivity | eapply nth_error_In; exact E].
  - apply nth_error_None in E. unfold length in Hk. lia.
Qed.

(** Lines 129-225: the modules of one student, from [moduleIndex] on. *)
Lemma scheduleModules_total (groupId : Z) (enrollment : Enrollment)
    (i nEnrollments : Z) (windows : list (list Z)) :
  0 <= i < nEnrollments -> nEnrollments < 2 ^ 53 ->
  Forall (fun w => length w < 2 ^ 53) windows ->
  forall (modules : list (list LessonData)) (moduleIndex : Z),
    0 <= moduleIndex -> moduleIndex + length modules <= length windows ->
    Forall (fun m => length m < 2 ^ 53) modules ->
    Forall (Forall (fun lesson => length (questions lesson) < 2 ^ 53)) modules ->
    exists o,
      scheduleModules groupId enrollment i nEnrollments windows modules
        moduleIndex = Done (tt, o).
Proof.
  intros Hi Hn Hwin.
  induction modules as [|moduleLessons modules IH];
    intros moduleIndex Hm Hlen Hmods Hqs.
  - eexists. reflexivity.
  - rewrite length_cons in Hlen. pose proof (length_nonneg modules) as Hl0.
    apply Forall_cons_iff in Hmods. destruct Hmods as [Hm1 Hmods].
    apply Forall_cons_iff in Hqs. destruct Hqs as [Hq1 Hqs].
    destruct (get_defined windows moduleIndex ltac:(lia)) as (moduleDays & Hget & Hin).
    rewrite Forall_forall in Hwin. specialize (Hwin moduleDays Hin).
    destruct (scheduleModule_total groupId enrollment i nEnrollments moduleIndex
                moduleLessons moduleDays Hi Hn Hm1 Hwin Hq1)
      as (c & o1 & _ & _ & Hrun1 & _).
    destruct (IH (moduleIndex + 1) ltac:(lia) ltac:(lia) Hmods Hqs) as (o2 & Hrun2).
    cbn [scheduleModules]. rewrite Hget. cbn [defined]. rewrite bind_done.
    rewrite Hrun1. cbn [bind]. rewrite Hrun2. eexists. reflexivity.
Qed.

(** Lines 113-226: the students from index [i] on. *)
Lemma scheduleStudents_total (groupId nEnrollments : Z)
    (windows : list (list Z)) (lessonsByModule : list (list LessonData)) :
  nEnrollments < 2 ^ 53 ->
  length lessonsByModule <= length windows ->
  Forall (fun w => length w < 2 ^ 53) windows ->
  Forall (fun m => length m < 2 ^ 53) lessonsByModule ->
  Forall (Forall (fun lesson => length (questions lesson) < 2 ^ 53))
    lessonsByModule ->
  forall (enrollments : list Enrollment) (i : Z),
    0 <= i -> i + length enrollments <= nEnrollments ->
    exists o,
      scheduleStudents groupId nEnrollments windows lessonsByModule
        enrollments i = Done (tt, o).
Proof.
  intros Hn Hlen Hwin Hmods Hqs.
  induction enrollments as [|enrollment enrollments IH]; intros i Hi Hrest.
  - eexists. reflexivity.
  - rewrite length_cons in Hrest. pose proof (length_nonneg enrollments) as Hl0.
    destruct (scheduleModules_total groupId enrollment i nEnrollments windows
                ltac:(lia) Hn Hwin lessonsByModule 0 ltac:(lia) ltac:(lia)
                Hmods Hqs) as (o1 & Hrun1).
    destruct (IH (i + 1) ltac:(lia) ltac:(lia)) as (o2 & Hrun2).
    cbn [scheduleStudents]. rewrite Hrun1. cbn [bind]. rewrite Hrun2.
    eexists. reflexivity.
Qed.

Lemma array_length_ok_53 {A : Type} (l : list A) :
  array_length_ok l -> length l < 2 ^ 53.
Proof. unfold array_length_ok. lia. Qed.

(** C7. With one window per module and arrays of at most [2^32 - 1]
    elements, the walk over the students never reads past the end of an
    array (it returns, it does not throw): the number of lessons to
    complete in a module, [Math.ceil(moduleLessons.length * rate)], is
    never more than the module has, because the rate is at most 1; the
    index of the day of a lesson is clamped to the last available day; a
    module with an empty window is passed over for every student, with
    nothing written or queued; and a student with no lesson to complete in
    a module is passed over for that module, and the walk goes on. *)
Theorem walk_stays_in_bounds (groupId : Z) (enrollments : list Enrollment)
    (lessonsByModule : list (list LessonData)) (windows : list (list Z)) :
  List.length windows = List.length lessonsByModule ->
  array_length_ok enrollments ->
  Forall array_length_ok windows ->
  Forall array_length_ok lessonsByModule ->
  Forall (Forall (fun lesson => array_length_ok (questions lesson)))
    lessonsByModule ->
  (exists o,
      scheduleStudents groupId (length enrollments) windows lessonsByModule
        enrollments 0 = Done (tt, o))
  /\ (forall i moduleLessons,
         In moduleLessons lessonsByModule ->
         exists c, lessonsToCompleteInModule moduleLessons i = Int c
                   /\ 0 <= c <= length moduleLessons)
  /\ (forall (availableDays : list Z) (dayIdxOffset : intnum),
         availableDays <> [] -> natural dayIdxOffset ->
         exists idx day1Offset,
           Math_min dayIdxOffset (Int (length availableDays - 1)) = Int idx
           /\ 0 <= idx < length availableDays
           /\ get availableDays (Int idx) = Some day1Offset)
  /\ (forall enrollment i moduleIndex moduleLessons,
         scheduleModule groupId enrollment i (length enrollments) moduleIndex
           moduleLessons [] = Done (tt, out_nil))
  /\ (forall enrollment i moduleIndex moduleLessons moduleDays,
         lessonsToCompleteInModule moduleLessons i = Int 0 ->
         scheduleModule groupId enrollment i (length enrollments) moduleIndex
           moduleLessons moduleDays = Done (tt, out_nil)).
Proof.
  intros Hlen He Hwin Hmods Hqs.
  assert (Hwin53 : Forall (fun w => length w < 2 ^ 53) windows).
  { eapply Forall_impl; [|exact Hwin]. intros w. apply array_length_ok_53. }
  assert (Hmods53 : Forall (fun m => length m < 2 ^ 53) lessonsByModule).
  { eapply Forall_impl; [|exact Hmods]. intros m. apply array_length_ok_53. }
  assert (Hqs53 : Forall (Forall (fun lesson => length (questions lesson) < 2 ^ 53))
                    lessonsByModule).
  { eapply Forall_impl; [|exact Hqs]. intros m Hm.
    eapply Forall_impl; [|exact Hm]. intros lesson. apply array_length_ok_53. }
  split; [|split; [|split; [|split]]].
  - apply scheduleStudents_total; try assumption.
    + apply array_length_ok_53. exact He.
    + unfold length. lia.
    + lia.
    + lia.
  - intros i moduleLessons Hin. apply lessonsToComplete_bounds.
    rewrite Forall_forall in Hmods53. apply Hmods53. exact Hin.
  - intros availableDays dayIdxOffset Hne Hnat.
    destruct (day1_defined availableDays dayIdxOffset Hne Hnat)
      as (idx & d & H1 & H2 & H3 & _).
    exists idx, d. auto.
  - intros. apply scheduleModule_no_days.
  - intros. apply scheduleModule_no_lessons. assumption.
Qed.

Lemma walk_stays_in_bounds_witness :
  exists o,
    scheduleStudents 7 (length (sampleEnrollments 2)) [[3]; [2; 1]]
      (sampleModules 2 2 4) (sampleEnrollments 2) 0 = Done (tt, o).
Proof.
  refine (proj1 (walk_stays_in_bounds 7 (sampleEnrollments 2)
                   (sampleModules 2 2 4) [[3]; [2; 1]] eq_refl _ _ _ _)).
  - unfold array_length_ok. vm_compute. reflexivity.
  - repeat constructor.
  - repeat constructor.
  - repeat constructor.
Defined.

(** ** The queues and the whole run *)

Lemma bind_inv {A B : Type} (c : M A) (k : A -> M B) (b : B) (o : Out) :
  bind c k = Done (b, o) ->
  exists a o1 o2, c = Done (a, o1) /\ k a = Done (b, o2) /\ o = out_app o1 o2.
Proof.
  unfold bind. destruct c as [[a o1]|]; [|discriminate].
  destruct (k a) as [[b' o2]|] eqn:E; [|discriminate].
  intros H. injection H as <- <-. exists a, o1, o2. auto.
Qed.

Lemma partials_app (P : PartialLessonProgress -> Prop) (o1 o2 : Out) :
  Forall P (partialLessonProgress o1) ->
  Forall P (partialLessonProgress o2) ->
  Forall P (partialLessonProgress (out_app o1 o2)).
Proof. intros H1 H2. unfold out_app. cbn. apply Forall_app. auto. Qed.

(** What a loop queues, its body queues. *)
Lemma for_index_partials {A S : Type} (P : PartialLessonProgress -> Prop)
    (body : Z -> A -> S -> M S) (bound : intnum) :
  forall (rest : list A) (k : Z) (s s' : S) (o : Out),
    (forall j x t t' o', In x rest -> body j x t = Done (t', o') ->
                         Forall P (partialLessonProgress o')) ->
    for_index rest k bound body s = Done (s', o) ->
    Forall P (partialLessonProgress o).
Proof.
  induction rest as [|x rest IH]; intros k s s' o Hbody Hrun;
    cbn [for_index] in Hrun; destruct (lt (Int k) bound).
  - discriminate Hrun.
  - injection Hrun as <- <-. constructor.
  - apply bind_inv in Hrun. destruct Hrun as (t & o1 & o2 & H1 & H2 & ->).
    apply partials_app.
    + eapply Hbody; [left; reflexivity | exact H1].
    + eapply IH; [|exact H2]. intros j y u u' o' Hin.
      apply Hbody. right. exact Hin.
  - injection Hrun as <- <-. constructor.
Qed.

Lemma scheduleLesson_partials (groupId : Z) (enrollment : Enrollment)
    (i moduleIndex : Z) (moduleDays availableDays : list Z)
    (perLesson : intnum) (lessonIdx : Z) (lesson : LessonData)
    (dayIdxOffset next : intnum) (o : Out) :
  length (questions lesson) < 2 ^ 53 ->
  scheduleLesson groupId enrollment i moduleIndex moduleDays availableDays
    perLesson lessonIdx lesson dayIdxOffset = Done (next, o) ->
  Forall (partial_from moduleIndex) (partialLessonProgress o).
Proof.
  intros Hn Hrun.
  pose proof (length_nonneg (questions lesson)) as Hn0.
  destruct (Math_min dayIdxOffset (Int (length availableDays - 1)))
    as [idx | s |] eqn:Hmin;
    [| unfold scheduleLesson in Hrun; rewrite Hmin in Hrun; discriminate Hrun
     | unfold scheduleLesson in Hrun; rewrite Hmin in Hrun; discriminate Hrun].
  destruct (get availableDays (Int idx)) as [day1Offset|] eqn:Hget;
    [| unfold scheduleLesson in Hrun; rewrite Hmin, Hget in Hrun;
       discriminate Hrun].
  destruct (splitLesson i lessonIdx moduleIndex (length (questions lesson)))
    eqn:Hsplit.
  - rewrite (scheduleLesson_split groupId enrollment i moduleIndex moduleDays
               availableDays perLesson lessonIdx lesson dayIdxOffset idx
               day1Offset Hn Hsplit Hmin Hget) in Hrun.
    injection Hrun as <- <-. cbn [partialLessonProgress].
    constructor; [|constructor]. split; [reflexivity|].
    eexists. split; [reflexivity|]. cbn [partial_lesson]. split.
    + apply Z.div_pos; lia.
    + apply Z.div_le_upper_bound; lia.
  - rewrite (scheduleLesson_whole groupId enrollment i moduleIndex moduleDays
               availableDays perLesson lessonIdx lesson dayIdxOffset idx
               day1Offset Hsplit Hmin Hget) in Hrun.
    injection Hrun as <- <-. unfold completeTodayOut.
    destruct (delayMasteryCheck (i + lessonIdx + moduleIndex) && (1 <? day1Offset));
      constructor.
Qed.

Lemma scheduleModule_partials (groupId : Z) (enrollment : Enrollment)
    (i nEnrollments moduleIndex : Z) (moduleLessons : list LessonData)
    (moduleDays : list Z) (o : Out) :
  Forall (fun lesson => length (questions lesson) < 2 ^ 53) moduleLessons ->
  scheduleModule groupId enrollment i nEnrollments moduleIndex moduleLessons
    moduleDays = Done (tt, o) ->
  Forall (partial_from moduleIndex) (partialLessonProgress o).
Proof.
  intros Hq Hrun. unfold scheduleModule in Hrun.
  destruct (length moduleDays =? 0); [injection Hrun as <-; constructor|].
  destruct (strict_eq (lessonsToCompleteInModule moduleLessons i) (Int 0));
    [injection Hrun as <-; constructor|].
  destruct (length (slice_from moduleDays
                      (startDayIndex i nEnrollments moduleDays)) =? 0);
    [injection Hrun as <-; constructor|].
  apply bind_inv in Hrun. destruct Hrun as (final & o1 & o2 & Hloop & Hret & ->).
  injection Hret as <-. rewrite out_app_nil_r.
  eapply for_index_partials; [|exact Hloop].
  intros j lesson t t' o' Hin Hbody.
  eapply scheduleLesson_partials; [|exact Hbody].
  rewrite Forall_forall in Hq. apply Hq. exact Hin.
Qed.

Lemma scheduleModules_partials (groupId : Z) (enrollment : Enrollment)
    (i nEnrollments : Z) (windows : list (list Z)) :
  forall (modules : list (list LessonData)) (moduleIndex : Z) (o : Out),
    Forall (Forall (fun lesson => length (questions lesson) < 2 ^ 53)) modules ->
    scheduleModules groupId enrollment i nEnrollments windows modules
      moduleIndex = Done (tt, o) ->
    Forall (partial_ok windows) (partialLessonProgress o).
Proof.
  induction modules as [|moduleLessons modules IH]; intros moduleIndex o Hq Hrun;
    cbn [scheduleModules] in Hrun.
  - injection Hrun as <-. constructor.
  - apply Forall_cons_iff in Hq. destruct Hq as [Hq1 Hq].
    apply bind_inv in Hrun.
    destruct Hrun as (moduleDays & o0 & o' & Hget & Hrun & ->).
    destruct (get windows (Int moduleIndex)) as [days|] eqn:Eget;
      [|discriminate Hget].
    injection Hget as <- <-. rewrite out_app_nil_l.
    apply bind_inv in Hrun. destruct Hrun as ([] & o1 & o2 & H1 & H2 & ->).
    apply partials_app.
    + eapply Forall_impl;
        [|eapply scheduleModule_partials; [exact Hq1 | exact H1]].
      intros p Hp. exists moduleIndex, days. split; assumption.
    + eapply IH; [exact Hq | exact H2].
Qed.

Lemma scheduleStudents_partials (groupId nEnrollments : Z)
    (windows : list (list Z)) (lessonsByModule : list (list LessonData)) :
  Forall (Forall (fun lesson => length (questions lesson) < 2 ^ 53))
    lessonsByModule ->
  forall (enrollments : list Enrollment) (i : Z) (o : Out),
    scheduleStudents groupId nEnrollments windows lessonsByModule enrollments i
    = Done (tt, o) ->
    Forall (partial_ok windows) (partialLessonProgress o).
Proof.
  intros Hq. induction enrollments as [|enrollment enrollments IH];
    intros i o Hrun; cbn [scheduleStudents] in Hrun.
  - injection Hrun as <-. constructor.
  - apply bind_inv in Hrun. destruct Hrun as ([] & o1 & o2 & H1 & H2 & ->).
    apply partials_app.
    + eapply scheduleModules_partials; [exact Hq | exact H1].
    + eapply IH. exact H2.
Qed.

(** Lines 229-277: the second pass over well-formed entries returns. *)
Lemma continueLessons_total (groupId : Z) (windows : list (list Z))
    (partials : list PartialLessonProgress) :
  Forall (partial_ok windows) partials ->
  exists o, for_of partials (continueLesson groupId windows) = Done (tt, o).
Proof.
  induction partials as [|p partials IH]; intros Hok.
  - eexists. reflexivity.
  - apply Forall_cons_iff in Hok. destruct Hok as [Hp Hok].
    destruct Hp as (moduleIndex & moduleDays & (Hidx & done & Hqc & Hdone) & Hget).
    destruct (IH Hok) as (o2 & Hrun2).
    cbn [for_of].
    rewrite (continueLesson_out groupId windows p done moduleDays Hqc Hdone)
      by (intros _; rewrite Hidx; exact Hget).
    cbn [bind]. rewrite Hrun2. eexists. reflexivity.
Qed.

(** Lines 280-292: the pass over the delayed mastery checks returns. *)
Lemma completeMasteryChecks_total (groupId : Z)
    (pendings : list PendingMasteryCheck) :
  exists o, for_of pendings (completeMasteryCheck groupId) = Done (tt, o).
Proof.
  induction pendings as [|p pendings IH].
  - eexists. reflexivity.
  - destruct IH as (o2 & Hrun2). cbn [for_of].
    unfold completeMasteryCheck at 1. unfold getTimestampDaysAgo.
    rewrite bind_done. cbn [bind createMasteryCheckResponse insert
      createMasteryCheckCompletedEvent].
    rewrite Hrun2. eexists. reflexivity.
Qed.

Lemma length_in_concat {A : Type} (ls : list (list A)) (l : list A) :
  In l ls -> length l <= length (List.concat ls).
Proof.
  induction ls as [|x ls IH]; intros Hin; [contradiction|].
  cbn [List.concat]. rewrite length_app.
  pose proof (length_nonneg x). pose proof (length_nonneg (List.concat ls)).
  destruct Hin as [-> | Hin]; [lia|]. specialize (IH Hin). lia.
Qed.

(** The whole run returns the rows it inserted: with a positive total
    number of lessons and arrays of at most [2^32 - 1] elements, neither
    the windows, nor the walk, nor the two later passes throw. *)
Lemma seedProgressEventsOver_total (groupId : Z) (workingDays : list Z)
    (enrollments : list Enrollment)
    (lessonsByModule : list (list LessonData)) :
  0 < totalLessons lessonsByModule < 2 ^ 53 ->
  array_length_ok workingDays ->
  array_length_ok enrollments ->
  Forall array_length_ok lessonsByModule ->
  Forall (Forall (fun lesson => array_length_ok (questions lesson)))
    lessonsByModule ->
  exists log,
    seedProgressEventsOver groupId workingDays enrollments lessonsByModule
    = Done log.
Proof.
  intros Ht Hw He Hmods Hqs.
  assert (Hne : lessonsByModule <> []).
  { intros ->. unfold totalLessons in Ht. cbn in Ht. lia. }
  apply array_length_ok_53 in Hw.
  destruct (moduleWorkingDays_form workingDays lessonsByModule Hne Ht Hw)
    as (front & lastw & d' & _ & Hd' & Hcat & Hlen & _ & Hwin).
  set (windows := front ++ [lastw ++ skipn (Z.to_nat d') workingDays]) in *.
  assert (Hall : List.concat windows = workingDays).
  { subst windows. rewrite concat_snoc, app_assoc, <- concat_snoc, Hcat.
    apply firstn_skipn. }
  assert (Hwin53 : Forall (fun w => length w < 2 ^ 53) windows).
  { apply Forall_forall. intros w Hin.
    pose proof (length_in_concat windows w Hin) as Hle. rewrite Hall in Hle. lia. }
  assert (Hmods53 : Forall (fun m => length m < 2 ^ 53) lessonsByModule).
  { eapply Forall_impl; [|exact Hmods]. intros m. apply array_length_ok_53. }
  assert (Hqs53 : Forall (Forall (fun lesson => length (questions lesson) < 2 ^ 53))
                    lessonsByModule).
  { eapply Forall_impl; [|exact Hqs]. intros m Hm.
    eapply Forall_impl; [|exact Hm]. intros lesson. apply array_length_ok_53. }
  assert (Hlens : length lessonsByModule <= length windows).
  { subst windows. unfold length. rewrite List.length_app in *.
    cbn [List.length] in *. lia. }
  destruct (scheduleStudents_total groupId (length enrollments) windows
              lessonsByModule (array_length_ok_53 _ He) Hlens Hwin53 Hmods53
              Hqs53 enrollments 0 ltac:(lia) ltac:(lia)) as (walk & Hwalk).
  pose proof (scheduleStudents_partials groupId (length enrollments) windows
                lessonsByModule Hqs53 enrollments 0 walk Hwalk) as Hok.
  destruct (continueLessons_total groupId windows (partialLessonProgress walk) Hok)
    as (day2 & Hday2).
  destruct (completeMasteryChecks_total groupId
              (pendingMasteryChecks walk ++ pendingMasteryChecks day2))
    as (delayed & Hdelayed).
  unfold seedProgressEventsOver. rewrite Hwin, Hwalk, Hday2, Hdelayed.
  eexists. reflexivity.
Qed.

(** ** Completion rates and lesson counts *)

(** C5, as the code has it. The completion rate of the student of index
    [i] is the entry [i mod 5] of [1.0, 0.8, 0.6, 0.4, 0.2]. In a module
    whose window of days is not empty, the number of lessons the walk
    schedules for the student (completed on their day or queued as split)
    is [Math.ceil(moduleLessons.length * completionRate)]; with the rate
    1.0 that is the number of lessons of the module, and with the rate 0.2
    and 5 lessons it is 1. *)
Theorem lessons_scheduled_in_module (groupId : Z) (enrollment : Enrollment)
    (i nEnrollments moduleIndex : Z) (moduleLessons : list LessonData)
    (moduleDays : list Z) :
  0 <= i < nEnrollments -> nEnrollments < 2 ^ 32 ->
  array_length_ok moduleLessons -> array_length_ok moduleDays ->
  Forall (fun lesson => array_length_ok (questions lesson)) moduleLessons ->
  moduleDays <> [] ->
  completionRate i
  = nth (Z.to_nat (i mod 5)) [lit_1_0; lit_0_8; lit_0_6; lit_0_4; lit_0_2]
      lit_0_5
  /\ exists c o,
       Math_ceil (mul (ofInt (length moduleLessons)) (completionRate i)) = Int c
       /\ scheduleModule groupId enrollment i nEnrollments moduleIndex
            moduleLessons moduleDays = Done (tt, o)
       /\ lessonsScheduled o = c
       /\ (i mod 5 = 0 -> c = length moduleLessons)
       /\ (i mod 5 = 4 -> length moduleLessons = 5 -> c = 1).
Proof.
  intros Hi Hn Hlen Hdays Hq Hne.
  pose proof (completionRate_table i ltac:(lia)) as Htable.
  split; [exact Htable|].
  assert (Hq53 : Forall (fun lesson => length (questions lesson) < 2 ^ 53)
                   moduleLessons).
  { eapply Forall_impl; [|exact Hq]. intros lesson. apply array_length_ok_53. }
  apply array_length_ok_53 in Hlen. apply array_length_ok_53 in Hdays.
  destruct (scheduleModule_total groupId enrollment i nEnrollments moduleIndex
              moduleLessons moduleDays Hi ltac:(lia) Hlen Hdays Hq53)
    as (c & o & Hc & Hcb & Hrun & Hcount).
  exists c, o. unfold lessonsToCompleteInModule in Hc.
  split; [exact Hc|]. split; [exact Hrun|]. split; [exact (Hcount Hne)|].
  pose proof (length_nonneg moduleLessons) as Hl0.
  split.
  - intros H0. rewrite Htable, H0 in Hc. cbn [Z.to_nat nth] in Hc.
    rewrite Binary64.mul_one in Hc by lia.
    destruct (Binary64.ceil_floor_ofInt (length moduleLessons)) as [Hceil _];
      [lia|].
    rewrite Hceil in Hc. injection Hc as <-. reflexivity.
  - intros H4 H5. rewrite Htable, H4, H5 in Hc.
    vm_compute in Hc. injection Hc as <-. reflexivity.
Qed.

Lemma lessons_scheduled_in_module_witness :
  exists c o,
    Math_ceil (mul (ofInt (length (sampleLesson 0 4 :: sampleLesson 1 4 :: nil)))
                   (completionRate 1)) = Int c
    /\ scheduleModule 7 (sampleEnrollment 1) 1 2 0
         (sampleLesson 0 4 :: sampleLesson 1 4 :: nil) [3; 2; 1] = Done (tt, o)
    /\ lessonsScheduled o = c
    /\ (1 mod 5 = 0 -> c = length (sampleLesson 0 4 :: sampleLesson 1 4 :: nil))
    /\ (1 mod 5 = 4 ->
        length (sampleLesson 0 4 :: sampleLesson 1 4 :: nil) = 5 -> c = 1).
Proof.
  refine (proj2 (lessons_scheduled_in_module 7 (sampleEnrollment 1) 1 2 0
                   (sampleLesson 0 4 :: sampleLesson 1 4 :: nil) [3; 2; 1]
                   _ _ _ _ _ _)).
  - lia.
  - lia.
  - unfold array_length_ok. vm_compute. reflexivity.
  - unfold array_length_ok. vm_compute. reflexivity.
  - repeat constructor.
  - discriminate.
Defined.

(** C5, as stated, fails: with the working days 2 and 1 and three modules
    of one lesson, the third module gets no day; the student of index 0
    has the rate 1.0 and one lesson to complete there, and the walk
    schedules none. *)
Lemma no_lesson_scheduled_without_days :
  exists windows moduleLessons moduleDays o,
    moduleWorkingDays [2; 1] (sampleModules 3 1 2) = Done windows
    /\ nth_error (sampleModules 3 1 2) 2 = Some moduleLessons
    /\ nth_error windows 2 = Some moduleDays
    /\ completionRate 0 = lit_1_0
    /\ Math_ceil (mul (ofInt (length moduleLessons)) (completionRate 0)) = Int 1
    /\ length moduleLessons = 1
    /\ scheduleModule 7 (sampleEnrollment 0) 0 1 2 moduleLessons moduleDays
       = Done (tt, o)
    /\ lessonsScheduled o = 0.
Proof.
  eexists. eexists. eexists. eexists.
  split; [vm_compute; reflexivity|].
  split; [reflexivity|]. split; [reflexivity|]. split; [reflexivity|].
  split; [vm_compute; reflexivity|]. split; [reflexivity|].
  split; [vm_compute; reflexivity|]. reflexivity.
Qed.

(** ** A module without lessons *)

Lemma moduleDayCount_empty (total nWorkingDays : Z) :
  0 < total < 2 ^ 53 -> 0 <= nWorkingDays < 2 ^ 53 ->
  moduleDayCount 0 total nWorkingDays = Int 0.
Proof.
  intros Ht Hw. unfold moduleDayCount.
  destruct (Binary64.ofInt_pos total Ht) as (m & e & -> & _).
  pose proof (Binary64.ofInt_finite_nonneg nWorkingDays Hw) as Hf.
  destruct (ofInt nWorkingDays) as [[]|[]| |[] mw ew]; cbn in Hf; try tauto;
    reflexivity.
Qed.

(** C8. When the total number of lessons is positive, a module with no
    lesson raises nothing: the windows are computed (its own day count is
    [Math.ceil((0 / totalLessons) * workingDays.length) = 0], a division
    by the positive total), and for every student and whatever its window
    the walk writes and queues nothing for the module. *)
Theorem empty_module_writes_nothing (groupId : Z) (workingDays : list Z)
    (lessonsByModule : list (list LessonData)) :
  0 < totalLessons lessonsByModule < 2 ^ 53 ->
  length workingDays < 2 ^ 53 ->
  (exists windows, moduleWorkingDays workingDays lessonsByModule = Done windows)
  /\ moduleDayCount (length (@nil LessonData)) (totalLessons lessonsByModule)
       (length workingDays) = Int 0
  /\ (forall enrollment i nEnrollments moduleIndex moduleDays,
         scheduleModule groupId enrollment i nEnrollments moduleIndex []
           moduleDays = Done (tt, out_nil)).
Proof.
  intros Ht Hw. split; [|split].
  - assert (Hne : lessonsByModule <> []).
    { intros ->. unfold totalLessons in Ht. cbn in Ht. lia. }
    destruct (moduleWorkingDays_form workingDays lessonsByModule Hne Ht Hw)
      as (front & lastw & d' & _ & _ & _ & _ & _ & Hrun).
    eexists. exact Hrun.
  - apply moduleDayCount_empty; [exact Ht|].
    pose proof (length_nonneg workingDays). lia.
  - intros. apply scheduleModule_no_lessons. apply lessonsToComplete_empty.
Qed.

Lemma empty_module_writes_nothing_witness :
  moduleDayCount (length (@nil LessonData))
    (totalLessons [[sampleLesson 0 2]; []; [sampleLesson 1 2]])
    (length [3; 2; 1]) = Int 0.
Proof.
  refine (proj1 (proj2 (empty_module_writes_nothing 7 [3; 2; 1]
                          [[sampleLesson 0 2]; []; [sampleLesson 1 2]] _ _))).
  - vm_compute. split; reflexivity.
  - vm_compute. reflexivity.
Defined.

(** ** The order of the timestamps *)

(** The day count of a module is the ceiling of a binary64 product: for 7
    lessons of 25 and 25 working days the quotient [7 / 25] times 25 is
    just above 7, and the count is 8. *)
Example moduleDayCount_7_25_25 : moduleDayCount 7 25 25 = Int 8.
Proof. vm_compute. reflexivity. Qed.

(** C1 at a failing input. Run on a Thursday with three days to seed (the
    working days 3, 2 and 1), one student and one module of two lessons
    of four questions: the second lesson is split on the day of offset 1,
    the last of its window, and [getNextWorkingDay] falls back to
    [max(1, 1 - 1) = 1], the same day. Its third question is shown at 10
    o'clock of that day, one hour before its second question is answered
    (at 11 o'clock of the same day). *)
Theorem split_on_last_day_breaks_order :
  exists log answered shown,
    seedProgressEventsForGroup 4 3 7 (sampleEnrollments 1)
      (sampleModules 1 2 4) = Done log
    /\ In (InsertEvent answered) log
    /\ In (InsertEvent shown) log
    /\ type answered = QUESTION_ANSWERED
    /\ type shown = LESSON_QUESTION_SHOWN
    /\ ev_enrollmentId answered = ev_enrollmentId shown
    /\ ev_assignmentId answered = lessonId (sampleLesson 1 4)
    /\ ev_assignmentId shown = lessonId (sampleLesson 1 4)
    /\ option_map question_id (nth_error (questions (sampleLesson 1 4)) 1)
       = ev_questionId answered
    /\ option_map question_id (nth_error (questions (sampleLesson 1 4)) 2)
       = ev_questionId shown
    /\ created_at answered = 10 + 1 - 24 * 1
    /\ created_at shown = 10 + 0 - 24 * 1
    /\ created_at shown < created_at answered.
Proof.
  eexists.
  exists {| type := QUESTION_ANSWERED; ev_enrollmentId := 0;
            ev_assignmentId := 1; ev_questionId := Some 101;
            ev_groupId := 7; created_at := -13 |}.
  exists {| type := LESSON_QUESTION_SHOWN; ev_enrollmentId := 0;
            ev_assignmentId := 1; ev_questionId := Some 102;
            ev_groupId := 7; created_at := -14 |}.
  split; [vm_compute; reflexivity|].
  split; [repeat (first [left; reflexivity | right])|].
  split; [repeat (first [left; reflexivity | right])|].
  repeat split.
Qed.

(** The same on a Tuesday with the 45 days to seed of the configuration,
    13 students and two modules of ten lessons of four questions: the
    last lesson of the second module, for the student of index 10. *)
Lemma order_broken_with_configured_days :
  exists log answered shown,
    seedProgressEventsForGroup 2 45 7 (sampleEnrollments 13)
      (sampleModules 2 10 4) = Done log
    /\ In (InsertEvent answered) log
    /\ In (InsertEvent shown) log
    /\ type answered = QUESTION_ANSWERED
    /\ type shown = LESSON_QUESTION_SHOWN
    /\ ev_enrollmentId answered = 10
    /\ ev_enrollmentId shown = 10
    /\ ev_assignmentId answered = lessonId (sampleLesson 109 4)
    /\ ev_assignmentId shown = lessonId (sampleLesson 109 4)
    /\ option_map question_id (nth_error (questions (sampleLesson 109 4)) 1)
       = ev_questionId answered
    /\ option_map question_id (nth_error (questions (sampleLesson 109 4)) 2)
       = ev_questionId shown
    /\ created_at shown < created_at answered.
Proof.
  set (run := seedProgressEventsForGroup 2 45 7 (sampleEnrollments 13)
                (sampleModules 2 10 4)).
  set (isRow := fun (t : EventType) (q ts : Z) (w : DbWrite) =>
         match w with
         | InsertEvent e =>
             (match type e, t with
              | QUESTION_ANSWERED, QUESTION_ANSWERED => true
              | LESSON_QUESTION_SHOWN, LESSON_QUESTION_SHOWN => true
              | _, _ => false
              end)
             && (ev_enrollmentId e =? 10) && (ev_assignmentId e =? 109)
             && (match ev_questionId e with Some k => k =? q | None => false end)
             && (created_at e =? ts)
         | MasteryCheckResponse _ _ _ => false
         end).
  destruct run as [log|] eqn:Erun; [|vm_compute in Erun; discriminate Erun].
  destruct (find (isRow QUESTION_ANSWERED 10901 (-13)) log) as [wa|] eqn:Ea;
    [|vm_compute in Erun; injection Erun as <-; vm_compute in Ea; discriminate Ea].
  destruct (find (isRow LESSON_QUESTION_SHOWN 10902 (-14)) log) as [ws|] eqn:Es;
    [|vm_compute in Erun; injection Erun as <-; vm_compute in Es; discriminate Es].
  apply find_some in Ea. destruct Ea as [Hina Ha].
  apply find_some in Es. destruct Es as [Hins Hs].
  destruct wa as [ea|]; [|discriminate Ha].
  destruct ws as [es|]; [|discriminate Hs].
  exists log, ea, es. split; [reflexivity|]. split; [exact Hina|].
  split; [exact Hins|].
  subst isRow. cbn beta iota in Ha, Hs.
  repeat (apply andb_prop in Ha; destruct Ha as [Ha ?]).
  repeat (apply andb_prop in Hs; destruct Hs as [Hs ?]).
  destruct (type ea) eqn:Ta; try discriminate Ha.
  destruct (type es) eqn:Ts; try discriminate Hs.
  destruct (ev_questionId ea) as [qa|] eqn:Qa; [|discriminate].
  destruct (ev_questionId es) as [qs|] eqn:Qs; [|discriminate].
  repeat match goal with
         | H : (_ =? _) = true |- _ => apply Z.eqb_eq in H
         end.
  subst. repeat split; try assumption; try reflexivity; lia.
Qed.

(** C4 at a failing input, the run that breaks the order of C1: a
    Thursday with three days to seed, one student and one module of two
    lessons of four questions. The second lesson is to be split
    ([(0 + 1 + 0) mod 10 < 3], four questions) and is scheduled on the day
    of offset 1, the last of the window. Its continuation is queued with
    two questions completed, for [getNextWorkingDay(1)], which is
    [max(1, 1 - 1) = 1]: the day of the first half, and no other day.
    The run answers the first question of the first half and the first
    question of the second half at 10 o'clock of that same day. *)
Theorem split_on_last_day_stays_on_one_day :
  let lessonsByModule := sampleModules 1 2 4 in
  let enrollments := sampleEnrollments 1 in
  let lesson := sampleLesson 1 4 in
  exists windows walk entry log first second,
    splitLesson 0 1 0 (length (questions lesson)) = true
    /\ moduleWorkingDays (workingDaysOf 4 3) lessonsByModule = Done windows
    /\ windows = [[3; 2; 1]]
    /\ scheduleStudents 7 (length enrollments) windows lessonsByModule
         enrollments 0 = Done (tt, walk)
    /\ In entry (partialLessonProgress walk)
    /\ partial_lesson entry = lesson
    /\ questionsCompleted entry = Int 2
    /\ partial_scheduledDayOffset entry = getNextWorkingDay 1 [3; 2; 1]
    /\ partial_scheduledDayOffset entry = 1
    /\ seedProgressEventsForGroup 4 3 7 enrollments lessonsByModule = Done log
    /\ In (InsertEvent first) log
    /\ In (InsertEvent second) log
    /\ type first = QUESTION_ANSWERED
    /\ type second = QUESTION_ANSWERED
    /\ ev_assignmentId first = lessonId lesson
    /\ ev_assignmentId second = lessonId lesson
    /\ option_map question_id (nth_error (questions lesson) 0)
       = ev_questionId first
    /\ option_map question_id (nth_error (questions lesson) 2)
       = ev_questionId second
    /\ created_at first = 10 + 0 - 24 * 1
    /\ created_at second = 10 + 0 - 24 * 1.
Proof.
  cbv zeta.
  exists [[3; 2; 1]]. eexists.
  exists {| partial_enrollment := sampleEnrollment 0;
            partial_lesson := sampleLesson 1 4;
            questionsCompleted := Int 2;
            partial_scheduledDayOffset := 1;
            partial_moduleIndex := 0;
            lessonIndex := 1 |}.
  eexists.
  exists {| type := QUESTION_ANSWERED; ev_enrollmentId := 0;
            ev_assignmentId := 1; ev_questionId := Some 100;
            ev_groupId := 7; created_at := -14 |}.
  exists {| type := QUESTION_ANSWERED; ev_enrollmentId := 0;
            ev_assignmentId := 1; ev_questionId := Some 102;
            ev_groupId := 7; created_at := -14 |}.
  split; [reflexivity|].
  split; [vm_compute; reflexivity|].
  split; [reflexivity|].
  split; [vm_compute; reflexivity|].
  split; [repeat (first [left; reflexivity | right])|].
  split; [reflexivity|]. split; [reflexivity|].
  split; [reflexivity|]. split; [reflexivity|].
  split; [vm_compute; reflexivity|].
  split; [repeat (first [left; reflexivity | right])|].
  split; [repeat (first [left; reflexivity | right])|].
  repeat split.
Qed.

Lemma getNextWorkingDay_not_earlier (c : Z) (s : list Z) :
  descending s -> 1 <= c -> getNextWorkingDay c s <= c.
Proof.
  intros Hs Hc. destruct (Z.eq_dec c 1) as [-> | Hne].
  - destruct (in_dec Z.eq_dec 1 s) as [Hin | Hout].
    + apply in_split in Hin. destruct Hin as (pre & post & ->).
      pose proof (descending_before pre post 1 Hs) as Hpre.
      destruct post as [|next post].
      * rewrite getNextWorkingDay_last by exact Hpre. lia.
      * rewrite getNextWorkingDay_next by exact Hpre.
        unfold descending in Hs. clear Hpre.
        induction pre as [|y pre IH]; cbn [app] in Hs;
          apply StronglySorted_inv in Hs; destruct Hs as [Hs Hall].
        -- apply Forall_inv in Hall. lia.
        -- exact (IH Hs).
    + rewrite getNextWorkingDay_absent by exact Hout. lia.
  - pose proof (getNextWorkingDay_later c s Hs ltac:(lia)). lia.
Qed.

Lemma ordered_between_app (lo1 hi1 lo2 hi2 : Z) (l1 l2 : list DbWrite) :
  ordered_between lo1 hi1 l1 -> ordered_between lo2 hi2 l2 ->
  hi1 <= lo2 -> lo1 <= lo2 -> hi1 <= hi2 ->
  ordered_between lo1 hi2 (l1 ++ l2).
Proof.
  intros [S1 B1] [S2 B2] Hmid Hlo Hhi. split.
  - rewrite map_app. clear Hlo Hhi.
    induction l1 as [|w l1 IH]; [exact S2|].
    cbn [map app] in *. apply StronglySorted_inv in S1. destruct S1 as [S1 Hw].
    apply Forall_cons_iff in B1. destruct B1 as [Bw B1].
    constructor; [apply IH; assumption|].
    apply Forall_app. split; [exact Hw|].
    apply Forall_map. eapply Forall_impl; [|exact B2].
    cbn beta. intros w' Hw'. lia.
  - apply Forall_app. split.
    + eapply Forall_impl; [|exact B1]. cbn beta. intros w' Hw'. lia.
    + eapply Forall_impl; [|exact B2]. cbn beta. intros w' Hw'. lia.
Qed.

Lemma ordered_between_same (t : Z) (rows : list DbWrite) :
  Forall (fun w => timestamp w = t) rows -> ordered_between t t rows.
Proof.
  intros H. split.
  - induction rows as [|w rows IH]; [constructor|].
    apply Forall_cons_iff in H. destruct H as [Hw H].
    cbn [map]. constructor; [apply IH; exact H|].
    apply Forall_map. eapply Forall_impl; [|exact H].
    cbn beta. intros w' Hw'. lia.
  - eapply Forall_impl; [|exact H]. cbn beta. intros w' Hw'. lia.
Qed.

Lemma ordered_between_weaken (lo hi lo' hi' : Z) (rows : list DbWrite) :
  ordered_between lo hi rows -> lo' <= lo -> hi <= hi' ->
  ordered_between lo' hi' rows.
Proof.
  intros [S B] Hlo Hhi. split; [exact S|].
  eapply Forall_impl; [|exact B]. cbn beta. intros w Hw. lia.
Qed.

Lemma ordered_between_nil (lo hi : Z) : ordered_between lo hi [].
Proof. split; constructor. Qed.

(** The rows of the questions of one day: one hour apart, in order. *)
Lemma questionRows_ordered (groupId : Z) (enrollment : Enrollment)
    (lesson : LessonData) (dayOffset : Z) (hours : Z -> Z) :
  (forall k, hours (k + 1) = hours k + 1) ->
  forall (qs : list LessonQuestion) (q : Z),
    ordered_between (10 + hours q - 24 * dayOffset)
      (10 + hours q + Z.max 0 (length qs - 1) - 24 * dayOffset)
      (questionRows groupId enrollment lesson dayOffset hours q qs).
Proof.
  intros Hh. induction qs as [|question qs IH]; intros q.
  - apply ordered_between_nil.
  - cbn [questionRows].
    assert (Hrow : ordered_between (10 + hours q - 24 * dayOffset)
                     (10 + hours q - 24 * dayOffset)
                     (questionRow groupId enrollment lesson question
                        (10 + hours q - 24 * dayOffset))).
    { apply ordered_between_same. unfold questionRow.
      destruct (truthy (kcId question)); repeat constructor. }
    destruct qs as [|question' qs'].
    + cbn [questionRows]. rewrite app_nil_r.
      replace (Z.max 0 (length [question] - 1)) with 0
        by (unfold length; cbn; lia).
      rewrite Z.add_0_r. exact Hrow.
    + specialize (IH (q + 1)). rewrite Hh in IH.
      rewrite !length_cons in *.
      pose proof (length_nonneg qs') as Hl.
      replace (10 + hours q + Z.max 0 (length qs' + 1 + 1 - 1) - 24 * dayOffset)
        with (10 + (hours q + 1) + Z.max 0 (length qs' + 1 - 1) - 24 * dayOffset)
        by lia.
      eapply ordered_between_app; [exact Hrow | exact IH | lia | lia | lia].
Qed.

Lemma completion_rows_ordered (groupId : Z) (enrollment : Enrollment)
    (lesson : LessonData) (t t' : Z) :
  t <= t' ->
  ordered_between t t'
    [lessonCompletedRow groupId enrollment lesson t;
     masteryResponseRow enrollment lesson t';
     masteryCompletedRow groupId enrollment lesson t'].
Proof.
  intros Ht.
  apply (ordered_between_app t t t' t'
           [lessonCompletedRow groupId enrollment lesson t]
           [masteryResponseRow enrollment lesson t';
            masteryCompletedRow groupId enrollment lesson t']);
    try lia; apply ordered_between_same; repeat constructor.
Qed.

Lemma three_parts_ordered (lo1 hi1 lo2 hi2 lo3 hi3 : Z)
    (rows1 rows2 rows3 : list DbWrite) :
  ordered_between lo1 hi1 rows1 -> ordered_between lo2 hi2 rows2 ->
  ordered_between lo3 hi3 rows3 ->
  hi1 <= lo2 -> hi2 <= lo3 -> lo1 <= lo2 -> lo2 <= lo3 ->
  hi1 <= hi2 -> hi2 <= hi3 ->
  StronglySorted Z.le (map timestamp (rows1 ++ rows2 ++ rows3)).
Proof.
  intros H1 H2 H3 A B C D E F.
  refine (proj1 (ordered_between_app lo1 hi1 lo2 hi3 rows1 (rows2 ++ rows3)
                   H1 _ A C ltac:(lia))).
  apply (ordered_between_app lo2 hi2 lo3 hi3); assumption.
Qed.

(** X18. The order of the timestamps holds for a lesson that is not split on
    the day of offset 1: with descending windows, a lesson of
    at most 26 questions scheduled on a day of offset at least 1 and,
    when it is split, on a day of offset above 1 or with at most 3
    questions, the rows that the main pass, the second pass and the pass
    over the delayed mastery checks write for it carry timestamps in
    order: shown and answered question by question, then the lesson
    completion, then the mastery check. *)
Lemma lesson_timestamps_ordered (groupId : Z) (enrollment : Enrollment)
    (i moduleIndex : Z) (windows : list (list Z))
    (moduleDays availableDays : list Z) (perLesson : intnum) (lessonIdx : Z)
    (lesson : LessonData) (dayIdxOffset : intnum) (idx day1Offset : Z) :
  let n := length (questions lesson) in
  descending moduleDays -> descending availableDays ->
  get windows (Int moduleIndex) = Some moduleDays ->
  Math_min dayIdxOffset (Int (length availableDays - 1)) = Int idx ->
  get availableDays (Int idx) = Some day1Offset ->
  1 <= day1Offset -> n <= 26 ->
  (splitLesson i lessonIdx moduleIndex n = true -> 1 < day1Offset \/ n <= 3) ->
  exists next o day2 delayed,
    scheduleLesson groupId enrollment i moduleIndex moduleDays availableDays
      perLesson lessonIdx lesson dayIdxOffset = Done (next, o)
    /\ for_of (partialLessonProgress o) (continueLesson groupId windows)
       = Done (tt, day2)
    /\ for_of (pendingMasteryChecks o ++ pendingMasteryChecks day2)
         (completeMasteryCheck groupId) = Done (tt, delayed)
    /\ StronglySorted Z.le
         (map timestamp (writes o ++ writes day2 ++ writes delayed)).
Proof.
  intros n Hmd Had Hwin Hmin Hget Hd1 Hn Hcase.
  pose proof (length_nonneg (questions lesson)) as Hn0. fold n in Hn0.
  assert (Hid : forall k : Z, (fun q : Z => q) (k + 1) = (fun q : Z => q) k + 1)
    by (intros; reflexivity).
  pose proof (questionRows_ordered groupId enrollment lesson day1Offset
                (fun q => q) Hid) as Hday1.
  cbn beta in Hday1.
  destruct (splitLesson i lessonIdx moduleIndex n) eqn:Hsplit.
  - (* split *)
    rewrite (scheduleLesson_split groupId enrollment i moduleIndex moduleDays
               availableDays perLesson lessonIdx lesson dayIdxOffset idx
               day1Offset ltac:(fold n; lia) Hsplit Hmin Hget).
    fold n.
    assert (Hn2 : 2 <= n).
    { unfold splitLesson in Hsplit. apply andb_prop in Hsplit.
      destruct Hsplit as [_ H2]. apply Z.leb_le in H2. exact H2. }
    assert (Hh : 1 <= n / 2 <= n).
    { split; [apply Z.div_le_lower_bound; lia | apply Z.div_le_upper_bound; lia]. }
    assert (Hhalf : 2 * (n / 2) <= n <= 2 * (n / 2) + 1).
    { pose proof (Z.div_mod n 2 ltac:(lia)).
      pose proof (Z.mod_pos_bound n 2 ltac:(lia)). lia. }
    set (d2 := getNextWorkingDay day1Offset availableDays).
    assert (Hd2 : d2 <= day1Offset)
      by (apply getNextWorkingDay_not_earlier; assumption).
    assert (Hd2' : 1 < day1Offset -> d2 <= day1Offset - 1)
      by (apply getNextWorkingDay_later; assumption).
    assert (Hgap : n / 2 - 1 - 24 * day1Offset <= - 24 * d2).
    { destruct (Hcase eq_refl) as [Hlater | Hsmall].
      - specialize (Hd2' Hlater). lia.
      - lia. }
    set (p := {| partial_enrollment := enrollment; partial_lesson := lesson;
                 questionsCompleted := Int (n / 2);
                 partial_scheduledDayOffset := d2;
                 partial_moduleIndex := moduleIndex;
                 lessonIndex := lessonIdx |}).
    assert (Hcont : continueLesson groupId windows p
                    = Done (tt, continueLessonOut groupId p (n / 2) moduleDays)).
    { apply continueLesson_out; [reflexivity | cbn [partial_lesson p]; fold n; lia |].
      intros _. exact Hwin. }
    assert (Hh2 : forall k : Z, (fun q : Z => q - n / 2) (k + 1)
                                = (fun q : Z => q - n / 2) k + 1)
      by (intros; cbn beta; lia).
    pose proof (questionRows_ordered groupId enrollment lesson d2
                  (fun q => q - n / 2) Hh2
                  (from_index (questions lesson) (n / 2)) (n / 2)) as Hday2.
    cbn beta in Hday2.
    rewrite length_from_index in Hday2 by (fold n; lia). fold n in Hday2.
    specialize (Hday1 (firstn (Z.to_nat (n / 2)) (questions lesson)) 0).
    rewrite length_firstn in Hday1 by (fold n; lia).
    set (rows1 := questionRows groupId enrollment lesson day1Offset
                    (fun q => q) 0
                    (firstn (Z.to_nat (n / 2)) (questions lesson))) in *.
    set (rows2 := questionRows groupId enrollment lesson d2
                    (fun q => q - n / 2) (n / 2)
                    (from_index (questions lesson) (n / 2))) in *.
    set (t2 := 10 + (n - n / 2) - 24 * d2).
    assert (Hout : continueLessonOut groupId p (n / 2) moduleDays
                   = if delayMasteryCheck (lessonIdx + moduleIndex) && (1 <? d2)
                     then Build_Out
                            (rows2 ++ [lessonCompletedRow groupId enrollment lesson t2])
                            []
                            [{| pending_enrollment := enrollment;
                                pending_lesson := lesson;
                                pending_scheduledDayOffset :=
                                  getNextWorkingDay d2 moduleDays;
                                pending_moduleIndex := moduleIndex |}]
                     else Build_Out
                            (rows2 ++ completedWithMasteryRows groupId enrollment
                                        lesson t2) [] [])
      by reflexivity.
    rewrite Hout in Hcont. clear Hout.
    destruct (delayMasteryCheck (lessonIdx + moduleIndex) && (1 <? d2)) eqn:Hdelay.
    + (* the mastery check is delayed again *)
      apply andb_prop in Hdelay. destruct Hdelay as [_ Hlt].
      apply Z.ltb_lt in Hlt.
      pose proof (getNextWorkingDay_later d2 moduleDays Hmd Hlt) as Hnext.
      set (d3 := getNextWorkingDay d2 moduleDays) in *.
      do 4 eexists. split; [reflexivity|].
      cbn [partialLessonProgress pendingMasteryChecks writes for_of].
      rewrite Hcont. split; [reflexivity|].
      split; [reflexivity|].
      match goal with
      | |- StronglySorted _ (map _ ?L) =>
          replace L with
            (rows1 ++ rows2
             ++ [lessonCompletedRow groupId enrollment lesson t2;
                 masteryResponseRow enrollment lesson (10 + 2 - 24 * d3);
                 masteryCompletedRow groupId enrollment lesson
                   (10 + 2 - 24 * d3)])
            by (cbn; rewrite <- ?app_assoc; reflexivity)
      end.
      eapply (three_parts_ordered _ _ (10 - 24 * d2) t2 t2 (10 + 2 - 24 * d3));
        [exact Hday1
        | eapply (ordered_between_weaken _ _ _ _ _ Hday2); subst t2; lia
        | apply completion_rows_ordered; subst t2; lia
        | .. ]; try (subst t2; lia).
    + (* the mastery check follows at once *)
      do 4 eexists. split; [reflexivity|].
      cbn [partialLessonProgress pendingMasteryChecks writes for_of].
      rewrite Hcont. split; [reflexivity|].
      split; [reflexivity|].
      match goal with
      | |- StronglySorted _ (map _ ?L) =>
          replace L with
            (rows1 ++ rows2
             ++ [lessonCompletedRow groupId enrollment lesson t2;
                 masteryResponseRow enrollment lesson t2;
                 masteryCompletedRow groupId enrollment lesson t2])
            by (cbn; rewrite <- ?app_assoc; rewrite ?app_nil_r; reflexivity)
      end.
      eapply (three_parts_ordered _ _ (10 - 24 * d2) t2 t2 t2);
        [exact Hday1
        | eapply (ordered_between_weaken _ _ _ _ _ Hday2); subst t2; lia
        | apply completion_rows_ordered; lia
        | .. ]; try (subst t2; lia).
  - (* not split *)
    rewrite (scheduleLesson_whole groupId enrollment i moduleIndex moduleDays
               availableDays perLesson lessonIdx lesson dayIdxOffset idx
               day1Offset Hsplit Hmin Hget).
    fold n. specialize (Hday1 (questions lesson) 0). fold n in Hday1.
    set (rows1 := questionRows groupId enrollment lesson day1Offset
                    (fun q => q) 0 (questions lesson)) in *.
    set (t1 := 10 + n - 24 * day1Offset).
    unfold completeTodayOut. fold t1.
    destruct (delayMasteryCheck (i + lessonIdx + moduleIndex) && (1 <? day1Offset))
      eqn:Hdelay.
    + apply andb_prop in Hdelay. destruct Hdelay as [_ Hlt].
      apply Z.ltb_lt in Hlt.
      pose proof (getNextWorkingDay_later day1Offset moduleDays Hmd Hlt) as Hnext.
      set (d3 := getNextWorkingDay day1Offset moduleDays) in *.
      do 4 eexists. split; [reflexivity|].
      cbn [out_app partialLessonProgress pendingMasteryChecks writes for_of app].
      split; [reflexivity|]. split; [reflexivity|].
      match goal with
      | |- StronglySorted _ (map _ ?L) =>
          replace L with
            (rows1 ++ []
             ++ [lessonCompletedRow groupId enrollment lesson t1;
                 masteryResponseRow enrollment lesson (10 + 2 - 24 * d3);
                 masteryCompletedRow groupId enrollment lesson
                   (10 + 2 - 24 * d3)])
            by (cbn; rewrite <- ?app_assoc; reflexivity)
      end.
      eapply (three_parts_ordered _ _ t1 t1 t1 (10 + 2 - 24 * d3));
        [exact Hday1
        | apply ordered_between_nil
        | apply completion_rows_ordered; subst t1; lia
        | .. ]; try (subst t1; lia).
    + do 4 eexists. split; [reflexivity|].
      cbn [out_app partialLessonProgress pendingMasteryChecks writes for_of app].
      split; [reflexivity|]. split; [reflexivity|].
      match goal with
      | |- StronglySorted _ (map _ ?L) =>
          replace L with
            (rows1 ++ []
             ++ [lessonCompletedRow groupId enrollment lesson t1;
                 masteryResponseRow enrollment lesson t1;
                 masteryCompletedRow groupId enrollment lesson t1])
            by (cbn; rewrite <- ?app_assoc; rewrite ?app_nil_r; reflexivity)
      end.
      eapply (three_parts_ordered _ _ t1 t1 t1 t1);
        [exact Hday1
        | apply ordered_between_nil
        | apply completion_rows_ordered; lia
        | .. ]; try (subst t1; lia).
Qed.

Lemma lesson_timestamps_ordered_witness :
  exists next o day2 delayed,
    scheduleLesson 7 (sampleEnrollment 0) 0 0 [3; 2; 1] [3; 2; 1] (Int 1) 0
      (sampleLesson 0 4) (Int 0) = Done (next, o)
    /\ for_of (partialLessonProgress o) (continueLesson 7 [[3; 2; 1]])
       = Done (tt, day2)
    /\ for_of (pendingMasteryChecks o ++ pendingMasteryChecks day2)
         (completeMasteryCheck 7) = Done (tt, delayed)
    /\ StronglySorted Z.le
         (map timestamp (writes o ++ writes day2 ++ writes delayed)).
Proof.
  apply (lesson_timestamps_ordered 7 (sampleEnrollment 0) 0 0 [[3; 2; 1]]
           [3; 2; 1] [3; 2; 1] (Int 1) 0 (sampleLesson 0 4) (Int 0) 0 3).
  - repeat constructor.
  - repeat constructor.
  - reflexivity.
  - reflexivity.
  - reflexivity.
  - lia.
  - vm_compute. discriminate.
  - intros _. left. lia.
Defined.

(** * Further properties of the seeding code *)

(** ** The working days (events.ts, lines 54-61) *)

Lemma workingDaysFrom_In (today : Z) (n : nat) (k d : Z) :
  In d (workingDaysFrom today n k)
  <-> k - Z.of_nat n < d <= k /\ getDay today d <> 0 /\ getDay today d <> 6.
Proof.
  revert k. induction n as [|n IH]; intros k.
  - cbn [workingDaysFrom]. split; [intros []|]. lia.
  - cbn [workingDaysFrom].
    destruct (negb (getDay today k =? 0) && negb (getDay today k =? 6))
      eqn:Hday.
    + apply andb_prop in Hday. destruct Hday as [H0 H6].
      apply negb_true_iff in H0, H6. apply Z.eqb_neq in H0, H6.
      cbn [In]. rewrite IH. split.
      * intros [<- | (Hd & Hw)]; [split; [lia | tauto] | split; [lia | tauto]].
      * intros (Hd & Hw).
        destruct (Z.eq_dec k d) as [-> | Hne]; [left; reflexivity | right].
        split; [lia | exact Hw].
    + rewrite IH. split.
      * intros (Hd & Hw). split; [lia | exact Hw].
      * intros (Hd & Hw0 & Hw6).
        destruct (Z.eq_dec k d) as [-> | Hne].
        -- exfalso. apply andb_false_iff in Hday.
           destruct Hday as [H | H]; apply negb_false_iff in H;
             apply Z.eqb_eq in H; contradiction.
        -- split; [lia | tauto].
Qed.

Lemma workingDaysFrom_descending (today : Z) (n : nat) (k : Z) :
  descending (workingDaysFrom today n k).
Proof.
  revert k. induction n as [|n IH]; intros k; cbn [workingDaysFrom].
  - constructor.
  - destruct (negb (getDay today k =? 0) && negb (getDay today k =? 6)).
    + constructor; [apply IH|].
      apply Forall_forall. intros d Hd.
      apply workingDaysFrom_In in Hd. lia.
    + apply IH.
Qed.

Lemma workingDaysOf_In (today daysToSeed d : Z) :
  In d (workingDaysOf today daysToSeed)
  <-> 1 <= d <= daysToSeed /\ getDay today d <> 0 /\ getDay today d <> 6.
Proof.
  unfold workingDaysOf. rewrite workingDaysFrom_In.
  destruct (Z_le_gt_dec 0 daysToSeed) as [Hpos | Hneg].
  - rewrite Z2Nat.id by exact Hpos.
    split; intros (Hd & Hw); (split; [lia | exact Hw]).
  - replace (Z.to_nat daysToSeed) with 0%nat by lia.
    split; intros (Hd & Hw); lia.
Qed.

(** X1. The working days of a run are the day offsets from 1 to
    [daysToSeed] that fall on a Monday to Friday, each once, from the
    oldest to the most recent. *)
Theorem working_days_are_the_weekdays (today daysToSeed : Z) :
  descending (workingDaysOf today daysToSeed)
  /\ forall d,
       In d (workingDaysOf today daysToSeed)
       <-> 1 <= d <= daysToSeed
           /\ getDay today d <> 0 /\ getDay today d <> 6.
Proof.
  split; [apply workingDaysFrom_descending | intros d; apply workingDaysOf_In].
Qed.

Lemma workingDaysFrom_length (today : Z) (n : nat) (k : Z) :
  length (workingDaysFrom today n k) <= Z.of_nat n.
Proof.
  revert k. induction n as [|n IH]; intros k; cbn [workingDaysFrom].
  - unfold length. cbn. lia.
  - destruct (negb (getDay today k =? 0) && negb (getDay today k =? 6)).
    + rewrite length_cons. specialize (IH (k - 1)). lia.
    + specialize (IH (k - 1)). lia.
Qed.

Lemma workingDaysOf_length (today daysToSeed : Z) :
  length (workingDaysOf today daysToSeed) <= Z.max 0 daysToSeed.
Proof.
  unfold workingDaysOf.
  pose proof (workingDaysFrom_length today (Z.to_nat daysToSeed) daysToSeed).
  lia.
Qed.


(** ** The windows of the modules (events.ts, lines 66-78) *)

Lemma moduleWorkingDays_concat (workingDays : list Z)
    (lessonsByModule : list (list LessonData)) :
  0 < totalLessons lessonsByModule < 2 ^ 53 ->
  length workingDays < 2 ^ 53 ->
  exists windows,
    moduleWorkingDays workingDays lessonsByModule = Done windows
    /\ List.concat windows = workingDays
    /\ List.length windows = List.length lessonsByModule.
Proof.
  intros Ht Hw.
  assert (Hne : lessonsByModule <> []).
  { intros ->. unfold totalLessons in Ht. cbn in Ht. lia. }
  destruct (moduleWorkingDays_form workingDays lessonsByModule Hne Ht Hw)
    as (front & lastw & d' & _ & Hd' & Hcat & Hlen & _ & Hwin).
  eexists. split; [exact Hwin|]. split.
  - rewrite concat_snoc, app_assoc, <- concat_snoc, Hcat. apply firstn_skipn.
  - rewrite <- Hlen. rewrite !List.length_app. reflexivity.
Qed.

Lemma descending_app (a b : list Z) :
  descending (a ++ b) -> descending a /\ descending b.
Proof.
  unfold descending. induction a as [|x a IH]; cbn [app]; intros H.
  - split; [constructor | exact H].
  - apply StronglySorted_inv in H. destruct H as [H Hall].
    destruct (IH H) as [Ha Hb]. split; [|exact Hb].
    constructor; [exact Ha|].
    apply Forall_app in Hall. tauto.
Qed.

Lemma descending_concat (ws : list (list Z)) :
  descending (List.concat ws) -> Forall descending ws.
Proof.
  induction ws as [|w ws IH]; cbn [List.concat]; intros H.
  - constructor.
  - apply descending_app in H. destruct H as [Hw Hws].
    constructor; [exact Hw | exact (IH Hws)].
Qed.

Lemma In_concat_window {A : Type} (ws : list (list A)) (w : list A) (x : A) :
  In w ws -> In x w -> In x (List.concat ws).
Proof. intros Hw Hx. apply in_concat. exists w. tauto. Qed.

(** X2. On the working days of a run, with a positive total number of
    lessons, the allocator returns one window per module, each window
    lists its days from the oldest to the most recent without repeating
    one, and every day of a window is a working day of the run: an
    offset from 1 to [daysToSeed] that falls on a Monday to Friday. *)
Theorem module_windows_descending (today daysToSeed : Z)
    (lessonsByModule : list (list LessonData)) :
  0 < totalLessons lessonsByModule < 2 ^ 53 ->
  daysToSeed < 2 ^ 53 ->
  exists windows,
    moduleWorkingDays (workingDaysOf today daysToSeed) lessonsByModule
    = Done windows
    /\ List.length windows = List.length lessonsByModule
    /\ Forall descending windows
    /\ forall moduleDays d,
         In moduleDays windows -> In d moduleDays ->
         1 <= d <= daysToSeed /\ getDay today d <> 0 /\ getDay today d <> 6.
Proof.
  intros Ht Hd.
  pose proof (workingDaysOf_length today daysToSeed) as Hlen.
  destruct (moduleWorkingDays_concat (workingDaysOf today daysToSeed)
              lessonsByModule Ht ltac:(lia)) as (windows & Hrun & Hcat & Hn).
  exists windows. split; [exact Hrun|]. split; [exact Hn|]. split.
  - apply descending_concat. rewrite Hcat. apply workingDaysFrom_descending.
  - intros moduleDays d Hw Hin. apply workingDaysOf_In.
    rewrite <- Hcat. exact (In_concat_window windows moduleDays d Hw Hin).
Qed.

Lemma module_windows_descending_witness :
  exists windows,
    moduleWorkingDays (workingDaysOf 4 10) (sampleModules 2 3 4) = Done windows
    /\ List.length windows = List.length (sampleModules 2 3 4)
    /\ Forall descending windows
    /\ forall moduleDays d,
         In moduleDays windows -> In d moduleDays ->
         1 <= d <= 10 /\ getDay 4 d <> 0 /\ getDay 4 d <> 6.
Proof.
  apply (module_windows_descending 4 10 (sampleModules 2 3 4)).
  - vm_compute. split; reflexivity.
  - reflexivity.
Defined.

(** ** Runs without modules, without lessons, without working days *)

Lemma scheduleModules_no_days (groupId : Z) (enrollment : Enrollment)
    (i nEnrollments : Z) (windows : list (list Z))
    (modules : list (list LessonData)) (k : nat) :
  Forall (fun w => w = []) windows ->
  (k + List.length modules <= List.length windows)%nat ->
  scheduleModules groupId enrollment i nEnrollments windows modules
    (Z.of_nat k) = ret tt.
Proof.
  intros Hall. revert k.
  induction modules as [|m rest IH]; intros k Hlen; cbn [scheduleModules].
  - reflexivity.
  - cbn [List.length] in Hlen.
    destruct (nth_error windows k) as [w|] eqn:Hw.
    2:{ apply nth_error_None in Hw. lia. }
    assert (w = []) as ->.
    { apply nth_error_In in Hw. rewrite Forall_forall in Hall. auto. }
    unfold get. replace (Z.of_nat k <? 0) with false by (symmetry; apply Z.ltb_ge; lia).
    rewrite Nat2Z.id, Hw. cbn [defined]. rewrite bind_done.
    rewrite scheduleModule_no_days.
    change (@Done (unit * Out) (tt, out_nil)) with (ret tt).
    rewrite bind_done.
    replace (Z.of_nat k + 1) with (Z.of_nat (S k)) by lia.
    rewrite IH by lia. reflexivity.
Qed.

Lemma scheduleStudents_no_days (groupId nEnrollments : Z)
    (windows : list (list Z)) (lessonsByModule : list (list LessonData))
    (enrollments : list Enrollment) (i : Z) :
  Forall (fun w => w = []) windows ->
  List.length windows = List.length lessonsByModule ->
  scheduleStudents groupId nEnrollments windows lessonsByModule enrollments i
  = ret tt.
Proof.
  intros Hall Hlen. revert i.
  induction enrollments as [|e rest IH]; intros i; cbn [scheduleStudents].
  - reflexivity.
  - pose proof (scheduleModules_no_days groupId e i nEnrollments windows
                  lessonsByModule 0 Hall ltac:(cbn; lia)) as Hm.
    change (Z.of_nat 0) with 0 in Hm. rewrite Hm.
    rewrite bind_done. rewrite IH. reflexivity.
Qed.

Lemma run_on_empty_windows (groupId : Z) (workingDays : list Z)
    (enrollments : list Enrollment)
    (lessonsByModule : list (list LessonData)) (windows : list (list Z)) :
  moduleWorkingDays workingDays lessonsByModule = Done windows ->
  Forall (fun w => w = []) windows ->
  List.length windows = List.length lessonsByModule ->
  seedProgressEventsOver groupId workingDays enrollments lessonsByModule
  = Done [].
Proof.
  intros Hrun Hall Hlen. unfold seedProgressEventsOver. rewrite Hrun.
  rewrite (scheduleStudents_no_days groupId (length enrollments) windows
             lessonsByModule enrollments 0 Hall Hlen).
  reflexivity.
Qed.

Lemma slice_nil {A : Type} (a b : intnum) : slice (@nil A) a b = [].
Proof. unfold slice. rewrite skipn_nil. apply firstn_nil. Qed.

Lemma allocateFrom_no_days (total : Z) (modules : list (list LessonData))
    (dayIndex : intnum) :
  let windows := fst (allocateFrom [] total modules dayIndex) in
  Forall (fun w => w = []) windows
  /\ List.length windows = List.length modules.
Proof.
  revert dayIndex. induction modules as [|m rest IH]; intros dayIndex.
  - cbn. split; [constructor | reflexivity].
  - cbn [allocateFrom].
    destruct (allocateFrom [] total rest _) as [windows final] eqn:Hrest.
    cbn [fst]. rewrite slice_nil.
    match type of Hrest with
    | allocateFrom _ _ _ ?e = _ => specialize (IH e)
    end.
    rewrite Hrest in IH. cbn [fst] in IH. destruct IH as [Hall Hlen].
    split; [constructor; [reflexivity | exact Hall] | cbn; lia].
Qed.

Lemma removelast_snoc_last_nil (windows : list (list Z)) :
  windows <> [] -> Forall (fun w => w = []) windows ->
  Forall (fun w => w = []) (removelast windows ++ [last windows [] ++ []])
  /\ List.length (removelast windows ++ [last windows [] ++ []])
     = List.length windows.
Proof.
  intros Hne Hall.
  rewrite app_nil_r. rewrite <- (app_removelast_last [] Hne). tauto.
Qed.

Lemma moduleWorkingDays_no_days (lessonsByModule : list (list LessonData)) :
  exists windows,
    moduleWorkingDays [] lessonsByModule = Done windows
    /\ Forall (fun w => w = []) windows
    /\ List.length windows = List.length lessonsByModule.
Proof.
  pose proof (allocateFrom_no_days (totalLessons lessonsByModule)
                lessonsByModule (Int 0)) as Hal.
  cbv zeta in Hal. destruct Hal as [Hall Hlen].
  unfold moduleWorkingDays.
  destruct (allocateFrom [] (totalLessons lessonsByModule) lessonsByModule
              (Int 0)) as [windows final] eqn:Ha.
  cbn [fst] in Hall, Hlen.
  destruct (lt final (Int (length []))) eqn:Hlt.
  - destruct windows as [|w ws].
    + destruct lessonsByModule as [|m rest]; [|discriminate Hlen].
      cbn in Ha. injection Ha as <-. discriminate Hlt.
    + assert (Hne : w :: ws <> []) by discriminate.
      unfold slice_from. rewrite slice_nil.
      destruct (removelast_snoc_last_nil (w :: ws) Hne Hall) as [H1 H2].
      eexists. split; [reflexivity|]. split; [exact H1 | lia].
  - exists windows. tauto.
Qed.

(** X3. With no working day to use (no day to seed, or only a weekend),
    the run inserts no row and raises nothing, whatever the students and
    the modules. *)
Theorem run_without_working_days (today daysToSeed groupId : Z)
    (enrollments : list Enrollment)
    (lessonsByModule : list (list LessonData)) :
  workingDaysOf today daysToSeed = [] ->
  seedProgressEventsForGroup today daysToSeed groupId enrollments
    lessonsByModule = Done [].
Proof.
  intros Hnil. unfold seedProgressEventsForGroup. rewrite Hnil.
  destruct (moduleWorkingDays_no_days lessonsByModule)
    as (windows & Hrun & Hall & Hlen).
  exact (run_on_empty_windows groupId [] enrollments lessonsByModule windows
           Hrun Hall Hlen).
Qed.

Lemma run_without_working_days_witness :
  seedProgressEventsForGroup 1 2 7 (sampleEnrollments 3) (sampleModules 2 3 4)
  = Done [].
Proof.
  apply (run_without_working_days 1 2 7 (sampleEnrollments 3)
           (sampleModules 2 3 4)).
  reflexivity.
Defined.



Lemma moduleDayCount_no_lessons (nWorkingDays : Z) :
  moduleDayCount 0 0 nWorkingDays = INaN.
Proof.
  unfold moduleDayCount. rewrite Binary64.ofInt_0.
  destruct (ofInt nWorkingDays); reflexivity.
Qed.

Lemma slice_to_nan {A : Type} (l : list A) (dayIndex : intnum) :
  dayIndex = Int 0 \/ dayIndex = INaN -> slice l dayIndex INaN = [].
Proof.
  intros [-> | ->]; unfold slice; cbn [relativeIndex].
  - pose proof (length_nonneg l).
    replace (0 <? 0) with false by reflexivity.
    replace (0 - Z.min 0 (length l)) with 0 by lia. reflexivity.
  - reflexivity.
Qed.

Lemma allocateFrom_no_lessons (workingDays : list Z)
    (modules : list (list LessonData)) (dayIndex : intnum) :
  Forall (fun m => m = []) modules ->
  dayIndex = Int 0 \/ dayIndex = INaN ->
  let '(windows, final) := allocateFrom workingDays 0 modules dayIndex in
  Forall (fun w => w = []) windows
  /\ List.length windows = List.length modules
  /\ final = match modules with [] => dayIndex | _ :: _ => INaN end.
Proof.
  intros Hall. revert dayIndex.
  induction Hall as [|m rest Hm Hall IH]; intros dayIndex Hd.
  - cbn. split; [constructor|]. split; reflexivity.
  - subst m. cbn [allocateFrom].
    change (length (@nil LessonData)) with 0.
    rewrite moduleDayCount_no_lessons.
    assert (Hend : Math_min (add dayIndex INaN) (Int (length workingDays)) = INaN).
    { destruct Hd as [-> | ->]; reflexivity. }
    rewrite Hend. specialize (IH INaN (or_intror eq_refl)).
    destruct (allocateFrom workingDays 0 rest INaN) as [windows final].
    destruct IH as (Hw & Hlen & Hfinal).
    rewrite (slice_to_nan workingDays dayIndex Hd).
    split; [constructor; [reflexivity | exact Hw]|].
    split; [cbn; lia|]. rewrite Hfinal. destruct rest; reflexivity.
Qed.

Lemma totalLessons_no_lessons (modules : list (list LessonData)) :
  Forall (fun m => m = []) modules -> totalLessons modules = 0.
Proof.
  intros Hall. induction Hall as [|m rest Hm Hall IH]; [reflexivity|].
  subst m. rewrite totalLessons_cons, IH. reflexivity.
Qed.

(** X5. When there are modules and none of them has a lesson, the run
    inserts no row and raises nothing: the share of every module is
    [0 / 0], a NaN that makes every window empty and leaves no day over. *)
Theorem run_without_lessons (groupId : Z) (workingDays : list Z)
    (enrollments : list Enrollment)
    (lessonsByModule : list (list LessonData)) :
  lessonsByModule <> [] ->
  Forall (fun m => m = []) lessonsByModule ->
  seedProgressEventsOver groupId workingDays enrollments lessonsByModule
  = Done [].
Proof.
  intros Hne Hall.
  pose proof (allocateFrom_no_lessons workingDays lessonsByModule (Int 0) Hall
                (or_introl eq_refl)) as Hal.
  assert (Hrun : moduleWorkingDays workingDays lessonsByModule
                 = Done (fst (allocateFrom workingDays 0 lessonsByModule (Int 0)))).
  { unfold moduleWorkingDays. rewrite (totalLessons_no_lessons _ Hall).
    destruct (allocateFrom workingDays 0 lessonsByModule (Int 0))
      as [windows final].
    destruct Hal as (_ & _ & Hfinal). rewrite Hfinal.
    destruct lessonsByModule; [contradiction | reflexivity]. }
  destruct (allocateFrom workingDays 0 lessonsByModule (Int 0))
    as [windows final].
  destruct Hal as (Hw & Hlen & _). cbn [fst] in Hrun.
  exact (run_on_empty_windows groupId workingDays enrollments lessonsByModule
           windows Hrun Hw Hlen).
Qed.

Lemma run_without_lessons_witness :
  seedProgressEventsOver 7 (workingDaysOf 2 45) (sampleEnrollments 13) [[]; []]
  = Done [].
Proof.
  apply (run_without_lessons 7 (workingDaysOf 2 45) (sampleEnrollments 13)
           [[]; []]).
  - discriminate.
  - repeat constructor.
Defined.

(** ** The whole run returns *)

(** X17. With at least one lesson, arrays within the lengths that
    JavaScript allows, and days and hours within the range of [Date] (at
    most [maxDateDays] days to seed, fewer than [maxDateHours] questions
    in a lesson), the run raises nothing, on any day of the week: the
    windows are computed, the walk stays in bounds, every split lesson
    finds the window of its module and every delayed mastery check is
    completed. *)
Theorem run_with_lessons_returns (today daysToSeed groupId : Z)
    (enrollments : list Enrollment)
    (lessonsByModule : list (list LessonData)) :
  0 < totalLessons lessonsByModule < 2 ^ 53 ->
  daysToSeed <= maxDateDays ->
  array_length_ok enrollments ->
  Forall array_length_ok lessonsByModule ->
  Forall (Forall (fun lesson => length (questions lesson) < maxDateHours))
    lessonsByModule ->
  exists log,
    seedProgressEventsForGroup today daysToSeed groupId enrollments
      lessonsByModule = Done log.
Proof.
  intros Ht Hd He Hm Hq. unfold seedProgressEventsForGroup.
  unfold maxDateDays in Hd.
  assert (Hq' : Forall (Forall (fun lesson => array_length_ok (questions lesson)))
                  lessonsByModule).
  { eapply Forall_impl; [|exact Hq]. intros m Hall.
    eapply Forall_impl; [|exact Hall]. intros lesson Hlen.
    unfold array_length_ok, maxDateHours in *.
    assert (2 ^ 31 < 2 ^ 32) by (apply Z.pow_lt_mono_r; lia). lia. }
  apply seedProgressEventsOver_total; try assumption.
  unfold array_length_ok.
  pose proof (workingDaysOf_length today daysToSeed).
  change (2 ^ 32) with 4294967296. lia.
Qed.

Lemma run_with_lessons_returns_witness :
  exists log,
    seedProgressEventsForGroup 2 45 7 (sampleEnrollments 13)
      (sampleModules 2 5 4) = Done log.
Proof.
  apply (run_with_lessons_returns 2 45 7 (sampleEnrollments 13)
           (sampleModules 2 5 4)).
  - vm_compute. split; reflexivity.
  - vm_compute. discriminate.
  - unfold array_length_ok. vm_compute. reflexivity.
  - repeat constructor.
  - repeat constructor.
Defined.

(** ** Lesson completions and mastery checks over the whole run *)

Lemma count_rows_app (f : DbWrite -> bool) (a b : list DbWrite) :
  count_rows f (a ++ b) = count_rows f a + count_rows f b.
Proof. unfold count_rows. rewrite filter_app. apply length_app. Qed.

Lemma balanced_nil : balanced out_nil.
Proof. split; reflexivity. Qed.

Lemma balanced_app (a b : Out) :
  balanced a -> balanced b -> balanced (out_app a b).
Proof.
  intros [Ha1 Ha2] [Hb1 Hb2]. unfold balanced, out_app.
  cbn [writes pendingMasteryChecks].
  rewrite !count_rows_app, length_app. lia.
Qed.

Section Keeps.

Variable P : Out -> Prop.
Hypothesis P_nil : P out_nil.
Hypothesis P_app : forall a b, P a -> P b -> P (out_app a b).

Lemma keeps_ret {A : Type} (a : A) : keeps P (ret a).
Proof. exact P_nil. Qed.

Lemma keeps_bind {A B : Type} (c : M A) (k : A -> M B) :
  keeps P c -> (forall a, keeps P (k a)) -> keeps P (bind c k).
Proof.
  intros Hc Hk. unfold bind. destruct c as [[a o1]|]; [|exact I].
  specialize (Hk a). destruct (k a) as [[b o2]|]; [|exact I].
  cbn in *. auto.
Qed.

Lemma keeps_defined {A : Type} (x : option A) : keeps P (defined x).
Proof. destruct x; [exact P_nil | exact I]. Qed.

Lemma keeps_for_index {A S : Type} (body : Z -> A -> S -> M S)
    (bound : intnum) :
  (forall j x t, keeps P (body j x t)) ->
  forall (rest : list A) (k : Z) (s : S),
    keeps P (for_index rest k bound body s).
Proof.
  intros Hbody. induction rest as [|x rest IH]; intros k s;
    cbn [for_index]; destruct (lt (Int k) bound);
    try exact I; try exact P_nil.
  apply keeps_bind; [apply Hbody | intros s'; apply IH].
Qed.

Lemma keeps_for_of {A : Type} (body : A -> M unit) :
  (forall x, keeps P (body x)) ->
  forall arr : list A, keeps P (for_of arr body).
Proof.
  intros Hbody. induction arr as [|x arr IH]; cbn [for_of].
  - exact P_nil.
  - apply keeps_bind; [apply Hbody | intros _; exact IH].
Qed.

End Keeps.

Lemma questionRow_counts (groupId : Z) (enrollment : Enrollment)
    (lesson : LessonData) (question : LessonQuestion) (ts : Z) :
  balanced (Build_Out (questionRow groupId enrollment lesson question ts) [] []).
Proof.
  unfold questionRow. destruct (truthy (kcId question)); split; reflexivity.
Qed.

Lemma answerQuestion_balanced (groupId : Z) (enrollment : Enrollment)
    (lesson : LessonData) (dayOffset : Z) (hours : intnum) (q : Z)
    (question : LessonQuestion) :
  keeps balanced
    (answerQuestion groupId enrollment lesson dayOffset hours q question).
Proof.
  destruct hours as [h | s |]; [|exact I | exact I].
  rewrite answerQuestion_rows. apply questionRow_counts.
Qed.

Lemma completeToday_balanced (groupId : Z) (enrollment : Enrollment)
    (lesson : LessonData) (i lessonIdx moduleIndex day1Offset : Z)
    (answered : intnum) (moduleDays : list Z) :
  keeps balanced
    (completeToday groupId enrollment lesson i lessonIdx moduleIndex
       day1Offset answered moduleDays).
Proof.
  destruct answered as [a | s |]; [|exact I | exact I].
  rewrite completeToday_out. unfold completeTodayOut, keeps.
  destruct (delayMasteryCheck (i + lessonIdx + moduleIndex) && (1 <? day1Offset));
    split; reflexivity.
Qed.

Lemma push_partial_balanced (p : PartialLessonProgress) :
  keeps balanced (push_partial p).
Proof. split; reflexivity. Qed.

Lemma scheduleLesson_balanced (groupId : Z) (enrollment : Enrollment)
    (i moduleIndex : Z) (moduleDays availableDays : list Z)
    (perLesson : intnum) (lessonIdx : Z) (lesson : LessonData)
    (dayIdxOffset : intnum) :
  keeps balanced
    (scheduleLesson groupId enrollment i moduleIndex moduleDays availableDays
       perLesson lessonIdx lesson dayIdxOffset).
Proof.
  unfold scheduleLesson.
  apply (keeps_bind balanced balanced_app);
    [apply (keeps_defined balanced balanced_nil)|].
  intros day1Offset.
  apply (keeps_bind balanced balanced_app).
  - apply (keeps_for_index balanced balanced_nil balanced_app).
    intros j x t. apply answerQuestion_balanced.
  - intros _.
    destruct (splitLesson i lessonIdx moduleIndex (length (questions lesson))
              && lt (Int 0)
                   (questionsDay2
                      (splitLesson i lessonIdx moduleIndex
                         (length (questions lesson)))
                      (length (questions lesson)))).
    + apply (keeps_bind balanced balanced_app);
        [apply push_partial_balanced | intros _; exact balanced_nil].
    + apply (keeps_bind balanced balanced_app);
        [apply completeToday_balanced | intros _; exact balanced_nil].
Qed.

Lemma scheduleModule_balanced (groupId : Z) (enrollment : Enrollment)
    (i nEnrollments moduleIndex : Z) (moduleLessons : list LessonData)
    (moduleDays : list Z) :
  keeps balanced
    (scheduleModule groupId enrollment i nEnrollments moduleIndex
       moduleLessons moduleDays).
Proof.
  unfold scheduleModule.
  destruct (length moduleDays =? 0); [exact balanced_nil|].
  destruct (strict_eq (lessonsToCompleteInModule moduleLessons i) (Int 0));
    [exact balanced_nil|].
  destruct (length (slice_from moduleDays
                      (startDayIndex i nEnrollments moduleDays)) =? 0);
    [exact balanced_nil|].
  apply (keeps_bind balanced balanced_app); [|intros _; exact balanced_nil].
  apply (keeps_for_index balanced balanced_nil balanced_app).
  intros j x t. apply scheduleLesson_balanced.
Qed.

Lemma scheduleModules_balanced (groupId : Z) (enrollment : Enrollment)
    (i nEnrollments : Z) (windows : list (list Z))
    (modules : list (list LessonData)) :
  forall moduleIndex,
    keeps balanced
      (scheduleModules groupId enrollment i nEnrollments windows modules
         moduleIndex).
Proof.
  induction modules as [|m rest IH]; intros moduleIndex;
    cbn [scheduleModules]; [exact balanced_nil|].
  apply (keeps_bind balanced balanced_app);
    [apply (keeps_defined balanced balanced_nil)|].
  intros moduleDays.
  apply (keeps_bind balanced balanced_app);
    [apply scheduleModule_balanced | intros _; apply IH].
Qed.

Lemma scheduleStudents_balanced (groupId nEnrollments : Z)
    (windows : list (list Z)) (lessonsByModule : list (list LessonData))
    (enrollments : list Enrollment) :
  forall i,
    keeps balanced
      (scheduleStudents groupId nEnrollments windows lessonsByModule
         enrollments i).
Proof.
  induction enrollments as [|e rest IH]; intros i;
    cbn [scheduleStudents]; [exact balanced_nil|].
  apply (keeps_bind balanced balanced_app);
    [apply scheduleModules_balanced | intros _; apply IH].
Qed.

Lemma questionRows_balanced (groupId : Z) (enrollment : Enrollment)
    (lesson : LessonData) (dayOffset : Z) (hours : Z -> Z) :
  forall (qs : list LessonQuestion) (q : Z),
    count_rows is_lesson_completed
      (questionRows groupId enrollment lesson dayOffset hours q qs) = 0
    /\ count_rows is_mastery_completed
         (questionRows groupId enrollment lesson dayOffset hours q qs) = 0
    /\ count_rows is_mastery_response
         (questionRows groupId enrollment lesson dayOffset hours q qs) = 0.
Proof.
  induction qs as [|question qs IH]; intros q; cbn [questionRows].
  - repeat split.
  - rewrite !count_rows_app. destruct (IH (q + 1)) as (-> & -> & ->).
    unfold questionRow. destruct (truthy (kcId question)); repeat split.
Qed.

Lemma continueLesson_balanced (groupId : Z) (windows : list (list Z))
    (partial : PartialLessonProgress) :
  keeps balanced (continueLesson groupId windows partial).
Proof.
  unfold continueLesson.
  destruct (questionsCompleted partial) as [done | s |]; [|exact I | exact I].
  apply (keeps_bind balanced balanced_app).
  - apply (keeps_for_index balanced balanced_nil balanced_app).
    intros j x t. apply answerQuestion_balanced.
  - intros _. unfold getTimestampDaysAgo. rewrite bind_done.
    destruct (delayMasteryCheck (lessonIndex partial + partial_moduleIndex partial)
              && (1 <? partial_scheduledDayOffset partial)).
    + destruct (get windows (Int (partial_moduleIndex partial)));
        [split; reflexivity | exact I].
    + split; reflexivity.
Qed.

(** The pass over the delayed mastery checks writes a response and a
    completion for each of them. *)
Lemma completeMasteryChecks_counts (groupId : Z) :
  forall pending : list PendingMasteryCheck,
    exists o,
      for_of pending (completeMasteryCheck groupId) = Done (tt, o)
      /\ count_rows is_lesson_completed (writes o) = 0
      /\ count_rows is_mastery_completed (writes o) = length pending
      /\ count_rows is_mastery_response (writes o) = length pending.
Proof.
  induction pending as [|p rest IH]; cbn [for_of].
  - exists out_nil. repeat split.
  - destruct IH as (o & Hrun & Hc & Hm & Hr). rewrite Hrun.
    eexists. split; [reflexivity|].
    rewrite length_cons. cbn [out_app writes out_nil app].
    unfold count_rows in *.
    cbn [filter is_lesson_completed is_mastery_completed is_mastery_response
         type].
    rewrite ?length_cons. lia.
Qed.

(** X6. In the rows of a run there are as many mastery check completions
    ([ASSIGNMENT_COMPLETED]) as lesson completions ([LESSON_COMPLETED]):
    every lesson that is completed, on its day or on the second day of a
    split, gets its mastery check completed, at once or from the queue of
    the delayed ones. *)
Theorem completed_lessons_get_mastery_checks (groupId : Z)
    (workingDays : list Z) (enrollments : list Enrollment)
    (lessonsByModule : list (list LessonData)) (log : list DbWrite) :
  seedProgressEventsOver groupId workingDays enrollments lessonsByModule
  = Done log ->
  count_rows is_mastery_completed log = count_rows is_lesson_completed log.
Proof.
  unfold seedProgressEventsOver.
  destruct (moduleWorkingDays workingDays lessonsByModule) as [windows|];
    [|discriminate].
  pose proof (scheduleStudents_balanced groupId (length enrollments) windows
                lessonsByModule enrollments 0) as Hwalk.
  destruct (scheduleStudents groupId (length enrollments) windows
              lessonsByModule enrollments 0) as [[[] walk]|]; [|discriminate].
  pose proof (keeps_for_of balanced balanced_nil balanced_app
                (continueLesson groupId windows)
                (continueLesson_balanced groupId windows)
                (partialLessonProgress walk)) as Hday2.
  destruct (for_of (partialLessonProgress walk) (continueLesson groupId windows))
    as [[[] day2]|]; [|discriminate].
  destruct (completeMasteryChecks_counts groupId
              (pendingMasteryChecks walk ++ pendingMasteryChecks day2))
    as (delayed & Hrun & Hc & Hm & Hr).
  rewrite Hrun. intros H. injection H as <-.
  cbn [keeps] in Hwalk, Hday2.
  destruct Hwalk as [Hw1 Hw2]. destruct Hday2 as [Hd1 Hd2].
  rewrite !count_rows_app. rewrite length_app in Hm, Hr. lia.
Qed.

Lemma completed_lessons_get_mastery_checks_witness :
  let log := match seedProgressEventsForGroup 4 3 7 (sampleEnrollments 2)
                     (sampleModules 1 2 4) with
             | Done log => log
             | Throw => []
             end in
  count_rows is_mastery_completed log = count_rows is_lesson_completed log.
Proof.
  apply (completed_lessons_get_mastery_checks 7 (workingDaysOf 4 3)
           (sampleEnrollments 2) (sampleModules 1 2 4)).
  vm_compute. reflexivity.
Defined.

(** ** The dates of the rows of a run *)

Ltac dated :=
  unfold dated_within, seeded_day, lessonCompletedRow, masteryResponseRow,
    masteryCompletedRow in *;
  cbn [timestamp created_at] in *; lia.

Lemma within_nil (D : Z) : within D out_nil.
Proof. repeat split; constructor. Qed.

Lemma within_app (D : Z) (a b : Out) :
  within D a -> within D b -> within D (out_app a b).
Proof.
  intros (A1 & A2 & A3) (B1 & B2 & B3). unfold within, out_app.
  cbn [writes partialLessonProgress pendingMasteryChecks].
  repeat split; apply Forall_app; split; assumption.
Qed.

Lemma keeps_for_index_in {A S : Type} (P : Out -> Prop)
    (body : Z -> A -> S -> M S) (bound : intnum) :
  P out_nil -> (forall a b, P a -> P b -> P (out_app a b)) ->
  forall (rest : list A) (k : Z) (s : S),
    (forall j x t, In x rest -> keeps P (body j x t)) ->
    keeps P (for_index rest k bound body s).
Proof.
  intros Hnil Happ. induction rest as [|x rest IH]; intros k s Hbody;
    cbn [for_index]; destruct (lt (Int k) bound);
    try exact I; try exact Hnil.
  apply (keeps_bind P Happ).
  - apply Hbody. left. reflexivity.
  - intros s'. apply IH. intros j y t Hin. apply Hbody. right. exact Hin.
Qed.

Lemma keeps_for_of_in {A : Type} (P : Out -> Prop) (body : A -> M unit) :
  P out_nil -> (forall a b, P a -> P b -> P (out_app a b)) ->
  forall arr : list A,
    (forall x, In x arr -> keeps P (body x)) ->
    keeps P (for_of arr body).
Proof.
  intros Hnil Happ. induction arr as [|x arr IH]; intros Hbody; cbn [for_of].
  - exact Hnil.
  - apply (keeps_bind P Happ).
    + apply Hbody. left. reflexivity.
    + intros _. apply IH. intros y Hin. apply Hbody. right. exact Hin.
Qed.

Lemma bind_throws {A B : Type} (c : M A) (k : A -> M B) :
  (forall a, k a = Throw) -> bind c k = Throw.
Proof.
  intros Hk. unfold bind. destruct c as [[a o]|]; [|reflexivity].
  rewrite Hk. reflexivity.
Qed.

(** The rows of the questions of a seeded day, at most 13 hours after 10
    o'clock. *)
Lemma questionRows_dated (D groupId : Z) (enrollment : Enrollment)
    (lesson : LessonData) (d : Z) (hours : Z -> Z) (qs : list LessonQuestion)
    (q : Z) :
  (forall k, hours (k + 1) = hours k + 1) ->
  seeded_day D d -> 0 <= hours q -> hours q + length qs <= 14 ->
  Forall (dated_within D)
    (questionRows groupId enrollment lesson d hours q qs).
Proof.
  intros Hh Hd H0 Hn.
  destruct qs as [|question qs]; [constructor|].
  destruct (questionRows_ordered groupId enrollment lesson d hours Hh
              (question :: qs) q) as [_ Hb].
  eapply Forall_impl; [|exact Hb]. cbn beta. intros w Hw.
  unfold dated_within, seeded_day in *.
  rewrite length_cons in *. pose proof (length_nonneg qs). lia.
Qed.

Lemma indexOf_from_bounds (l : list Z) (x k : Z) :
  indexOf_from l x k = -1 \/ k <= indexOf_from l x k < k + length l.
Proof.
  revert k. induction l as [|y l IH]; intros k; cbn [indexOf_from].
  - left. reflexivity.
  - rewrite length_cons. pose proof (length_nonneg l).
    destruct (y =? x); [right; lia|].
    destruct (IH (k + 1)) as [-> | Hb]; [left; reflexivity | right; lia].
Qed.

(** The next working day of a seeded day, in a window of seeded days. *)
Lemma getNextWorkingDay_seeded (D c : Z) (s : list Z) :
  seeded_day D c -> Forall (seeded_day D) s ->
  seeded_day D (getNextWorkingDay c s).
Proof.
  intros Hc Hs. unfold getNextWorkingDay, indexOf.
  destruct (indexOf_from_bounds s c 0) as [E | Hb].
  - rewrite E, Z.eqb_refl. cbn [orb]. unfold seeded_day in *. lia.
  - destruct ((indexOf_from s c 0 =? -1)
              || (indexOf_from s c 0 =? length s - 1)) eqn:Hcond.
    + unfold seeded_day in *. lia.
    + apply orb_false_iff in Hcond. destruct Hcond as [_ Hlast].
      apply Z.eqb_neq in Hlast.
      rewrite Forall_forall in Hs. apply Hs. apply nth_In.
      unfold length in *. lia.
Qed.

Lemma completeTodayOut_within (D groupId : Z) (enrollment : Enrollment)
    (lesson : LessonData) (sum day1Offset moduleIndex : Z)
    (moduleDays : list Z) :
  seeded_day D day1Offset -> Forall (seeded_day D) moduleDays ->
  length (questions lesson) <= 13 ->
  within D (completeTodayOut groupId enrollment lesson sum day1Offset
              (length (questions lesson)) moduleIndex moduleDays).
Proof.
  intros Hd Hmd Hn. unfold completeTodayOut.
  pose proof (length_nonneg (questions lesson)) as Hn0.
  assert (Hts : dated_within D
                  (lessonCompletedRow groupId enrollment lesson
                     (10 + length (questions lesson) - 24 * day1Offset))).
  { dated. }
  destruct (delayMasteryCheck sum && (1 <? day1Offset)).
  - split; [|split]; cbn [writes partialLessonProgress pendingMasteryChecks].
    + constructor; [exact Hts | constructor].
    + constructor.
    + constructor; [|constructor]. cbn [pending_scheduledDayOffset].
      apply getNextWorkingDay_seeded; assumption.
  - split; [|split]; cbn [writes partialLessonProgress pendingMasteryChecks];
      [|constructor | constructor].
    unfold completedWithMasteryRows.
    repeat constructor; dated.
Qed.

Lemma In_firstn {A : Type} (n : nat) (l : list A) (x : A) :
  In x (firstn n l) -> In x l.
Proof.
  intros H. rewrite <- (firstn_skipn n l). apply in_or_app. left. exact H.
Qed.

Lemma In_skipn {A : Type} (n : nat) (l : list A) (x : A) :
  In x (skipn n l) -> In x l.
Proof.
  intros H. rewrite <- (firstn_skipn n l). apply in_or_app. right. exact H.
Qed.

Lemma In_slice {A : Type} (l : list A) (a b : intnum) (x : A) :
  In x (slice l a b) -> In x l.
Proof. unfold slice. intros H. apply In_firstn, In_skipn in H. exact H. Qed.

Lemma Forall_slice {A : Type} (P : A -> Prop) (l : list A) (a b : intnum) :
  Forall P l -> Forall P (slice l a b).
Proof.
  intros H. rewrite Forall_forall in *. intros x Hx. apply H.
  exact (In_slice l a b x Hx).
Qed.

Lemma get_In {A : Type} (l : list A) (x : intnum) (a : A) :
  get l x = Some a -> In a l.
Proof.
  unfold get. destruct x as [z | |]; try discriminate.
  destruct (z <? 0); [discriminate|]. apply nth_error_In.
Qed.

Lemma scheduleLesson_within (D groupId : Z) (enrollment : Enrollment)
    (i moduleIndex : Z) (moduleDays availableDays : list Z)
    (perLesson : intnum) (lessonIdx : Z) (lesson : LessonData)
    (dayIdxOffset : intnum) :
  Forall (seeded_day D) moduleDays -> Forall (seeded_day D) availableDays ->
  length (questions lesson) <= 13 ->
  keeps (within D)
    (scheduleLesson groupId enrollment i moduleIndex moduleDays availableDays
       perLesson lessonIdx lesson dayIdxOffset).
Proof.
  intros Hmd Had Hn.
  pose proof (length_nonneg (questions lesson)) as Hn0.
  destruct (Math_min dayIdxOffset (Int (length availableDays - 1)))
    as [idx | s |] eqn:Hmin;
    [| unfold scheduleLesson; rewrite Hmin; exact I
     | unfold scheduleLesson; rewrite Hmin; exact I].
  destruct (get availableDays (Int idx)) as [day1Offset|] eqn:Hget;
    [| unfold scheduleLesson; rewrite Hmin, Hget; exact I].
  assert (Hd : seeded_day D day1Offset).
  { rewrite Forall_forall in Had. apply Had. exact (get_In _ _ _ Hget). }
  destruct (splitLesson i lessonIdx moduleIndex (length (questions lesson)))
    eqn:Hsplit.
  - rewrite (scheduleLesson_split groupId enrollment i moduleIndex moduleDays
               availableDays perLesson lessonIdx lesson dayIdxOffset idx
               day1Offset ltac:(lia) Hsplit Hmin Hget).
    cbn [keeps].
    assert (Hh : 0 <= length (questions lesson) / 2
                 <= length (questions lesson)).
    { split; [apply Z.div_pos; lia | apply Z.div_le_upper_bound; lia]. }
    split; [|split]; cbn [writes partialLessonProgress pendingMasteryChecks].
    + apply questionRows_dated; [intros; reflexivity | exact Hd | lia |].
      rewrite length_firstn by lia. lia.
    + constructor; [|constructor]. split; [|split].
      * cbn [partial_scheduledDayOffset].
        apply getNextWorkingDay_seeded; assumption.
      * exact Hn.
      * eexists. split; [reflexivity | exact Hh].
    + constructor.
  - rewrite (scheduleLesson_whole groupId enrollment i moduleIndex moduleDays
               availableDays perLesson lessonIdx lesson dayIdxOffset idx
               day1Offset Hsplit Hmin Hget).
    cbn [keeps]. apply within_app.
    + split; [|split]; cbn [writes partialLessonProgress pendingMasteryChecks];
        [|constructor | constructor].
      apply questionRows_dated; [intros; reflexivity | exact Hd | lia | lia].
    + apply completeTodayOut_within; assumption.
Qed.

Lemma scheduleModule_within (D groupId : Z) (enrollment : Enrollment)
    (i nEnrollments moduleIndex : Z) (moduleLessons : list LessonData)
    (moduleDays : list Z) :
  Forall (seeded_day D) moduleDays ->
  Forall (fun lesson => length (questions lesson) <= 13) moduleLessons ->
  keeps (within D)
    (scheduleModule groupId enrollment i nEnrollments moduleIndex
       moduleLessons moduleDays).
Proof.
  intros Hmd Hq. unfold scheduleModule.
  destruct (length moduleDays =? 0); [apply within_nil|].
  destruct (strict_eq (lessonsToCompleteInModule moduleLessons i) (Int 0));
    [apply within_nil|].
  destruct (length (slice_from moduleDays
                      (startDayIndex i nEnrollments moduleDays)) =? 0);
    [apply within_nil|].
  apply (keeps_bind (within D) (within_app D));
    [|intros _; apply within_nil].
  apply (keeps_for_index_in (within D) _ _ (within_nil D) (within_app D)).
  intros j lesson t Hin. apply scheduleLesson_within.
  - exact Hmd.
  - unfold slice_from. apply Forall_slice. exact Hmd.
  - rewrite Forall_forall in Hq. apply Hq. exact Hin.
Qed.

Lemma scheduleModules_within (D groupId : Z) (enrollment : Enrollment)
    (i nEnrollments : Z) (windows : list (list Z)) :
  Forall (Forall (seeded_day D)) windows ->
  forall (modules : list (list LessonData)) (moduleIndex : Z),
    Forall (Forall (fun lesson => length (questions lesson) <= 13)) modules ->
    keeps (within D)
      (scheduleModules groupId enrollment i nEnrollments windows modules
         moduleIndex).
Proof.
  intros Hw. induction modules as [|m rest IH]; intros moduleIndex Hq;
    cbn [scheduleModules]; [apply within_nil|].
  apply Forall_cons_iff in Hq. destruct Hq as [Hm Hrest].
  destruct (get windows (Int moduleIndex)) as [moduleDays|] eqn:Hget;
    [|exact I].
  cbn [defined]. rewrite bind_done.
  apply (keeps_bind (within D) (within_app D)).
  - apply scheduleModule_within; [|exact Hm].
    rewrite Forall_forall in Hw. apply Hw. exact (get_In _ _ _ Hget).
  - intros _. apply IH. exact Hrest.
Qed.

Lemma scheduleStudents_within (D groupId nEnrollments : Z)
    (windows : list (list Z)) (lessonsByModule : list (list LessonData)) :
  Forall (Forall (seeded_day D)) windows ->
  Forall (Forall (fun lesson => length (questions lesson) <= 13))
    lessonsByModule ->
  forall (enrollments : list Enrollment) (i : Z),
    keeps (within D)
      (scheduleStudents groupId nEnrollments windows lessonsByModule
         enrollments i).
Proof.
  intros Hw Hq. induction enrollments as [|e rest IH]; intros i;
    cbn [scheduleStudents]; [apply within_nil|].
  apply (keeps_bind (within D) (within_app D));
    [apply scheduleModules_within; assumption | intros _; apply IH].
Qed.

Lemma continueLesson_within (D groupId : Z) (windows : list (list Z))
    (partial : PartialLessonProgress) :
  Forall (Forall (seeded_day D)) windows ->
  partial_within D partial ->
  keeps (within D) (continueLesson groupId windows partial).
Proof.
  intros Hw (Hd & Hn & done & Hdone & Hb).
  pose proof (length_nonneg (questions (partial_lesson partial))) as Hn0.
  assert (Hout : forall moduleDays,
             Forall (seeded_day D) moduleDays ->
             within D (continueLessonOut groupId partial done moduleDays)).
  { intros moduleDays Hmd. unfold continueLessonOut.
    assert (Hrows : Forall (dated_within D)
              (questionRows groupId (partial_enrollment partial)
                 (partial_lesson partial) (partial_scheduledDayOffset partial)
                 (fun q => q - done) done
                 (from_index (questions (partial_lesson partial)) done))).
    { apply questionRows_dated; [intros; cbn beta; lia | exact Hd | lia |].
      rewrite length_from_index by lia. lia. }
    assert (Hts : 10 - 24 * D
                  <= 10 + (length (questions (partial_lesson partial)) - done)
                     - 24 * partial_scheduledDayOffset partial < 0)
      by (unfold seeded_day in Hd; lia).
    destruct (delayMasteryCheck (lessonIndex partial + partial_moduleIndex partial)
              && (1 <? partial_scheduledDayOffset partial));
      (split; [|split]); cbn [writes partialLessonProgress pendingMasteryChecks];
      try constructor.
    - apply Forall_app. split; [exact Hrows|].
      constructor; [dated | constructor].
    - cbn [pending_scheduledDayOffset].
      apply getNextWorkingDay_seeded; assumption.
    - constructor.
    - apply Forall_app. split; [exact Hrows|].
      unfold completedWithMasteryRows.
      repeat constructor; dated. }
  destruct (get windows (Int (partial_moduleIndex partial)))
    as [moduleDays|] eqn:Hget.
  - rewrite (continueLesson_out groupId windows partial done moduleDays Hdone Hb
               (fun _ => Hget)).
    apply Hout. rewrite Forall_forall in Hw. apply Hw.
    exact (get_In _ _ _ Hget).
  - destruct (delayMasteryCheck (lessonIndex partial + partial_moduleIndex partial)
              && (1 <? partial_scheduledDayOffset partial)) eqn:Hdelay.
    + replace (continueLesson groupId windows partial) with (@Throw (unit * Out));
        [exact I|].
      symmetry. unfold continueLesson. rewrite Hdone, Hget, Hdelay.
      apply bind_throws. intros _. apply bind_throws. intros ts.
      apply bind_throws. intros _. reflexivity.
    + rewrite (continueLesson_out groupId windows partial done [] Hdone Hb).
      * apply Hout. constructor.
      * rewrite Hdelay. discriminate.
Qed.

Lemma completeMasteryChecks_within (D groupId : Z) :
  forall pending : list PendingMasteryCheck,
    Forall (fun p => seeded_day D (pending_scheduledDayOffset p)) pending ->
    exists o,
      for_of pending (completeMasteryCheck groupId) = Done (tt, o)
      /\ Forall (dated_within D) (writes o).
Proof.
  induction pending as [|p rest IH]; intros Hall; cbn [for_of].
  - exists out_nil. split; [reflexivity | constructor].
  - apply Forall_cons_iff in Hall. destruct Hall as [Hp Hrest].
    destruct (IH Hrest) as (o & Hrun & Ho). rewrite Hrun.
    eexists. split; [reflexivity|].
    cbn [out_app writes out_nil app].
    unfold completeMasteryCheck, getTimestampDaysAgo.
    repeat constructor; try exact Ho; dated.
Qed.

Lemma allocateFrom_days (workingDays : list Z) (total : Z) :
  forall (modules : list (list LessonData)) (dayIndex : intnum),
    Forall (fun w => forall d, In d w -> In d workingDays)
      (fst (allocateFrom workingDays total modules dayIndex)).
Proof.
  induction modules as [|m rest IH]; intros dayIndex; cbn [allocateFrom].
  - constructor.
  - match goal with
    | |- context [allocateFrom workingDays total rest ?e] =>
        specialize (IH e); destruct (allocateFrom workingDays total rest e)
          as [windows final]
    end.
    cbn [fst] in *. constructor; [|exact IH].
    intros d. apply In_slice.
Qed.

Lemma moduleWorkingDays_days (workingDays : list Z)
    (lessonsByModule : list (list LessonData)) (windows : list (list Z)) :
  moduleWorkingDays workingDays lessonsByModule = Done windows ->
  Forall (fun w => forall d, In d w -> In d workingDays) windows.
Proof.
  unfold moduleWorkingDays.
  pose proof (allocateFrom_days workingDays (totalLessons lessonsByModule)
                lessonsByModule (Int 0)) as Hal.
  destruct (allocateFrom workingDays (totalLessons lessonsByModule)
              lessonsByModule (Int 0)) as [ws final].
  cbn [fst] in Hal.
  destruct (lt final (Int (length workingDays))).
  - destruct ws as [|w ws']; [discriminate|].
    intros H. injection H as <-.
    assert (Hne : w :: ws' <> []) by discriminate.
    rewrite (app_removelast_last [] Hne) in Hal.
    apply Forall_app in Hal. destruct Hal as [Hfront Hlast].
    apply Forall_app. split; [exact Hfront|].
    constructor; [|constructor].
    apply Forall_inv in Hlast. intros d Hd.
    apply in_app_or in Hd. destruct Hd as [Hd | Hd].
    + apply Hlast. exact Hd.
    + unfold slice_from in Hd. apply In_slice in Hd. exact Hd.
  - intros H. injection H as <-. exact Hal.
Qed.

(** X16. When no lesson has more than 13 questions, every row of a run
    is dated within the seeded days: not before 10 o'clock [daysToSeed]
    days ago and before the midnight that starts the day of the run. The
    run writes nothing dated on its own day or later, also for what it
    defers to a next working day. *)
Theorem run_rows_within_seeded_days (today daysToSeed groupId : Z)
    (enrollments : list Enrollment)
    (lessonsByModule : list (list LessonData)) (log : list DbWrite) :
  Forall (Forall (fun lesson => length (questions lesson) <= 13))
    lessonsByModule ->
  seedProgressEventsForGroup today daysToSeed groupId enrollments
    lessonsByModule = Done log ->
  Forall (fun w => 10 - 24 * daysToSeed <= timestamp w < 0) log.
Proof.
  intros Hq. unfold seedProgressEventsForGroup, seedProgressEventsOver.
  destruct (moduleWorkingDays (workingDaysOf today daysToSeed) lessonsByModule)
    as [windows|] eqn:Hwin; [|discriminate].
  assert (Hw : Forall (Forall (seeded_day daysToSeed)) windows).
  { apply moduleWorkingDays_days in Hwin.
    eapply Forall_impl; [|exact Hwin]. cbn beta. intros w Hin.
    apply Forall_forall. intros d Hd. apply Hin in Hd.
    apply workingDaysOf_In in Hd. unfold seeded_day. lia. }
  pose proof (scheduleStudents_within daysToSeed groupId (length enrollments)
                windows lessonsByModule Hw Hq enrollments 0) as Hwalk.
  destruct (scheduleStudents groupId (length enrollments) windows
              lessonsByModule enrollments 0) as [[[] walk]|]; [|discriminate].
  cbn [keeps] in Hwalk. destruct Hwalk as (Hw1 & Hw2 & Hw3).
  pose proof (keeps_for_of_in (within daysToSeed)
                (continueLesson groupId windows)
                (within_nil daysToSeed) (within_app daysToSeed)
                (partialLessonProgress walk)) as Hday2.
  destruct (for_of (partialLessonProgress walk) (continueLesson groupId windows))
    as [[[] day2]|]; [|discriminate].
  cbn [keeps] in Hday2. destruct Hday2 as (Hd1 & Hd2 & Hd3).
  { intros p Hp. apply continueLesson_within; [exact Hw|].
    rewrite Forall_forall in Hw2. apply Hw2. exact Hp. }
  destruct (completeMasteryChecks_within daysToSeed groupId
              (pendingMasteryChecks walk ++ pendingMasteryChecks day2))
    as (delayed & Hrun & Hdel).
  { apply Forall_app. split; assumption. }
  rewrite Hrun. intros H. injection H as <-.
  repeat (apply Forall_app; split); assumption.
Qed.

Lemma run_rows_within_seeded_days_witness :
  Forall (fun w => 10 - 24 * 3 <= timestamp w < 0)
    (match seedProgressEventsForGroup 4 3 7 (sampleEnrollments 2)
             (sampleModules 1 2 4) with
     | Done log => log
     | Throw => []
     end).
Proof.
  apply (run_rows_within_seeded_days 4 3 7 (sampleEnrollments 2)
           (sampleModules 1 2 4)).
  - repeat constructor; vm_compute; discriminate.
  - vm_compute. reflexivity.
Defined.

(** ** One lesson of one student over the passes *)

Lemma answeredQuestions_app (a b : list DbWrite) :
  answeredQuestions (a ++ b) = answeredQuestions a ++ answeredQuestions b.
Proof. unfold answeredQuestions. apply flat_map_app. Qed.

Lemma answeredQuestions_questionRows (groupId : Z) (enrollment : Enrollment)
    (lesson : LessonData) (dayOffset : Z) (hours : Z -> Z) :
  forall (qs : list LessonQuestion) (q : Z),
    answeredQuestions
      (questionRows groupId enrollment lesson dayOffset hours q qs)
    = map question_id qs.
Proof.
  induction qs as [|question qs IH]; intros q; cbn [questionRows map].
  - reflexivity.
  - rewrite answeredQuestions_app, IH. unfold questionRow.
    destruct (truthy (kcId question)); reflexivity.
Qed.

Lemma firstn_app_from_index {A : Type} (l : list A) (k : Z) :
  0 <= k -> firstn (Z.to_nat k) l ++ from_index l k = l.
Proof.
  intros Hk. unfold from_index.
  replace (k <? 0) with false by (symmetry; apply Z.ltb_ge; lia).
  apply firstn_skipn.
Qed.

(** X7. Whether a lesson is split or not, and whether its mastery check
    is delayed or not, the main pass and the pass over the split lessons
    together answer every question of the lesson once, in the order of
    the lesson, and complete the lesson once. *)
Theorem lesson_questions_answered_once (groupId : Z) (enrollment : Enrollment)
    (i moduleIndex : Z) (windows : list (list Z))
    (moduleDays availableDays : list Z) (perLesson : intnum) (lessonIdx : Z)
    (lesson : LessonData) (dayIdxOffset : intnum) (idx day1Offset : Z) :
  length (questions lesson) < 2 ^ 53 ->
  get windows (Int moduleIndex) = Some moduleDays ->
  Math_min dayIdxOffset (Int (length availableDays - 1)) = Int idx ->
  get availableDays (Int idx) = Some day1Offset ->
  exists next o day2,
    scheduleLesson groupId enrollment i moduleIndex moduleDays availableDays
      perLesson lessonIdx lesson dayIdxOffset = Done (next, o)
    /\ for_of (partialLessonProgress o) (continueLesson groupId windows)
       = Done (tt, day2)
    /\ answeredQuestions (writes o ++ writes day2)
       = map question_id (questions lesson)
    /\ count_rows is_lesson_completed (writes o ++ writes day2) = 1.
Proof.
  intros Hn Hwin Hmin Hget.
  pose proof (length_nonneg (questions lesson)) as Hn0.
  set (n := length (questions lesson)) in *.
  destruct (splitLesson i lessonIdx moduleIndex n) eqn:Hsplit.
  - rewrite (scheduleLesson_split groupId enrollment i moduleIndex moduleDays
               availableDays perLesson lessonIdx lesson dayIdxOffset idx
               day1Offset Hn Hsplit Hmin Hget).
    fold n.
    assert (Hn2 : 2 <= n).
    { unfold splitLesson in Hsplit. apply andb_prop in Hsplit.
      destruct Hsplit as [_ H2]. apply Z.leb_le in H2. exact H2. }
    assert (Hh : 1 <= n / 2 <= n).
    { split; [apply Z.div_le_lower_bound; lia | apply Z.div_le_upper_bound; lia]. }
    set (d2 := getNextWorkingDay day1Offset availableDays).
    set (p := {| partial_enrollment := enrollment; partial_lesson := lesson;
                 questionsCompleted := Int (n / 2);
                 partial_scheduledDayOffset := d2;
                 partial_moduleIndex := moduleIndex;
                 lessonIndex := lessonIdx |}).
    assert (Hcont : continueLesson groupId windows p
                    = Done (tt, continueLessonOut groupId p (n / 2) moduleDays)).
    { apply continueLesson_out; [reflexivity | cbn [partial_lesson p]; fold n; lia |].
      intros _. exact Hwin. }
    do 3 eexists. split; [reflexivity|].
    cbn [partialLessonProgress for_of]. rewrite Hcont.
    split; [reflexivity|].
    cbn [out_app out_nil writes]. rewrite app_nil_r.
    unfold continueLessonOut. cbn [partial_enrollment partial_lesson p
      partial_scheduledDayOffset lessonIndex partial_moduleIndex].
    fold n.
    destruct (delayMasteryCheck (lessonIdx + moduleIndex) && (1 <? d2));
      cbn [writes]; rewrite !answeredQuestions_app, !count_rows_app,
        !answeredQuestions_questionRows;
      (split;
       [ cbn [answeredQuestions flat_map]; rewrite ?app_nil_r;
         rewrite <- map_app, firstn_app_from_index by lia; reflexivity
       | match goal with
         | |- count_rows _ (questionRows ?g ?e ?l ?d ?h ?q ?qs)
              + (count_rows _ (questionRows ?g2 ?e2 ?l2 ?d2' ?h2 ?q2 ?qs2) + _)
              = _ =>
             destruct (questionRows_balanced g e l d h qs q) as (-> & _ & _);
             destruct (questionRows_balanced g2 e2 l2 d2' h2 qs2 q2)
               as (-> & _ & _)
         end; reflexivity ]).
  - rewrite (scheduleLesson_whole groupId enrollment i moduleIndex moduleDays
               availableDays perLesson lessonIdx lesson dayIdxOffset idx
               day1Offset Hsplit Hmin Hget).
    fold n. do 3 eexists. split; [reflexivity|].
    assert (Hq : partialLessonProgress
                   (out_app
                      (Build_Out
                         (questionRows groupId enrollment lesson day1Offset
                            (fun q => q) 0 (questions lesson)) [] [])
                      (completeTodayOut groupId enrollment lesson
                         (i + lessonIdx + moduleIndex) day1Offset n moduleIndex
                         moduleDays)) = []).
    { unfold completeTodayOut.
      destruct (delayMasteryCheck (i + lessonIdx + moduleIndex)
                && (1 <? day1Offset)); reflexivity. }
    rewrite Hq. cbn [for_of]. split; [reflexivity|].
    cbn [out_app out_nil writes]. rewrite app_nil_r.
    rewrite !answeredQuestions_app, !count_rows_app,
      !answeredQuestions_questionRows.
    destruct (questionRows_balanced groupId enrollment lesson day1Offset
                (fun q => q) (questions lesson) 0) as (-> & _ & _).
    unfold completeTodayOut.
    destruct (delayMasteryCheck (i + lessonIdx + moduleIndex)
              && (1 <? day1Offset)); cbn [writes];
      (split; [cbn [answeredQuestions flat_map]; rewrite ?app_nil_r; reflexivity
              | reflexivity]).
Qed.

Lemma lesson_questions_answered_once_witness :
  exists next o day2,
    scheduleLesson 7 (sampleEnrollment 0) 0 0 [3; 2; 1] [3; 2; 1] (Int 1) 1
      (sampleLesson 1 4) (Int 2) = Done (next, o)
    /\ for_of (partialLessonProgress o) (continueLesson 7 [[3; 2; 1]])
       = Done (tt, day2)
    /\ answeredQuestions (writes o ++ writes day2)
       = map question_id (questions (sampleLesson 1 4))
    /\ count_rows is_lesson_completed (writes o ++ writes day2) = 1.
Proof.
  apply (lesson_questions_answered_once 7 (sampleEnrollment 0) 0 0 [[3; 2; 1]]
           [3; 2; 1] [3; 2; 1] (Int 1) 1 (sampleLesson 1 4) (Int 2) 2 1).
  - vm_compute. reflexivity.
  - reflexivity.
  - reflexivity.
  - reflexivity.
Defined.

Lemma getNextWorkingDay_cases (c : Z) (s : list Z) :
  descending s ->
  getNextWorkingDay c s = Z.max 1 (c - 1) \/ In (getNextWorkingDay c s) s.
Proof.
  intros Hs. destruct (in_dec Z.eq_dec c s) as [Hin | Hout].
  - apply in_split in Hin. destruct Hin as (pre & post & ->).
    pose proof (descending_before pre post c Hs) as Hpre.
    destruct post as [|next post].
    + left. apply getNextWorkingDay_last. exact Hpre.
    + right. rewrite getNextWorkingDay_next by exact Hpre.
      apply in_or_app. right. right. left. reflexivity.
  - left. apply getNextWorkingDay_absent. exact Hout.
Qed.

(** X8. In a window that lists its days from the oldest to the most
    recent, all of them at least one day ago, the day that
    [getNextWorkingDay] gives for a day more than one day ago is strictly
    more recent and still at least one day ago: what is deferred moves
    toward the day of the run and never reaches it. *)
Theorem deferred_day_is_later (c : Z) (s : list Z) :
  descending s -> Forall (fun d => 1 <= d) s -> 1 < c ->
  1 <= getNextWorkingDay c s < c.
Proof.
  intros Hs Hall Hc. split.
  - destruct (getNextWorkingDay_cases c s Hs) as [-> | Hin]; [lia|].
    rewrite Forall_forall in Hall. apply Hall. exact Hin.
  - pose proof (getNextWorkingDay_later c s Hs Hc). lia.
Qed.

Lemma deferred_day_is_later_witness :
  1 <= getNextWorkingDay 5 [8; 5; 4; 1] < 5.
Proof.
  apply (deferred_day_is_later 5 [8; 5; 4; 1]).
  - repeat constructor.
  - repeat constructor; lia.
  - lia.
Defined.

(** ** Ramp-up lessons: [seedStandaloneLessonEvents] *)

(** [Math.floor(n / 4)] is the integer quotient. *)
Lemma floor_quarter (n : Z) :
  0 <= n < 2 ^ 53 -> Math_floor (div (ofInt n) (ofInt 4)) = Int (n / 4).
Proof.
  intros Hn. destruct (Z.eq_dec n 0) as [-> | Hn0]; [reflexivity|].
  destruct (Binary64.ofInt_pos n) as (m & e & -> & Hm & He & Hval); [lia|].
  change (ofInt 4) with (S754_finite false 4503599627370496 (-50)).
  rewrite Binary64.div_finite, Binary64.div_core by (cbn; lia).
  change (Zpos 4503599627370496) with (2 ^ 52).
  replace (Zpos m * 2 ^ 53) with (Zpos m * 2 * 2 ^ 52)
    by (change (2 ^ 53) with (2 * 2 ^ 52); lia).
  rewrite Z.div_mul, Z.mod_mul by lia.
  change (new_location (2 ^ 52) 0) with loc_Exact.
  destruct (Binary64.binary_round_aux_shape false (Zpos m * 2) (e - -50 - 53)
              loc_Exact) as (mr & _ & Hexact & ->); [lia|].
  replace (Zdigits2 (Zpos m * 2)) with 54 in *
    by (symmetry; change (Zpos m * 2) with (Zpos (m * 2));
        apply Binary64.Zdigits2_unique; rewrite Pos2Z.inj_mul; lia).
  rewrite Binary64.fexp_normal in *
    by (rewrite Binary64.emin_value; unfold prec; lia).
  replace (Z.max 0 (54 + (e - -50 - 53) - prec - (e - -50 - 53))) with 1 in *
    by (unfold prec; lia).
  change (2 ^ 1) with 2 in *.
  rewrite Hexact by (try reflexivity; apply Z.mod_mul; lia).
  rewrite Z.div_mul by lia.
  rewrite Binary64.packed_normal by lia.
  cbn [Math_floor cond_Zopp].
  destruct (Z.leb_spec 0 (e - -50 - 53 + 1)); [lia|].
  f_equal. rewrite Hval.
  replace (- (e - -50 - 53 + 1)) with (2 + - e) by lia.
  rewrite Z.pow_add_r by lia. change (2 ^ 2) with 4.
  assert (0 < 2 ^ (- e)) by (apply Z.pow_pos_nonneg; lia).
  apply Z.div_mul_cancel_r; lia.
Qed.

Lemma studentDayOffset_value (daysToSeed moduleIndex lessonIdx i : Z) :
  0 <= daysToSeed < 2 ^ 53 -> 0 <= i < 2 ^ 53 ->
  studentDayOffset (baseDayOffset daysToSeed moduleIndex lessonIdx) i
  = Int (Z.max 1 (daysToSeed - moduleIndex * (daysToSeed / 2) - lessonIdx
                  - i / 4)).
Proof.
  intros Hd Hi. unfold studentDayOffset, baseDayOffset.
  rewrite Binary64.floor_half, floor_quarter by assumption.
  cbn [times sub Math_max lt].
  destruct (Z.ltb_spec 1 (daysToSeed - moduleIndex * (daysToSeed / 2)
                          - lessonIdx - i / 4)); f_equal; lia.
Qed.

(** X9. The day of a student on a ramp-up lesson, computed in binary64
    with two roundings down, is the integer
    [max(1, daysToSeed - moduleIndex * (daysToSeed div 2) - lessonIdx
    - i div 4)]: at least one day ago, never before the first seeded
    day, and one day ago for every student from the third module on. *)
Theorem standalone_day_offset (daysToSeed moduleIndex lessonIdx i : Z) :
  1 <= daysToSeed < 2 ^ 53 -> 0 <= i < 2 ^ 53 ->
  0 <= moduleIndex -> 0 <= lessonIdx ->
  exists d,
    studentDayOffset (baseDayOffset daysToSeed moduleIndex lessonIdx) i = Int d
    /\ d = Z.max 1 (daysToSeed - moduleIndex * (daysToSeed / 2) - lessonIdx
                    - i / 4)
    /\ 1 <= d <= daysToSeed
    /\ (2 <= moduleIndex -> d = 1).
Proof.
  intros Hd Hi Hm Hl. eexists. split; [apply studentDayOffset_value; lia|].
  split; [reflexivity|].
  assert (0 <= daysToSeed / 2) by (apply Z.div_pos; lia).
  assert (0 <= i / 4) by (apply Z.div_pos; lia).
  assert (0 <= moduleIndex * (daysToSeed / 2)) by (apply Z.mul_nonneg_nonneg; lia).
  split; [lia|]. intros H2.
  pose proof (Z.div_mod daysToSeed 2 ltac:(lia)) as Hdm.
  pose proof (Z.mod_pos_bound daysToSeed 2 ltac:(lia)) as Hmod.
  assert (2 * (daysToSeed / 2) <= moduleIndex * (daysToSeed / 2))
    by (apply Z.mul_le_mono_nonneg_r; lia).
  lia.
Qed.

Lemma standalone_day_offset_witness :
  exists d,
    studentDayOffset (baseDayOffset 45 1 1) 9 = Int d
    /\ d = Z.max 1 (45 - 1 * (45 / 2) - 1 - 9 / 4)
    /\ 1 <= d <= 45
    /\ (2 <= 1 -> d = 1).
Proof.
  apply (standalone_day_offset 45 1 1 9); lia.
Defined.

Lemma for_index_ext {A S : Type} (body1 body2 : Z -> A -> S -> M S)
    (bound : intnum) :
  (forall j x t, body1 j x t = body2 j x t) ->
  forall (rest : list A) (k : Z) (s : S),
    for_index rest k bound body1 s = for_index rest k bound body2 s.
Proof.
  intros Hext. induction rest as [|x rest IH]; intros k s; cbn [for_index].
  - reflexivity.
  - destruct (lt (Int k) bound); [|reflexivity].
    rewrite Hext. unfold bind. destruct (body2 k x s) as [[s' o]|]; [|reflexivity].
    rewrite IH. reflexivity.
Qed.

(** Lines 642-657, on a day that is an integer: the rows of the
    questions, one hour apart from [10 + i % 4] o'clock on, then the
    completion. *)
Lemma completeStandaloneLesson_rows (groupId : Z)
    (lesson : Standalone.LessonData) (base : intnum) (i d : Z)
    (enrollment : Enrollment) :
  studentDayOffset base i = Int d ->
  completeStandaloneLesson groupId lesson base i enrollment
  = rows_only
      (questionRows groupId enrollment (as_lesson lesson) d
         (fun q => Z.rem i 4 + q) 0 (Standalone.questions lesson)
       ++ [lessonCompletedRow groupId enrollment (as_lesson lesson)
             (10 + (Z.rem i 4 + length (Standalone.questions lesson))
              - 24 * d)]).
Proof.
  intros Hday. unfold completeStandaloneLesson. rewrite Hday.
  rewrite (for_index_ext _
             (fun q question (_ : unit) =>
                answerQuestion groupId enrollment (as_lesson lesson) d
                  (Int (Z.rem i 4 + q)) q question)).
  2:{ intros j x t. cbn [dayOffsetOf]. rewrite bind_done. reflexivity. }
  pose proof (for_index_questions groupId enrollment (as_lesson lesson) d
                (fun q => Z.rem i 4 + q) (Standalone.questions lesson) 0
                (length (Standalone.questions lesson))) as Hloop.
  cbn beta in Hloop. rewrite Hloop.
  2:{ apply length_nonneg. }
  2:{ lia. }
  rewrite Z.sub_0_r. unfold length at 1. rewrite Nat2Z.id, firstn_all.
  rewrite bind_rows. cbn [dayOffsetOf]. rewrite bind_done.
  unfold getTimestampDaysAgo. rewrite bind_done.
  unfold createStandaloneLessonCompletedEvent, insert, rows_only,
    lessonCompletedRow.
  cbn [writes partialLessonProgress pendingMasteryChecks as_lesson lessonId].
  reflexivity.
Qed.



(** A loop over a whole array whose bodies return: it returns, and an
    additive measure of what it wrote is the sum over the elements. *)
Lemma for_index_sum {A : Type} (body : Z -> A -> unit -> M unit)
    (f : Out -> Z) (g : A -> Z) :
  f out_nil = 0 ->
  (forall a b, f (out_app a b) = f a + f b) ->
  forall (rest : list A) (k : Z),
    (forall j x, k <= j < k + length rest -> In x rest ->
                 exists o, body j x tt = Done (tt, o) /\ f o = g x) ->
    exists o,
      for_index rest k (Int (k + length rest)) body tt = Done (tt, o)
      /\ f o = fold_right (fun x sum => g x + sum) 0 rest.
Proof.
  intros Hnil Happ. induction rest as [|x rest IH]; intros k Hbody.
  - cbn [for_index lt]. unfold length. cbn [List.length Z.of_nat].
    rewrite Z.add_0_r, Z.ltb_irrefl. exists out_nil. split; [reflexivity|].
    exact Hnil.
  - cbn [for_index lt]. rewrite length_cons in *.
    pose proof (length_nonneg rest) as Hl.
    replace (k <? k + (length rest + 1)) with true
      by (symmetry; apply Z.ltb_lt; lia).
    destruct (Hbody k x ltac:(lia) (or_introl eq_refl)) as (o1 & H1 & Hf1).
    destruct (IH (k + 1)) as (o2 & H2 & Hf2).
    { intros j y Hj Hin. apply Hbody; [lia | right; exact Hin]. }
    replace (k + 1 + length rest) with (k + (length rest + 1)) in H2 by lia.
    rewrite H1. cbn [bind]. rewrite H2.
    eexists. split; [reflexivity|]. rewrite Happ, Hf1, Hf2. reflexivity.
Qed.

Lemma fold_right_const {A : Type} (c : Z) (l : list A) :
  fold_right (fun (_ : A) sum => c + sum) 0 l = c * length l.
Proof.
  induction l as [|x l IH]; cbn [fold_right].
  - unfold length. cbn. lia.
  - rewrite IH, length_cons. lia.
Qed.

Lemma count_completed_app (a b : Out) :
  count_rows is_lesson_completed (writes (out_app a b))
  = count_rows is_lesson_completed (writes a)
    + count_rows is_lesson_completed (writes b).
Proof. unfold out_app. cbn [writes]. apply count_rows_app. Qed.

Lemma completeStandaloneLesson_completes (daysToSeed groupId : Z)
    (moduleIndex lessonIdx i : Z) (lesson : Standalone.LessonData)
    (enrollment : Enrollment) :
  0 <= daysToSeed < 2 ^ 53 -> 0 <= i < 2 ^ 53 ->
  exists o,
    completeStandaloneLesson groupId lesson
      (baseDayOffset daysToSeed moduleIndex lessonIdx) i enrollment
    = Done (tt, o)
    /\ count_rows is_lesson_completed (writes o) = 1.
Proof.
  intros Hd Hi.
  rewrite (completeStandaloneLesson_rows groupId lesson _ i _ enrollment
             (studentDayOffset_value daysToSeed moduleIndex lessonIdx i Hd Hi)).
  eexists. split; [reflexivity|]. cbn [writes].
  rewrite count_rows_app.
  match goal with
  | |- count_rows _ (questionRows ?g ?e ?l ?d ?h ?q ?qs) + _ = _ =>
      destruct (questionRows_balanced g e l d h qs q) as (-> & _ & _)
  end.
  reflexivity.
Qed.

Lemma seedStandaloneLesson_counts (daysToSeed groupId : Z)
    (enrollments : list Enrollment) (moduleIndex lessonIdx : Z)
    (lesson : Standalone.LessonData) :
  0 <= daysToSeed < 2 ^ 53 -> length enrollments < 2 ^ 53 ->
  exists o,
    seedStandaloneLesson daysToSeed groupId enrollments moduleIndex lessonIdx
      lesson = Done (tt, o)
    /\ count_rows is_lesson_completed (writes o) = length enrollments.
Proof.
  intros Hd He. unfold seedStandaloneLesson.
  destruct (for_index_sum
              (fun i enrollment (_ : unit) =>
                 completeStandaloneLesson groupId lesson
                   (baseDayOffset daysToSeed moduleIndex lessonIdx) i
                   enrollment)
              (fun o => count_rows is_lesson_completed (writes o))
              (fun _ => 1) eq_refl count_completed_app enrollments 0)
    as (o & Hrun & Hcount).
  - intros j e Hj _.
    destruct (completeStandaloneLesson_completes daysToSeed groupId moduleIndex
                lessonIdx j lesson e Hd ltac:(lia)) as (o & Hrun & Hc).
    exists o. split; [exact Hrun | exact Hc].
  - rewrite Z.add_0_l in Hrun. exists o. split; [exact Hrun|].
    rewrite Hcount, fold_right_const. lia.
Qed.

(** X11. With days and hours within the range of [Date] (at most
    [maxDateDays] days to seed, fewer than [maxDateHours] questions in a
    lesson), [seedStandaloneLessonEvents] raises nothing, and every
    student completes every ramp-up lesson of every module: the run
    inserts one [LESSON_COMPLETED] row for each pair of a student and a
    ramp-up lesson. *)
Theorem all_students_complete_ramp_up_lessons (daysToSeed groupId : Z)
    (enrollments : list Enrollment)
    (standaloneLessonsByModule : list (list Standalone.LessonData)) :
  0 <= daysToSeed <= maxDateDays ->
  array_length_ok enrollments ->
  Forall (Forall (fun lesson =>
                    length (Standalone.questions lesson) < maxDateHours))
    standaloneLessonsByModule ->
  exists log,
    seedStandaloneLessonEvents daysToSeed groupId enrollments
      standaloneLessonsByModule = Done log
    /\ count_rows is_lesson_completed log
       = length enrollments * totalStandalone standaloneLessonsByModule.
Proof.
  intros Hd' He _. apply array_length_ok_53 in He.
  assert (Hd : 0 <= daysToSeed < 2 ^ 53)
    by (unfold maxDateDays in Hd'; change (2 ^ 53) with 9007199254740992; lia).
  unfold seedStandaloneLessonEvents.
  destruct (for_index_sum
              (fun moduleIndex standaloneLessons (_ : unit) =>
                 for_index standaloneLessons 0 (Int (length standaloneLessons))
                   (fun lessonIdx lesson (_ : unit) =>
                      seedStandaloneLesson daysToSeed groupId enrollments
                        moduleIndex lessonIdx lesson)
                   tt)
              (fun o => count_rows is_lesson_completed (writes o))
              (fun m => length enrollments * length m)
              eq_refl count_completed_app standaloneLessonsByModule 0)
    as (o & Hrun & Hcount).
  - intros moduleIndex standaloneLessons _ _.
    destruct (for_index_sum
                (fun lessonIdx lesson (_ : unit) =>
                   seedStandaloneLesson daysToSeed groupId enrollments
                     moduleIndex lessonIdx lesson)
                (fun o => count_rows is_lesson_completed (writes o))
                (fun _ => length enrollments)
                eq_refl count_completed_app standaloneLessons 0)
      as (o & Hrun & Hcount).
    + intros lessonIdx lesson _ _.
      apply seedStandaloneLesson_counts; assumption.
    + rewrite Z.add_0_l in Hrun. exists o. split; [exact Hrun|].
      rewrite Hcount. apply fold_right_const.
  - rewrite Z.add_0_l in Hrun. rewrite Hrun. eexists. split; [reflexivity|].
    rewrite Hcount. unfold totalStandalone. clear Hrun Hcount.
    induction standaloneLessonsByModule as [|m rest IH]; cbn [fold_right];
      [lia | rewrite IH; lia].
Qed.

Lemma all_students_complete_ramp_up_lessons_witness :
  exists log,
    seedStandaloneLessonEvents 45 7 (sampleEnrollments 13)
      [[sampleStandalone 1 4; sampleStandalone 2 4];
       [sampleStandalone 3 4; sampleStandalone 4 4]] = Done log
    /\ count_rows is_lesson_completed log
       = length (sampleEnrollments 13)
         * totalStandalone [[sampleStandalone 1 4; sampleStandalone 2 4];
                            [sampleStandalone 3 4; sampleStandalone 4 4]].
Proof.
  apply (all_students_complete_ramp_up_lessons 45 7 (sampleEnrollments 13)).
  - unfold maxDateDays. lia.
  - unfold array_length_ok. vm_compute. reflexivity.
  - repeat constructor.
Defined.

(** ** Points events: [seedPointsEvents] *)

(** Seven eighths, a number of 53 digits. *)
Lemma seven_eighths_normal : 2 ^ 52 <= Zpos 7881299347898368 < 2 ^ 53.
Proof. split; [vm_compute; discriminate | reflexivity]. Qed.

(** [Math.floor(x * days)] for a fraction [x] of at most seven eighths
    and at least one day: an integer from 0 to [days - 1]. *)
Lemma floor_fraction_lt (mx : positive) (ex days : Z) :
  2 ^ 52 <= Zpos mx < 2 ^ 53 -> -200 <= ex ->
  normal_le mx ex 7881299347898368 (-53) ->
  1 <= days < 2 ^ 53 ->
  exists s, Math_floor (mul (S754_finite false mx ex) (ofInt days)) = Int s
            /\ 0 <= s < days.
Proof.
  intros Hmx Hex Hle Hd.
  destruct (Binary64.ofInt_pos days) as (md & ed & -> & Hmd & Hed & Hvd); [lia|].
  apply Binary64.normal_le_scaled in Hle; [|lia | vm_compute; discriminate].
  destruct Hle as [Hex53 Hx].
  change (Zpos 7881299347898368) with (7 * 2 ^ 50) in Hx.
  assert (P3 : 0 < 2 ^ (-53 - ex)) by (apply Z.pow_pos_nonneg; lia).
  assert (Hsplit : 2 ^ (- ex) = 2 ^ 53 * 2 ^ (-53 - ex))
    by (rewrite <- Z.pow_add_r by lia; f_equal; lia).
  assert (Pd : 0 < 2 ^ (- ed)) by (apply Z.pow_pos_nonneg; lia).
  (* the largest number of 53 digits below [days] *)
  assert (Hz : exists mz ez,
             2 ^ 52 <= Zpos mz < 2 ^ 53 /\ ed - 1 <= ez <= ed
             /\ Zpos mx * Zpos md <= Zpos mz * 2 ^ (ez - (ex + ed))
             /\ Zpos mz * 2 ^ (ez - (ed - 1)) < 2 * Zpos md).
  { destruct (Z.eq_dec (Zpos md) (2 ^ 52)) as [Hpow | Hnot].
    - exists 9007199254740991%positive, (ed - 1).
      change (Zpos 9007199254740991) with (2 ^ 53 - 1).
      split; [vm_compute; split; [discriminate | reflexivity]|].
      split; [lia|]. split.
      + replace (ed - 1 - (ex + ed)) with (52 + (-53 - ex)) by lia.
        rewrite Z.pow_add_r by lia. rewrite Hpow.
        change (2 ^ 53) with (2 * 2 ^ 52) in *.
        change (2 ^ 52) with (4 * 2 ^ 50) in *. nia.
      + rewrite Z.sub_diag, Hpow. vm_compute. reflexivity.
    - destruct (Zpos md - 1) as [|mz|mz] eqn:Emz; try lia.
      exists mz, ed. split; [lia|]. split; [lia|]. split.
      + replace (ed - (ex + ed)) with (- ex) by lia. rewrite Hsplit.
        change (2 ^ 53) with (8 * 2 ^ 50) in *.
        change (2 ^ 52) with (4 * 2 ^ 50) in *. nia.
      + replace (ed - (ed - 1)) with 1 by lia. change (2 ^ 1) with 2. lia. }
  destruct Hz as (mz & ez & Hmz & Hez & Hprod & Hbelow).
  destruct (Binary64.mul_le mx md mz ex ed ez Hmx Hmd Hmz)
    as (m' & e' & -> & Hm' & He' & Hle'); try lia.
  apply Binary64.normal_le_scaled in Hle'; [|lia | lia].
  destruct Hle' as [He'z Hm'z].
  assert (Pz : 0 < 2 ^ (ez - e')) by (apply Z.pow_pos_nonneg; lia).
  assert (Pe : 0 < 2 ^ (ez - (ed - 1))) by (apply Z.pow_pos_nonneg; lia).
  cbn [Math_floor cond_Zopp].
  destruct (Z.leb_spec 0 e') as [Hpos | Hneg].
  - (* no fraction: the exponent is 0 *)
    assert (e' = 0) by lia. subst e'. change (2 ^ 0) with 1.
    exists (Zpos m' * 1). split; [reflexivity|].
    assert (ed = 0) by lia. subst ed. assert (ez = 0) by lia. subst ez.
    change (2 ^ (0 - 0)) with 1 in Hm'z.
    change (2 ^ (0 - (0 - 1))) with 2 in Hbelow.
    change (2 ^ (- 0)) with 1 in Hvd. lia.
  - exists (Zpos m' / 2 ^ (- e')). split; [reflexivity|].
    assert (Pe' : 0 < 2 ^ (- e')) by (apply Z.pow_pos_nonneg; lia).
    split; [apply Z.div_pos; lia|].
    apply Z.div_lt_upper_bound; [lia|].
    (* m' <= mz * 2^(ez - e') and mz * 2^(ez - ed + 1) < 2 * days * 2^(-ed) *)
    assert (Hs1 : 2 ^ (- e') = 2 ^ (- ed) * 2 ^ (ed - e'))
      by (rewrite <- Z.pow_add_r by lia; f_equal; lia).
    assert (Pde : 0 < 2 ^ (ed - e')) by (apply Z.pow_pos_nonneg; lia).
    rewrite Hs1.
    destruct (Z.eq_dec ez ed) as [-> | Hne].
    + replace (ed - (ed - 1)) with 1 in Hbelow by lia.
      change (2 ^ 1) with 2 in Hbelow. rewrite Hvd in Hbelow. nia.
    + assert (ez = ed - 1) by lia. subst ez.
      rewrite Z.sub_diag in Hbelow. change (2 ^ 0) with 1 in Hbelow.
      assert (Hs2 : 2 ^ (ed - e') = 2 * 2 ^ (ed - 1 - e')).
      { rewrite <- Z.pow_succ_r by lia. f_equal. lia. }
      rewrite Hs2. rewrite Hvd in Hbelow. nia.
Qed.

(** The quotients [t / transactionCount] of line 764, for the counts of
    the table: at most seven eighths. *)
Lemma points_fraction (t c : Z) :
  In c [8; 6; 5; 4; 3] -> 0 < t < c ->
  exists mx ex,
    div (ofInt t) (ofInt c) = S754_finite false mx ex
    /\ 2 ^ 52 <= Zpos mx < 2 ^ 53
    /\ -200 <= ex
    /\ normal_le mx ex 7881299347898368 (-53).
Proof.
  intros Hc Ht.
  assert (Hcases : t = 1 \/ t = 2 \/ t = 3 \/ t = 4 \/ t = 5 \/ t = 6 \/ t = 7).
  { cbn [In] in Hc. lia. }
  cbn [In] in Hc.
  destruct Hc as [<- | [<- | [<- | [<- | [<- | []]]]]];
    destruct Hcases as [-> | [-> | [-> | [-> | [-> | [-> | ->]]]]]];
    try lia;
    (eexists; eexists; split; [vm_compute; reflexivity|];
     split; [split; [vm_compute; discriminate | reflexivity]|];
     split; [vm_compute; discriminate|];
     first [ left; reflexivity
           | right; split; [reflexivity | vm_compute; discriminate] ]).
Qed.

Lemma pointsDaysAgo_range (t c daysToSeed : Z) :
  In c [8; 6; 5; 4; 3] -> 0 <= t < c -> 1 <= daysToSeed < 2 ^ 53 ->
  exists d, pointsDaysAgo t c daysToSeed = Int d /\ 1 <= d <= daysToSeed.
Proof.
  intros Hc Ht Hd. unfold pointsDaysAgo.
  destruct (Z.eq_dec t 0) as [-> | Ht0].
  - assert (Hq : div (ofInt 0) (ofInt c) = S754_zero false).
    { cbn [In] in Hc.
      destruct Hc as [<- | [<- | [<- | [<- | [<- | []]]]]]; reflexivity. }
    rewrite Hq.
    destruct (Binary64.ofInt_pos daysToSeed) as (md & ed & -> & _); [lia|].
    exists 1. split; [reflexivity | lia].
  - destruct (points_fraction t c Hc ltac:(lia)) as (mx & ex & -> & Hmx & Hex & Hle).
    destruct (floor_fraction_lt mx ex daysToSeed Hmx Hex Hle Hd)
      as (s & -> & Hs).
    exists (s + 1). split; [reflexivity | lia].
Qed.

Lemma pointsAmount_range (i t maxAmount : Z) :
  0 <= i -> 0 <= t -> 5 <= maxAmount ->
  exists a, pointsAmount i t maxAmount = Int a /\ 5 <= a <= maxAmount.
Proof.
  intros Hi Ht Hm. unfold pointsAmount, remainder.
  replace (maxAmount - 5 + 1 =? 0) with false by (symmetry; apply Z.eqb_neq; lia).
  eexists. split; [reflexivity|].
  pose proof (Z.rem_bound_pos ((i + t) * 7) (maxAmount - 5 + 1)
                ltac:(lia) ltac:(lia)).
  lia.
Qed.

Lemma point_description_defined (k : Z) :
  0 <= k ->
  exists text, get POINT_DESCRIPTIONS (Int (Z.rem k 5)) = Some text
               /\ In text POINT_DESCRIPTIONS.
Proof.
  intros Hk. pose proof (Z.rem_bound_pos k 5 Hk ltac:(lia)) as Hr.
  assert (Hc : Z.rem k 5 = 0 \/ Z.rem k 5 = 1 \/ Z.rem k 5 = 2
               \/ Z.rem k 5 = 3 \/ Z.rem k 5 = 4) by lia.
  destruct Hc as [-> | [-> | [-> | [-> | ->]]]];
    (eexists; split; [reflexivity|]; cbn; tauto).
Qed.

(** The two tables of lines 759-760, at the learner type of a student. *)
Lemma points_tables (i : Z) :
  0 <= i ->
  exists c maxAmount,
    get [8; 6; 5; 4; 3] (Int (Z.rem i 5)) = Some c
    /\ get [50; 40; 30; 25; 15] (Int (Z.rem i 5)) = Some maxAmount
    /\ In c [8; 6; 5; 4; 3]
    /\ 15 <= maxAmount <= 50.
Proof.
  intros Hi. pose proof (Z.rem_bound_pos i 5 Hi ltac:(lia)) as Hr.
  assert (Hc : Z.rem i 5 = 0 \/ Z.rem i 5 = 1 \/ Z.rem i 5 = 2
               \/ Z.rem i 5 = 3 \/ Z.rem i 5 = 4) by lia.
  destruct Hc as [-> | [-> | [-> | [-> | ->]]]];
    (do 2 eexists; split; [reflexivity|]; split; [reflexivity|];
     split; [cbn; tauto | lia]).
Qed.

(** X12. For at most [maxDateDays] days to seed (the range of [Date]), a
    points transaction of the student of index [i] is dated from 1 to
    [daysToSeed] days ago, between 10 and 15 o'clock, its amount is an
    integer from 5 to the largest amount of the student's learner type
    (at most 50), and its description is one of the five texts. *)
Theorem points_transaction_in_range (daysToSeed : Z) (enrollment : Enrollment)
    (i t : Z) :
  1 <= daysToSeed <= maxDateDays -> 0 <= i < 2 ^ 32 ->
  exists transactionCount maxAmount,
    get [8; 6; 5; 4; 3] (Int (Z.rem i 5)) = Some transactionCount
    /\ get [50; 40; 30; 25; 15] (Int (Z.rem i 5)) = Some maxAmount
    /\ (0 <= t < transactionCount ->
        exists row d a text,
          seedPointsTransaction daysToSeed enrollment i transactionCount
            maxAmount t = Done (tt, [row])
          /\ points_enrollmentId row = enrollment_id enrollment
          /\ points_created_at row = 10 + Z.rem t 6 - 24 * d
          /\ 1 <= d <= daysToSeed
          /\ 0 <= Z.rem t 6 <= 5
          /\ amount row = Int a /\ 5 <= a <= maxAmount /\ maxAmount <= 50
          /\ description row = Some text /\ In text POINT_DESCRIPTIONS).
Proof.
  intros Hd' [Hi _].
  assert (Hd : 1 <= daysToSeed < 2 ^ 53)
    by (unfold maxDateDays in Hd'; change (2 ^ 53) with 9007199254740992; lia).
  destruct (points_tables i Hi) as (c & maxAmount & Hc & Hm & Hin & Hmax).
  exists c, maxAmount. split; [exact Hc|]. split; [exact Hm|]. intros Ht.
  destruct (pointsDaysAgo_range t c daysToSeed Hin Ht Hd) as (d & Hday & Hdr).
  destruct (pointsAmount_range i t maxAmount Hi ltac:(lia) ltac:(lia))
    as (a & Ha & Har).
  destruct (point_description_defined (i + t) ltac:(lia)) as (text & Htext & Htin).
  unfold seedPointsTransaction. rewrite Hday. cbn [dayOffsetOf value ret wbind].
  eexists. exists d, a, text. split; [reflexivity|].
  cbn [points_enrollmentId points_created_at amount description app].
  pose proof (Z.rem_bound_pos t 6 ltac:(lia) ltac:(lia)).
  repeat split; try assumption; try lia.
Qed.

Lemma points_transaction_in_range_witness :
  exists row d a text,
    seedPointsTransaction 45 (sampleEnrollment 7) 7 5 30 4 = Done (tt, [row])
    /\ points_enrollmentId row = enrollment_id (sampleEnrollment 7)
    /\ points_created_at row = 10 + Z.rem 4 6 - 24 * d
    /\ 1 <= d <= 45
    /\ 0 <= Z.rem 4 6 <= 5
    /\ amount row = Int a /\ 5 <= a <= 30 /\ 30 <= 50
    /\ description row = Some text /\ In text POINT_DESCRIPTIONS.
Proof.
  destruct (points_transaction_in_range 45 (sampleEnrollment 7) 7 4)
    as (c & m & Hc & Hm & H); [unfold maxDateDays; lia | lia |].
  injection Hc as <-. injection Hm as <-. apply H. lia.
Defined.

Lemma pointsTransactionsOf_step (i : Z) :
  0 <= i ->
  pointsTransactionsOf (i + 1)
  = pointsTransactionsOf i + nth (Z.to_nat (Z.rem i 5)) [8; 6; 5; 4; 3] 0.
Proof.
  intros Hi. unfold pointsTransactionsOf.
  rewrite Z.rem_mod_nonneg by lia.
  pose proof (Z.div_mod i 5 ltac:(lia)) as Hdm.
  pose proof (Z.mod_pos_bound i 5 ltac:(lia)) as Hr.
  set (q := i / 5) in *. set (r := i mod 5) in *.
  assert (Hnext : forall q' r', i + 1 = 5 * q' + r' -> 0 <= r' < 5 ->
            (i + 1) / 5 = q' /\ (i + 1) mod 5 = r').
  { intros q' r' E B. split; symmetry;
      [apply (Z.div_unique (i + 1) 5 q' r') | apply (Z.mod_unique (i + 1) 5 q' r')];
      lia. }
  assert (Hc : r = 0 \/ r = 1 \/ r = 2 \/ r = 3 \/ r = 4) by lia.
  destruct Hc as [Hc | [Hc | [Hc | [Hc | Hc]]]]; rewrite Hc in *.
  - destruct (Hnext q 1) as [-> ->]; [lia | lia |].
    change (Z.to_nat 1) with 1%nat. change (Z.to_nat 0) with 0%nat.
    cbn [nth]. lia.
  - destruct (Hnext q 2) as [-> ->]; [lia | lia |].
    change (Z.to_nat 2) with 2%nat. change (Z.to_nat 1) with 1%nat.
    cbn [nth]. lia.
  - destruct (Hnext q 3) as [-> ->]; [lia | lia |].
    change (Z.to_nat 3) with 3%nat. change (Z.to_nat 2) with 2%nat.
    cbn [nth]. lia.
  - destruct (Hnext q 4) as [-> ->]; [lia | lia |].
    change (Z.to_nat 4) with 4%nat. change (Z.to_nat 3) with 3%nat.
    cbn [nth]. lia.
  - destruct (Hnext (q + 1) 0) as [-> ->]; [lia | lia |].
    change (Z.to_nat 4) with 4%nat. change (Z.to_nat 0) with 0%nat.
    cbn [nth]. lia.
Qed.

Lemma for_count_rows {R : Type} (P : R -> Prop) (body : Z -> W R unit) :
  forall (n : nat) (k : Z),
    (forall t, k <= t < k + Z.of_nat n ->
               exists row, body t = Done (tt, [row]) /\ P row) ->
    exists rows,
      for_count n k body = Done (tt, rows)
      /\ List.length rows = n /\ Forall P rows.
Proof.
  induction n as [|n IH]; intros k Hbody; cbn [for_count].
  - exists []. split; [reflexivity|]. split; [reflexivity | constructor].
  - destruct (Hbody k ltac:(lia)) as (row & Hrow & HP).
    destruct (IH (k + 1)) as (rows & Hrun & Hlen & Hall).
    { intros t Ht. apply Hbody. lia. }
    rewrite Hrow. cbn [wbind]. rewrite Hrun.
    exists (row :: rows). split; [reflexivity|].
    split; [cbn; lia | constructor; assumption].
Qed.

Lemma seedPointsOfStudent_rows (daysToSeed i : Z) (enrollment : Enrollment) :
  1 <= daysToSeed < 2 ^ 53 -> 0 <= i ->
  exists rows,
    seedPointsOfStudent daysToSeed i enrollment = Done (tt, rows)
    /\ length rows = nth (Z.to_nat (Z.rem i 5)) [8; 6; 5; 4; 3] 0
    /\ Forall (points_in_range daysToSeed) rows.
Proof.
  intros Hd Hi. unfold seedPointsOfStudent.
  destruct (points_tables i Hi) as (c & maxAmount & Hc & Hm & Hin & Hmax).
  rewrite Hc, Hm.
  assert (Hc0 : 0 <= c) by (cbn [In] in Hin; lia).
  destruct (for_count_rows (points_in_range daysToSeed)
              (seedPointsTransaction daysToSeed enrollment i c maxAmount)
              (Z.to_nat c) 0) as (rows & Hrun & Hlen & Hall).
  - intros t Ht.
    destruct (pointsDaysAgo_range t c daysToSeed Hin ltac:(lia) Hd)
      as (d & Hday & Hdr).
    destruct (pointsAmount_range i t maxAmount Hi ltac:(lia) ltac:(lia))
      as (a & Ha & Har).
    destruct (point_description_defined (i + t) ltac:(lia))
      as (text & Htext & _).
    unfold seedPointsTransaction. rewrite Hday.
    cbn [dayOffsetOf value ret wbind getTimestampDaysAgo emit app].
    eexists. split; [reflexivity|].
    unfold points_in_range.
    cbn [amount description points_created_at].
    pose proof (Z.rem_bound_pos t 6 ltac:(lia) ltac:(lia)).
    split; [exists a; split; [exact Ha | lia]|].
    split; [rewrite Htext; discriminate | lia].
  - exists rows. split; [exact Hrun|]. split; [|exact Hall].
    unfold length. rewrite Hlen.
    pose proof (Z.rem_bound_pos i 5 Hi ltac:(lia)) as Hr.
    assert (Hcase : Z.rem i 5 = 0 \/ Z.rem i 5 = 1 \/ Z.rem i 5 = 2
                    \/ Z.rem i 5 = 3 \/ Z.rem i 5 = 4) by lia.
    destruct Hcase as [E | [E | [E | [E | E]]]]; rewrite E in *;
      injection Hc as <-; reflexivity.
Qed.

Lemma seedPointsStudents_rows (daysToSeed : Z) :
  1 <= daysToSeed < 2 ^ 53 ->
  forall (enrollments : list Enrollment) (k : Z),
    0 <= k ->
    exists rows,
      for_each enrollments k (seedPointsOfStudent daysToSeed)
      = Done (tt, rows)
      /\ length rows
         = pointsTransactionsOf (k + length enrollments)
           - pointsTransactionsOf k
      /\ Forall (points_in_range daysToSeed) rows.
Proof.
  intros Hd. induction enrollments as [|e rest IH]; intros k Hk;
    cbn [for_each].
  - exists []. split; [reflexivity|]. split; [|constructor].
    unfold length. cbn [List.length Z.of_nat]. rewrite Z.add_0_r. lia.
  - destruct (seedPointsOfStudent_rows daysToSeed k e Hd Hk)
      as (rows1 & Hrun1 & Hlen1 & Hall1).
    destruct (IH (k + 1) ltac:(lia)) as (rows2 & Hrun2 & Hlen2 & Hall2).
    rewrite Hrun1. cbn [wbind]. rewrite Hrun2.
    exists (rows1 ++ rows2). split; [reflexivity|]. split.
    + rewrite length_app, Hlen1, Hlen2, length_cons.
      rewrite (pointsTransactionsOf_step k Hk).
      replace (k + (length rest + 1)) with (k + 1 + length rest) by lia. lia.
    + apply Forall_app. split; assumption.
Qed.

(** X13. For at most [maxDateDays] days to seed (the range of [Date]),
    [seedPointsEvents] raises nothing. It inserts 8, 6, 5, 4 or 3
    transactions for a student, by learner type: 26 for every five
    students. Every transaction lies within the seeded days, from 10
    o'clock [daysToSeed] days ago to 15 o'clock one day ago, with an
    amount from 5 to 50 and a description. *)
Theorem points_events_total (daysToSeed groupId : Z)
    (enrollments : list Enrollment) :
  1 <= daysToSeed <= maxDateDays ->
  array_length_ok enrollments ->
  exists rows,
    seedPointsEvents daysToSeed groupId enrollments = Done rows
    /\ length rows = pointsTransactionsOf (length enrollments)
    /\ Forall (points_in_range daysToSeed) rows.
Proof.
  intros Hd' _.
  assert (Hd : 1 <= daysToSeed < 2 ^ 53)
    by (unfold maxDateDays in Hd'; change (2 ^ 53) with 9007199254740992; lia).
  unfold seedPointsEvents.
  destruct (seedPointsStudents_rows daysToSeed Hd enrollments 0 ltac:(lia))
    as (rows & Hrun & Hlen & Hall).
  rewrite Hrun. exists rows. split; [reflexivity|]. split; [|exact Hall].
  rewrite Hlen, Z.add_0_l. unfold pointsTransactionsOf at 2. cbn. lia.
Qed.

Lemma points_events_total_witness :
  exists rows,
    seedPointsEvents 45 7 (sampleEnrollments 13) = Done rows
    /\ length rows = pointsTransactionsOf (length (sampleEnrollments 13))
    /\ Forall (points_in_range 45) rows.
Proof.
  apply (points_events_total 45 7 (sampleEnrollments 13)).
  - unfold maxDateDays. lia.
  - unfold array_length_ok. vm_compute. reflexivity.
Defined.

(** ** Attendance events: [seedAttendanceEvents] *)

Lemma present_count_step (i : Z) :
  0 <= i ->
  (i + 1) - (i + 1) / 4
  = (i - i / 4) + (if Z.rem i 4 =? 3 then 0 else 1).
Proof.
  intros Hi. rewrite Z.rem_mod_nonneg by lia.
  pose proof (Z.div_mod i 4 ltac:(lia)) as Hdm.
  pose proof (Z.mod_pos_bound i 4 ltac:(lia)) as Hr.
  set (q := i / 4) in *. set (r := i mod 4) in *.
  destruct (Z.eqb_spec r 3) as [Hr3 | Hr3].
  - rewrite <- (Z.div_unique (i + 1) 4 (q + 1) 0) by lia. lia.
  - rewrite <- (Z.div_unique (i + 1) 4 q (r + 1)) by lia. lia.
Qed.

Lemma attendance_rows (today : string) (groupId : Z) :
  forall (enrollments : list Enrollment) (k : nat),
    exists rows,
      for_each enrollments (Z.of_nat k)
        (fun i enrollment =>
           if Z.rem i 4 =? 3 then wret tt
           else emit (presentRow today groupId enrollment))
      = Done (tt, rows)
      /\ length rows
         = (Z.of_nat k + length enrollments
            - (Z.of_nat k + length enrollments) / 4)
           - (Z.of_nat k - Z.of_nat k / 4)
      /\ (forall j e, nth_error enrollments j = Some e ->
                      Z.rem (Z.of_nat (k + j)) 4 <> 3 ->
                      In (presentRow today groupId e) rows)
      /\ Forall (fun row =>
                   exists j e, nth_error enrollments j = Some e
                               /\ row = presentRow today groupId e
                               /\ Z.rem (Z.of_nat (k + j)) 4 <> 3) rows.
Proof.
  induction enrollments as [|e rest IH]; intros k; cbn [for_each].
  - exists []. split; [reflexivity|]. split; [|split].
    + unfold length. cbn [List.length Z.of_nat]. rewrite Z.add_0_r. lia.
    + intros j e' H. destruct j; discriminate H.
    + constructor.
  - destruct (IH (S k)) as (rows & Hrun & Hlen & Hin & Hall).
    replace (Z.of_nat (S k)) with (Z.of_nat k + 1) in * by lia.
    rewrite length_cons.
    replace (Z.of_nat k + (length rest + 1)) with (Z.of_nat k + 1 + length rest)
      by lia.
    pose proof (present_count_step (Z.of_nat k) ltac:(lia)) as Hstep.
    assert (Hshift : forall j, Z.of_nat (S k + j) = Z.of_nat (k + S j))
      by (intros; lia).
    destruct (Z.eqb_spec (Z.rem (Z.of_nat k) 4) 3) as [H3 | H3].
    + cbn [wbind wret]. rewrite Hrun. exists rows.
      split; [reflexivity|]. split; [lia|]. split.
      * intros j e' Hj Hne. destruct j as [|j].
        -- exfalso. apply Hne. rewrite Nat.add_0_r. exact H3.
        -- cbn [nth_error] in Hj. apply (Hin j e' Hj).
           rewrite Hshift. exact Hne.
      * eapply Forall_impl; [|exact Hall]. cbn beta.
        intros row (j & e' & Hj & Hrow & Hne).
        exists (S j), e'. split; [exact Hj|]. split; [exact Hrow|].
        rewrite <- Hshift. exact Hne.
    + cbn [wbind emit]. rewrite Hrun.
      exists (presentRow today groupId e :: rows).
      split; [reflexivity|]. split; [rewrite length_cons; lia|]. split.
      * intros j e' Hj Hne. destruct j as [|j].
        -- injection Hj as <-. left. reflexivity.
        -- right. cbn [nth_error] in Hj. apply (Hin j e' Hj).
           rewrite Hshift. exact Hne.
      * constructor.
        -- exists 0%nat, e. split; [reflexivity|]. split; [reflexivity|].
           rewrite Nat.add_0_r. exact H3.
        -- eapply Forall_impl; [|exact Hall]. cbn beta.
           intros row (j & e' & Hj & Hrow & Hne).
           exists (S j), e'. split; [exact Hj|]. split; [exact Hrow|].
           rewrite <- Hshift. exact Hne.
Qed.

(** X14. [seedAttendanceEvents] raises nothing and marks present the
    students whose index is not 3 modulo 4, and only them: of [n]
    students, [n - n div 4]. *)
Theorem attendance_three_of_four (today : string) (groupId : Z)
    (enrollments : list Enrollment) :
  exists rows,
    seedAttendanceEvents today groupId enrollments = Done rows
    /\ length rows = length enrollments - length enrollments / 4
    /\ (forall j e, nth_error enrollments j = Some e ->
                    Z.rem (Z.of_nat j) 4 <> 3 ->
                    In (presentRow today groupId e) rows)
    /\ Forall (fun row =>
                 exists j e, nth_error enrollments j = Some e
                             /\ row = presentRow today groupId e
                             /\ Z.rem (Z.of_nat j) 4 <> 3) rows.
Proof.
  destruct (attendance_rows today groupId enrollments 0)
    as (rows & Hrun & Hlen & Hin & Hall).
  exists rows. unfold seedAttendanceEvents.
  change (Z.of_nat 0) with 0 in Hrun. unfold presentRow in Hrun.
  rewrite Hrun. split; [reflexivity|]. split; [|split].
  - rewrite Hlen. change (Z.of_nat 0) with 0. rewrite !Z.add_0_l.
    change (0 / 4) with 0. lia.
  - exact Hin.
  - exact Hall.
Qed.

(** ** The first lesson in detail: [seedDetailedProgressForFirstLesson] *)

Lemma skipn_nth_error {A : Type} (l : list A) (k : nat) (x : A) :
  nth_error l k = Some x -> skipn k l = x :: skipn (S k) l.
Proof.
  revert k. induction l as [|y l IH]; intros k H.
  - destruct k; discriminate H.
  - destruct k as [|k]; cbn in *.
    + injection H as ->. reflexivity.
    + apply IH. exact H.
Qed.

Lemma skipn_past_end {A : Type} (l : list A) (k : nat) :
  nth_error l k = None -> skipn k l = [].
Proof. intros H. apply skipn_all2. apply nth_error_None. exact H. Qed.

(** The question loop of lines 386-403: the questions that exist, a
    quarter of an hour apart. *)
Lemma detailed_questions (groupId : Z) (enrollment : Enrollment)
    (lesson : LessonData) (base : Z) :
  forall (n : nat) (k : Z),
    0 <= k ->
    for_times n k
      (fun q =>
         match get (questions lesson) (Int q) with
         | None => ret tt
         | Some question =>
             createQuestionShownEvent enrollment lesson question groupId
               (base + q * 15 * 60 * 1000) ;;;
             createQuestionAnsweredEventWithTimestamp enrollment lesson
               question q groupId (base + q * 15 * 60 * 1000)
         end)
    = rows_only
        (questionRows groupId enrollment lesson 0
           (fun q => base - 10 + q * 15 * 60 * 1000) k
           (firstn n (skipn (Z.to_nat k) (questions lesson)))).
Proof.
  induction n as [|n IH]; intros k Hk; cbn [for_times].
  - reflexivity.
  - unfold get at 1.
    replace (k <? 0) with false by (symmetry; apply Z.ltb_ge; lia).
    rewrite (IH (k + 1)) by lia.
    replace (Z.to_nat (k + 1)) with (S (Z.to_nat k)) by lia.
    destruct (nth_error (questions lesson) (Z.to_nat k)) as [question|] eqn:Hq.
    + rewrite (skipn_nth_error _ _ _ Hq). cbn [firstn questionRows].
      unfold createQuestionShownEvent, createQuestionAnsweredEventWithTimestamp,
        createQuestionAnsweredEvent, questionRow, rows_only, insert, bind, ret,
        out_app, out_nil, shownRow, answeredRow.
      cbn beta.
      replace (10 + (base - 10 + k * 15 * 60 * 1000) - 24 * 0)
        with (base + k * 15 * 60 * 1000) by lia.
      destruct (truthy (kcId question)); reflexivity.
    + rewrite (skipn_past_end _ _ Hq).
      assert (Hnil : skipn (S (Z.to_nat k)) (questions lesson) = []).
      { apply skipn_all2. apply nth_error_None in Hq. lia. }
      rewrite Hnil, !firstn_nil. reflexivity.
Qed.

(** Lines 321-427: what a student who is not skipped writes. *)
Lemma seedDetailedProgressOfStudent_rows (getTimestamp : Z -> Period -> Z)
    (groupId : Z) (firstLesson : LessonData) (i : Z) (enrollment : Enrollment)
    (calls questionsCompleted : Z) (lessonCompleted masteryCheckCompleted : bool)
    (period : Period) :
  progressOf i
  = Some (questionsCompleted, lessonCompleted, masteryCheckCompleted, period) ->
  let base := getTimestamp calls period in
  let lessonTs := base + questionsCompleted * 15 * 60 * 1000 + 5 * 60 * 1000 in
  let masteryTs :=
    if Z.rem i 7 =? 4 then getTimestamp (calls + 1) PeriodToday
    else lessonTs + 5 * 60 * 1000 in
  exists calls',
    seedDetailedProgressOfStudent getTimestamp groupId firstLesson i enrollment
      calls
    = Done (calls',
            Build_Out
              (questionRows groupId enrollment firstLesson 0
                 (fun q => base - 10 + q * 15 * 60 * 1000) 0
                 (firstn (Z.to_nat questionsCompleted) (questions firstLesson))
               ++ detailedTail groupId enrollment firstLesson lessonCompleted
                    masteryCheckCompleted lessonTs masteryTs)
              [] []).
Proof.
  intros Hp base lessonTs masteryTs. unfold seedDetailedProgressOfStudent.
  rewrite Hp. fold base. rewrite detailed_questions by lia.
  change (Z.to_nat 0) with 0%nat. cbn [skipn]. rewrite bind_rows.
  unfold detailedTail.
  destruct lessonCompleted; [destruct masteryCheckCompleted|];
    eexists; cbn; rewrite ?app_nil_r; reflexivity.
Qed.

Lemma questionRows_affine_ordered (groupId : Z) (enrollment : Enrollment)
    (lesson : LessonData) (hours : Z -> Z) (a b : Z) :
  (forall k, hours k = a + k * b) -> 0 <= b ->
  forall (qs : list LessonQuestion) (q : Z),
    ordered_between (10 + (a + q * b)) (10 + (a + (q + length qs) * b))
      (questionRows groupId enrollment lesson 0 hours q qs).
Proof.
  intros Hh Hb. induction qs as [|question qs IH]; intros q.
  - apply ordered_between_nil.
  - cbn [questionRows]. rewrite length_cons.
    pose proof (length_nonneg qs) as Hl.
    assert (Hrow : ordered_between (10 + (a + q * b)) (10 + (a + q * b))
                     (questionRow groupId enrollment lesson question
                        (10 + hours q - 24 * 0))).
    { apply ordered_between_same. rewrite Hh. unfold questionRow.
      destruct (truthy (kcId question)); repeat constructor; cbn; lia. }
    specialize (IH (q + 1)).
    replace (q + (length qs + 1)) with (q + 1 + length qs) by lia.
    eapply ordered_between_app; [exact Hrow | exact IH | nia | nia | nia].
Qed.

Lemma progressOf_cases (i : Z) :
  0 <= i ->
  (Z.rem i 7 = 0 /\ progressOf i = None)
  \/ exists questionsCompleted lessonCompleted masteryCheckCompleted period,
       progressOf i = Some (questionsCompleted, lessonCompleted,
                            masteryCheckCompleted, period)
       /\ 1 <= Z.rem i 7 <= 6
       /\ questionsCompleted = questionsDoneBy i
       /\ 1 <= questionsCompleted <= 4
       /\ lessonCompleted = (3 <=? Z.rem i 7)
       /\ masteryCheckCompleted = (4 <=? Z.rem i 7).
Proof.
  intros Hi. pose proof (Z.rem_bound_pos i 7 Hi ltac:(lia)) as Hr.
  pose proof (Z.rem_bound_pos i 2 Hi ltac:(lia)) as Hr2.
  unfold progressOf, questionsDoneBy.
  assert (Hc : Z.rem i 7 = 0 \/ Z.rem i 7 = 1 \/ Z.rem i 7 = 2 \/ Z.rem i 7 = 3
               \/ Z.rem i 7 = 4 \/ Z.rem i 7 = 5 \/ Z.rem i 7 = 6) by lia.
  destruct Hc as [E | [E | [E | [E | [E | [E | E]]]]]]; rewrite E;
    [left; split; reflexivity | right ..];
    (do 4 eexists; split; [reflexivity|];
     split; [lia|]; split; [reflexivity|];
     split; [lia|]; split; reflexivity).
Qed.

(** X15. The rows of one student for the first lesson, whatever
    [getTimestamp] returns. The student answers the first questions of
    the lesson, as many as the type [i % 7] says (none, 1, 2 or 3, 4) or
    as the lesson has; the lesson is completed from type 3 on and the
    mastery check from type 4 on. The rows are in the order of their
    timestamps, for the type 4 provided that the date drawn for the
    mastery check is not before the lesson completion. *)
Theorem detailed_progress_of_student (getTimestamp : Z -> Period -> Z)
    (groupId : Z) (firstLesson : LessonData) (i : Z) (enrollment : Enrollment)
    (calls : Z) :
  0 <= i ->
  exists calls' o,
    seedDetailedProgressOfStudent getTimestamp groupId firstLesson i enrollment
      calls = Done (calls', o)
    /\ answeredQuestions (writes o)
       = map question_id
           (firstn (Z.to_nat (questionsDoneBy i)) (questions firstLesson))
    /\ count_rows is_lesson_completed (writes o)
       = (if 3 <=? Z.rem i 7 then 1 else 0)
    /\ count_rows is_mastery_completed (writes o)
       = (if 4 <=? Z.rem i 7 then 1 else 0)
    /\ (Z.rem i 7 <> 4
        \/ getTimestamp calls PeriodYesterday + 4 * 15 * 60 * 1000
           + 5 * 60 * 1000 <= getTimestamp (calls + 1) PeriodToday ->
        StronglySorted Z.le (map timestamp (writes o))).
Proof.
  intros Hi.
  destruct (progressOf_cases i Hi)
    as [[E Hp] | (qc & lc & mc & period & Hp & Hr & Hqc & Hq & Hlc & Hmc)].
  - unfold seedDetailedProgressOfStudent. rewrite Hp.
    exists calls, out_nil. split; [reflexivity|].
    unfold questionsDoneBy. rewrite E. cbn [writes out_nil].
    repeat split. intros _. constructor.
  - destruct (seedDetailedProgressOfStudent_rows getTimestamp groupId
                firstLesson i enrollment calls qc lc mc period Hp)
      as (calls' & Hrun).
    rewrite Hrun. exists calls'. eexists. split; [reflexivity|].
    cbn [writes]. rewrite <- Hqc.
    set (base := getTimestamp calls period) in *.
    set (qs := firstn (Z.to_nat qc) (questions firstLesson)).
    set (rows := questionRows groupId enrollment firstLesson 0
                   (fun q => base - 10 + q * 15 * 60 * 1000) 0 qs).
    destruct (questionRows_balanced groupId enrollment firstLesson 0
                (fun q => base - 10 + q * 15 * 60 * 1000) qs 0)
      as (Hc0 & Hm0 & Hr0).
    fold rows in Hc0, Hm0, Hr0.
    rewrite answeredQuestions_app, !count_rows_app, Hc0, Hm0.
    unfold rows at 1. rewrite answeredQuestions_questionRows.
    rewrite <- Hlc, <- Hmc.
    split; [|split; [|split]].
    + unfold detailedTail. destruct lc, mc; cbn; rewrite app_nil_r; reflexivity.
    + unfold detailedTail. destruct lc, mc; reflexivity.
    + unfold detailedTail. destruct lc, mc; try reflexivity.
      discriminate Hlc || (exfalso; clear - Hlc Hmc;
        destruct (Z.leb_spec 3 (Z.rem i 7)), (Z.leb_spec 4 (Z.rem i 7));
        try discriminate; lia).
    + intros Hord.
      pose proof (questionRows_affine_ordered groupId enrollment firstLesson
                    (fun q => base - 10 + q * 15 * 60 * 1000)
                    (base - 10) (15 * 60 * 1000)
                    ltac:(intros; cbn beta; lia) ltac:(lia) qs 0) as Hrows.
      fold rows in Hrows.
      assert (Hlen : 0 <= length qs <= qc).
      { split; [apply length_nonneg|]. unfold qs, length.
        rewrite List.length_firstn. lia. }
      set (lessonTs := base + qc * 15 * 60 * 1000 + 5 * 60 * 1000).
      set (masteryTs := if Z.rem i 7 =? 4
                        then getTimestamp (calls + 1) PeriodToday
                        else lessonTs + 5 * 60 * 1000).
      assert (Hm : mc = true -> lessonTs <= masteryTs).
      { intros ->. subst masteryTs.
        destruct (Z.eqb_spec (Z.rem i 7) 4) as [E4 | Hne]; [|lia].
        destruct Hord as [Hne | Hdraw]; [contradiction|].
        assert (Hpq : period = PeriodYesterday /\ qc = 4).
        { unfold progressOf in Hp. rewrite E4 in Hp. clear - Hp.
          injection Hp. intros. split; congruence. }
        destruct Hpq as [Hper Hq4]. subst lessonTs base.
        rewrite Hper, Hq4. lia. }
      assert (Htail : ordered_between lessonTs (Z.max lessonTs masteryTs)
                        (detailedTail groupId enrollment firstLesson lc mc
                           lessonTs masteryTs)).
      { unfold detailedTail. destruct lc; [|apply ordered_between_nil].
        destruct mc.
        - specialize (Hm eq_refl).
          replace (Z.max lessonTs masteryTs) with masteryTs by lia.
          apply completion_rows_ordered. exact Hm.
        - eapply ordered_between_weaken;
            [apply (ordered_between_same lessonTs); repeat constructor
            | lia | lia]. }
      refine (proj1 (ordered_between_app _ _ _ _ rows _ Hrows Htail _ _ _));
        subst lessonTs; nia.
Qed.

Lemma detailed_progress_of_student_witness :
  exists calls' o,
    seedDetailedProgressOfStudent (fun n _ => 1000000000 + n * 100000000) 7
      (sampleLesson 0 4) 11 (sampleEnrollment 11) 5 = Done (calls', o)
    /\ answeredQuestions (writes o)
       = map question_id
           (firstn (Z.to_nat (questionsDoneBy 11)) (questions (sampleLesson 0 4)))
    /\ count_rows is_lesson_completed (writes o)
       = (if 3 <=? Z.rem 11 7 then 1 else 0)
    /\ count_rows is_mastery_completed (writes o)
       = (if 4 <=? Z.rem 11 7 then 1 else 0)
    /\ (Z.rem 11 7 <> 4
        \/ (fun n (_ : Period) => 1000000000 + n * 100000000) 5 PeriodYesterday
           + 4 * 15 * 60 * 1000 + 5 * 60 * 1000
           <= (fun n (_ : Period) => 1000000000 + n * 100000000) (5 + 1)
                PeriodToday ->
        StronglySorted Z.le (map timestamp (writes o))).
Proof.
  apply (detailed_progress_of_student
           (fun n _ => 1000000000 + n * 100000000) 7 (sampleLesson 0 4) 11
           (sampleEnrollment 11) 5).
  lia.
Defined.

Lemma completed_among_step (i : Z) :
  0 <= i ->
  lessonCompletedAmong (i + 1)
  = lessonCompletedAmong i + (if 3 <=? Z.rem i 7 then 1 else 0)
  /\ masteryCompletedAmong (i + 1)
     = masteryCompletedAmong i + (if 4 <=? Z.rem i 7 then 1 else 0).
Proof.
  intros Hi. unfold lessonCompletedAmong, masteryCompletedAmong.
  rewrite Z.rem_mod_nonneg by lia.
  pose proof (Z.div_mod i 7 ltac:(lia)) as Hdm.
  pose proof (Z.mod_pos_bound i 7 ltac:(lia)) as Hr.
  set (q := i / 7) in *. set (r := i mod 7) in *.
  destruct (Z.eq_dec r 6) as [H6 | H6].
  - rewrite <- (Z.div_unique (i + 1) 7 (q + 1) 0),
      <- (Z.mod_unique (i + 1) 7 (q + 1) 0) by lia.
    rewrite H6. cbn [Z.leb Z.compare Pos.compare Pos.compare_cont]. lia.
  - rewrite <- (Z.div_unique (i + 1) 7 q (r + 1)),
      <- (Z.mod_unique (i + 1) 7 q (r + 1)) by lia.
    destruct (Z.leb_spec 3 r), (Z.leb_spec 4 r); lia.
Qed.

Lemma detailed_student_counts (getTimestamp : Z -> Period -> Z)
    (groupId : Z) (firstLesson : LessonData) (i : Z) (enrollment : Enrollment)
    (calls : Z) :
  0 <= i ->
  exists calls' o,
    seedDetailedProgressOfStudent getTimestamp groupId firstLesson i enrollment
      calls = Done (calls', o)
    /\ count_rows is_lesson_completed (writes o)
       = (if 3 <=? Z.rem i 7 then 1 else 0)
    /\ count_rows is_mastery_completed (writes o)
       = (if 4 <=? Z.rem i 7 then 1 else 0).
Proof.
  intros Hi.
  destruct (progressOf_cases i Hi)
    as [[E Hp] | (qc & lc & mc & period & Hp & Hr & Hqc & Hq & Hlc & Hmc)].
  - unfold seedDetailedProgressOfStudent. rewrite Hp, E.
    exists calls, out_nil. repeat split.
  - destruct (seedDetailedProgressOfStudent_rows getTimestamp groupId
                firstLesson i enrollment calls qc lc mc period Hp)
      as (calls' & Hrun).
    rewrite Hrun. exists calls'. eexists. split; [reflexivity|].
    cbn [writes]. rewrite !count_rows_app.
    match goal with
    | |- count_rows _ (questionRows ?g ?e ?l ?d ?h ?q ?qs) + _ = _ /\ _ =>
        destruct (questionRows_balanced g e l d h qs q) as (-> & -> & _)
    end.
    rewrite <- Hlc, <- Hmc. unfold detailedTail.
    destruct lc, mc; try (split; reflexivity).
    exfalso. clear - Hlc Hmc.
    destruct (Z.leb_spec 3 (Z.rem i 7)), (Z.leb_spec 4 (Z.rem i 7));
      try discriminate; lia.
Qed.

Lemma seedDetailedProgressFrom_counts (getTimestamp : Z -> Period -> Z)
    (groupId : Z) (firstLesson : LessonData) :
  forall (enrollments : list Enrollment) (i calls : Z),
    0 <= i ->
    exists calls' o,
      seedDetailedProgressFrom getTimestamp groupId firstLesson enrollments i
        calls = Done (calls', o)
      /\ count_rows is_lesson_completed (writes o)
         = lessonCompletedAmong (i + length enrollments)
           - lessonCompletedAmong i
      /\ count_rows is_mastery_completed (writes o)
         = masteryCompletedAmong (i + length enrollments)
           - masteryCompletedAmong i.
Proof.
  induction enrollments as [|e rest IH]; intros i calls Hi;
    cbn [seedDetailedProgressFrom].
  - exists calls, out_nil. split; [reflexivity|].
    unfold length. cbn [List.length Z.of_nat]. rewrite Z.add_0_r.
    split; cbn; lia.
  - destruct (detailed_student_counts getTimestamp groupId firstLesson i e
                calls Hi) as (calls1 & o1 & Hrun1 & Hc1 & Hm1).
    destruct (IH (i + 1) calls1 ltac:(lia)) as (calls2 & o2 & Hrun2 & Hc2 & Hm2).
    rewrite Hrun1. cbn [bind]. rewrite Hrun2.
    exists calls2. eexists. split; [reflexivity|].
    unfold out_app. cbn [writes]. rewrite !count_rows_app, length_cons.
    destruct (completed_among_step i Hi) as [Sc Sm].
    replace (i + (length rest + 1)) with (i + 1 + length rest) by lia.
    lia.
Qed.

(** X19. [seedDetailedProgressForFirstLesson] raises nothing, whatever
    [getTimestamp] returns and however few questions the first lesson
    has. Of [n] students, four of every seven complete the lesson and
    three of every seven its mastery check: the students of type 3 have
    the lesson done and the mastery check pending. *)
Theorem detailed_progress_totals (getTimestamp : Z -> Period -> Z)
    (groupId : Z) (enrollments : list Enrollment) (firstLesson : LessonData) :
  exists log,
    seedDetailedProgressForFirstLesson getTimestamp groupId enrollments
      firstLesson = Done log
    /\ count_rows is_lesson_completed log
       = lessonCompletedAmong (length enrollments)
    /\ count_rows is_mastery_completed log
       = masteryCompletedAmong (length enrollments).
Proof.
  unfold seedDetailedProgressForFirstLesson.
  destruct (seedDetailedProgressFrom_counts getTimestamp groupId firstLesson
              enrollments 0 0 ltac:(lia)) as (calls & o & Hrun & Hc & Hm).
  rewrite Hrun. exists (writes o). split; [reflexivity|].
  rewrite Hc, Hm, Z.add_0_l.
  unfold lessonCompletedAmong, masteryCompletedAmong.
  change (0 / 7) with 0. change (0 mod 7) with 0. cbn [Z.max]. split; lia.
Qed.
